(** * Palatine Speech node: the asynchronous task lifecycle

    A shallow embedding of [PalatineSpeechNode.execute] (the n8n node of
    n8n-nodes-palatine-speech) and of the helper closures it defines:
    [extractTaskId], [normalizeStatus], [isTerminalSuccess],
    [isTerminalFailure], [unwrapFinalPayload], the choice of the polling
    parameters, the submission request, the poll loop and the output record.

    Conventions of the embedding.
    - A JavaScript value is a term of [value]; objects are association lists
      in insertion order (the order matters for [JSON.stringify]).
    - A JavaScript string is a [string] whose characters are read as the code
      units 0..255 (Latin-1); [trim] and [toLowerCase] are the ECMAScript
      functions on that range.
    - A number of a JSON payload or of the persisted parameters is an
      integer of [Z] (task handles, JSON integers); the conversion
      [Number(raw)] of a raw persisted parameter gives such an integer or
      [NaN], which is [None].
    - A number that [getNodeParameter] hands over (a poll interval, an
      attempt count) is a [number]: [NaN], or a finite number given by its
      rational value and the text JavaScript writes for it.  A whole number
      [n] of [Z] is read as the number [whole n] wherever a [number] is
      expected.
    - The effects of [execute] (HTTP requests, sleeping, throwing) are kept in
      a small monad over the trace of events of the run.
    - What the node takes from outside is a parameter of the embedding: the
      transport that answers the requests, the built-in [Number], the
      message n8n-workflow gives a [NodeApiError], and the values the host
      returns for the parameters of an item. *)

From Stdlib Require Import ZArith List String Ascii Bool Lia.
From Stdlib Require Import DecimalString.
From Stdlib Require Import QArith Qround.
Import ListNotations.

Local Open Scope string_scope.
Local Open Scope Z_scope.

(* ===================================================================== *)
(** * JavaScript values *)
(* ===================================================================== *)

Module JS.

#[local] Set Warnings "-register-all".

Inductive value : Type :=
| VUndefined
| VNull
| VBool (b : bool)
| VNum (n : Z)
| VStr (s : string)
| VArr (xs : list value)
| VObj (fields : list (string * value)).

(** Own properties of an object literal, first binding of a key. *)
Fixpoint assoc {A : Type} (k : string) (l : list (string * A)) : option A :=
  match l with
  | [] => None
  | (k', x) :: r => if String.eqb k k' then Some x else assoc k r
  end.

(** [delete o[k]] on the property list. *)
Fixpoint remove_key {A : Type} (k : string) (l : list (string * A))
  : list (string * A) :=
  match l with
  | [] => []
  | (k', x) :: r =>
      if String.eqb k k' then remove_key k r else (k', x) :: remove_key k r
  end.

(** [v?.k]: a property read that yields [undefined] on [null] and
    [undefined].  On the other primitives and on arrays the names read by
    the node (status, result, task_id, text, ...) are not defined by any
    prototype, so the read yields [undefined] there as well. *)
Definition get (v : value) (k : string) : value :=
  match v with
  | VObj fs => match assoc k fs with Some x => x | None => VUndefined end
  | _ => VUndefined
  end.

(** The payload without its property [k]. *)
Definition delete_field (k : string) (v : value) : value :=
  match v with
  | VObj fs => VObj (remove_key k fs)
  | _ => v
  end.

(** [k in o] for a plain record of parameters. *)
Definition has_key {A : Type} (k : string) (l : list (string * A)) : bool :=
  match assoc k l with Some _ => true | None => false end.

(** ToBoolean. *)
Definition truthy (v : value) : bool :=
  match v with
  | VUndefined | VNull => false
  | VBool b => b
  | VNum n => negb (n =? 0)
  | VStr s => negb (String.eqb s "")
  | VArr _ | VObj _ => true
  end.

(** [a || b], [a ?? b], [v !== undefined], [typeof v]. *)
Definition or_else (a b : value) : value := if truthy a then a else b.

Definition nullish (v : value) : bool :=
  match v with VUndefined | VNull => true | _ => false end.

Definition coalesce (a b : value) : value := if nullish a then b else a.

Definition is_undefined (v : value) : bool :=
  match v with VUndefined => true | _ => false end.

Definition typeof_object (v : value) : bool :=
  match v with VNull | VArr _ | VObj _ => true | _ => false end.

Definition typeof_string (v : value) : bool :=
  match v with VStr _ => true | _ => false end.

(** [a || b] on strings: the empty string is the only falsy one. *)
Definition str_or (a b : string) : string :=
  if String.eqb a "" then b else a.

(** [list.includes(s)] on an array of strings. *)
Definition includes (l : list string) (s : string) : bool :=
  existsb (String.eqb s) l.

(** ** Strings *)

Definition code (c : ascii) : N := N_of_ascii c.

(** WhiteSpace and LineTerminator code units below 256: TAB, LF, VT, FF,
    CR, SP and NBSP. *)
Definition isWhiteSpace (c : ascii) : bool :=
  let n := code c in
  ((9 <=? n) && (n <=? 13) || (n =? 32) || (n =? 160))%N.

Fixpoint trimStart (s : string) : string :=
  match s with
  | EmptyString => EmptyString
  | String c r => if isWhiteSpace c then trimStart r else s
  end.

Fixpoint trimEnd (s : string) : string :=
  match s with
  | EmptyString => EmptyString
  | String c r =>
      let r' := trimEnd r in
      if isWhiteSpace c && String.eqb r' "" then EmptyString else String c r'
  end.

Definition trim (s : string) : string := trimEnd (trimStart s).

(** Lower case of one code unit: A-Z, and the Latin-1 capitals U+00C0 to
    U+00DE except the multiplication sign U+00D7. *)
Definition lower (c : ascii) : ascii :=
  let n := code c in
  if ((65 <=? n) && (n <=? 90)
      || (192 <=? n) && (n <=? 222) && negb (n =? 215))%N
  then ascii_of_N (n + 32) else c.

Fixpoint toLowerCase (s : string) : string :=
  match s with
  | EmptyString => EmptyString
  | String c r => String (lower c) (toLowerCase r)
  end.

(** Number::toString for an integer (below 10^21 in absolute value, where
    JavaScript writes all the digits). *)
Definition string_of_Z (n : Z) : string := NilZero.string_of_int (Z.to_int n).

(** ToString, as applied by a template literal [`${v}`]. *)
Fixpoint toString (v : value) : string :=
  match v with
  | VUndefined => "undefined"
  | VNull => "null"
  | VBool true => "true"
  | VBool false => "false"
  | VNum n => string_of_Z n
  | VStr s => s
  | VArr xs =>
      (fix join (l : list value) : string :=
         match l with
         | [] => ""
         | x :: r =>
             let e := if nullish x then "" else toString x in
             match r with
             | [] => e
             | _ :: _ => e ++ "," ++ join r
             end
         end) xs
  | VObj _ => "[object Object]"
  end.

(** ** JSON.stringify *)

Definition hex_digit (n : N) : ascii :=
  if (n <? 10)%N then ascii_of_N (48 + n) else ascii_of_N (87 + n).

(** QuoteJSONString, one code unit. *)
Definition quote_char (c : ascii) : string :=
  let n := code c in
  if (n =? 34)%N then String "\" (String c "")
  else if (n =? 92)%N then "\\"
  else if (n =? 8)%N then "\b"
  else if (n =? 9)%N then "\t"
  else if (n =? 10)%N then "\n"
  else if (n =? 12)%N then "\f"
  else if (n =? 13)%N then "\r"
  else if (n <? 32)%N then
    "\u00" ++ String (hex_digit (n / 16)) (String (hex_digit (n mod 16)) "")
  else String c "".

Fixpoint quote_chars (s : string) : string :=
  match s with
  | EmptyString => EmptyString
  | String c r => quote_char c ++ quote_chars r
  end.

Definition quote (s : string) : string :=
  String (ascii_of_N 34) (quote_chars s ++ String (ascii_of_N 34) "").

(** SerializeJSONProperty; [undefined] is the array-element case (it is
    written [null]), an object member whose value is [undefined] is left
    out. *)
Fixpoint serialize (v : value) : string :=
  match v with
  | VUndefined | VNull => "null"
  | VBool true => "true"
  | VBool false => "false"
  | VNum n => string_of_Z n
  | VStr s => quote s
  | VArr xs =>
      "[" ++
      (fix elements (l : list value) : string :=
         match l with
         | [] => ""
         | x :: r =>
             match r with
             | [] => serialize x
             | _ :: _ => serialize x ++ "," ++ elements r
             end
         end) xs ++ "]"
  | VObj fs =>
      "{" ++
      (fix members (first : bool) (l : list (string * value)) : string :=
         match l with
         | [] => ""
         | (k, x) :: r =>
             if is_undefined x then members first r
             else (if first then "" else ",") ++ quote k ++ ":" ++
                  serialize x ++ members false r
         end) true fs ++ "}"
  end.

(** [JSON.stringify(v)]: [undefined] for [undefined], else the text. *)
Definition JSON_stringify (v : value) : value :=
  match v with
  | VUndefined => VUndefined
  | _ => VStr (serialize v)
  end.

(** ** Numbers *)

(** A number as [getNodeParameter] can hand one over: [NaN], or a finite
    number, given by its value and by the text Number::toString writes for
    it.  Every finite double is a rational, and the node only compares
    these numbers and takes their minimum and maximum, which is exact on
    rationals.  The text of a number that is not whole (the shortest
    decimal that reads back as the same double) is not computed here, so
    the number carries it.  The infinities are left out: the clamp sends
    them to its bounds, as it does every number beyond the bounds. *)
Inductive number : Type :=
| NaN
| Num (q : Q) (text : string).

(** The whole number [n]. *)
Definition whole (n : Z) : number := Num (inject_Z n) (string_of_Z n).

Coercion whole : Z >-> number.

(** [a <= b]: false as soon as one side is [NaN]. *)
Definition number_le (a b : number) : bool :=
  match a, b with
  | Num x _, Num y _ => Qle_bool x y
  | _, _ => false
  end.

(** [Math.max(a, b)] and [Math.min(a, b)]: [NaN] as soon as one argument
    is [NaN], else the larger, respectively the smaller, of the two. *)
Definition Math_max (a b : number) : number :=
  match a, b with
  | Num x _, Num y _ => if Qle_bool x y then b else a
  | _, _ => NaN
  end.

Definition Math_min (a b : number) : number :=
  match a, b with
  | Num x _, Num y _ => if Qle_bool y x then b else a
  | _, _ => NaN
  end.

(** Number::toString, as applied by a template literal. *)
Definition number_toString (n : number) : string :=
  match n with
  | NaN => "NaN"
  | Num _ text => text
  end.

(** ** Blob *)

(** The code units a Blob type may hold: U+0020 to U+007E. *)
Definition isTypeChar (c : ascii) : bool :=
  let n := code c in ((32 <=? n) && (n <=? 126))%N.

Fixpoint every (f : ascii -> bool) (s : string) : bool :=
  match s with
  | EmptyString => true
  | String c r => f c && every f r
  end.

(** The [type] of [new Blob(parts, { type })]: the empty string when the
    given type holds a code unit outside U+0020..U+007E, else the given
    type in lower case. *)
Definition Blob_type (type : string) : string :=
  if every isTypeChar type then toLowerCase type else "".

End JS.

Export JS.

(* ===================================================================== *)
(** * The node *)
(* ===================================================================== *)

Module Node.

(** ** Response probing (the closures at the top of [execute]) *)

(** [extractTaskId]: [undefined] unless [resp] is a non-null object, else
    [resp.task_id || resp.taskId || resp.id || resp.task?.id]. *)
Definition extractTaskId (resp : value) : value :=
  if negb (truthy resp) || negb (typeof_object resp) then VUndefined
  else
    or_else (get resp "task_id")
      (or_else (get resp "taskId")
         (or_else (get resp "id") (get (get resp "task") "id"))).

(** [normalizeStatus]: trimmed and lower-cased when a string, else [''] *)
Definition normalizeStatus (s : value) : string :=
  match s with
  | VStr x => toLowerCase (trim x)
  | _ => ""
  end.

(** The [s] computed by both classifiers. *)
Definition status_of (statusPayload : value) : string :=
  str_or (normalizeStatus (get statusPayload "status"))
    (str_or (normalizeStatus (get statusPayload "state"))
       (normalizeStatus (get statusPayload "task_status"))).

Definition SUCCESS_STATUSES : list string :=
  ["completed"; "done"; "success"; "finished"].

Definition PROCESSING_STATUSES : list string :=
  ["queued"; "pending"; "processing"; "running"; "in_progress"].

Definition FAILURE_STATUSES : list string :=
  ["failed"; "error"; "canceled"; "cancelled"].

(** The [hasResult] of [isTerminalSuccess]. *)
Definition hasResult (statusPayload : value) : bool :=
  negb (is_undefined (get statusPayload "result"))
  || negb (is_undefined (get statusPayload "data"))
  || negb (is_undefined (get statusPayload "output"))
  || negb (is_undefined (get statusPayload "response")).

Definition isTerminalSuccess (statusPayload : value) : bool :=
  let s := status_of statusPayload in
  if includes SUCCESS_STATUSES s then true
  else
    let looksProcessing := includes PROCESSING_STATUSES s in
    hasResult statusPayload && negb looksProcessing.

Definition isTerminalFailure (statusPayload : value) : bool :=
  let s := status_of statusPayload in
  includes FAILURE_STATUSES s.

(** [unwrapFinalPayload]: a chain of [??]. *)
Definition unwrapFinalPayload (statusPayload : value) : value :=
  coalesce (get statusPayload "result")
    (coalesce (get statusPayload "data")
       (coalesce (get statusPayload "output")
          (coalesce (get statusPayload "response") statusPayload))).

(** ** Requests, errors and the trace of a run *)

Inductive FormEntry : Type :=
| FormFile (name : string) (content : list Byte.byte) (type : string)
    (filename : string)
| FormField (name : string) (text : string).

Definition FormData : Type := list FormEntry.

Record IHttpRequestOptions : Type := {
  method : string;
  url : string;
  qs : option (list (string * value));
  body : option FormData;
  json : bool
}.

(** The two errors the node throws; the error raised for an empty base URL
    is the only one that carries no item index. *)
Inductive error : Type :=
| NodeOperationError (message : string) (itemIndex : option nat)
| NodeApiError (cause : value) (itemIndex : nat).

(** What [httpRequestWithAuthentication] does with a request: it resolves
    with the parsed body or rejects with a cause. *)
Inductive reply : Type :=
| Resolve (response : value)
| Reject (cause : value).

Inductive event : Type :=
| EvRequest (options : IHttpRequestOptions)
| EvSleep (ms : number).

Definition trace : Type := list event.

Definition is_request (e : event) : bool :=
  match e with EvRequest _ => true | EvSleep _ => false end.

(** Number of HTTP requests issued so far. *)
Definition requests (t : trace) : nat := List.length (filter is_request t).

(** Result of a computation: a value, a thrown error, or a loop that was
    cut by its fuel. *)
Inductive outcome (A : Type) : Type :=
| Ok (a : A)
| Throw (e : error)
| OutOfFuel.

Arguments Ok {A} a.
Arguments Throw {A} e.
Arguments OutOfFuel {A}.

Definition M (A : Type) : Type := trace -> outcome A * trace.

Definition ret {A : Type} (a : A) : M A := fun t => (Ok a, t).

Definition throw {A : Type} (e : error) : M A := fun t => (Throw e, t).

Definition out_of_fuel {A : Type} : M A := fun t => (OutOfFuel, t).

Definition bind {A B : Type} (c : M A) (k : A -> M B) : M B :=
  fun t =>
    match c t with
    | (Ok a, t') => k a t'
    | (Throw e, t') => (Throw e, t')
    | (OutOfFuel, t') => (OutOfFuel, t')
    end.

Declare Scope node_scope.
Delimit Scope node_scope with node.
Notation "x <- c ;; k" := (bind c (fun x => k))
  (at level 61, c at next level, right associativity) : node_scope.
Notation "c ;; k" := (bind c (fun _ => k))
  (at level 61, right associativity) : node_scope.
Local Open Scope node_scope.

(** The trace with one more event at its end. *)
Definition emit (e : event) (t : trace) : trace := (t ++ [e])%list.

(** [sleep(ms)] from n8n-workflow. *)
Definition sleep (ms : number) : M unit := fun t => (Ok tt, emit (EvSleep ms) t).

(** ** Host data: items, binary attachments and node parameters *)

Record IBinaryData : Type := {
  fileName : option string;
  mimeType : option string;
  data : list Byte.byte
}.

Record INodeExecutionData : Type := {
  item_json : value;
  binary : option (list (string * IBinaryData));
  pairedItem : nat
}.

(** The values [getNodeParameter(name, i)] returns for one item.  The four
    polling values are read [as number] and come unchecked: they are the
    numbers [Math.max] finds in them, [NaN] included. *)
Record Parameters : Type := {
  binaryProperty : string;
  task : string;
  model : string;
  summarizeTask : string;
  summarizeThinking : bool;
  summarizePrompt : string;
  pollIntervalMs : number;
  maxPollAttempts : number;
  pollIntervalMsSummarize : number;
  maxPollAttemptsSummarize : number
}.

(** The defaults [description.properties] declares for the four polling
    parameters. *)
Definition default_pollIntervalMs : Z := 500.
Definition default_pollIntervalMsSummarize : Z := 20000.
Definition default_maxPollAttempts : Z := 200.
Definition default_maxPollAttemptsSummarize : Z := 500.

Definition dquote : string := String (ascii_of_N 34) "".

(** ** [execute] *)

Section Execute.

(** The built-in conversion [Number(v)]; [None] is [NaN]. *)
Variable Number : value -> option Z.

(** What the transport answers to the [n]-th request of the run. *)
Variable transport : nat -> IHttpRequestOptions -> reply.

(** The [request] closure: a rejection is rethrown as a [NodeApiError]
    tagged with the item index. *)
Definition request (options : IHttpRequestOptions) (itemIndex : nat)
  : M value :=
  fun t =>
    match transport (requests t) options with
    | Resolve response => (Ok response, emit (EvRequest options) t)
    | Reject cause =>
        (Throw (NodeApiError cause itemIndex), emit (EvRequest options) t)
    end.

(** ** Polling parameters (the block before the clamp, and the clamp) *)

(** [nodeParams[k]] *)
Definition param (nodeParams : list (string * value)) (k : string) : value :=
  match assoc k nodeParams with Some v => v | None => VUndefined end.

(** [typeof legacyRaw === 'number' ? legacyRaw : Number(legacyRaw)] *)
Definition legacy_of (legacyRaw : value) : option Z :=
  match legacyRaw with
  | VNum n => Some n
  | _ => Number legacyRaw
  end.

(** The backward-compatibility block for one parameter: [current] is the
    value read for [newKey]; the raw value under [oldKey] replaces it when
    [newKey] is not among the persisted parameters, [oldKey] is, and the
    legacy number is neither [NaN] nor one of [d1], [d2]. *)
Definition legacy_override (nodeParams : list (string * value))
    (newKey oldKey : string) (d1 d2 : Z) (current : number) : number :=
  if negb (has_key newKey nodeParams) && has_key oldKey nodeParams then
    let legacyRaw := param nodeParams oldKey in
    match legacy_of legacyRaw with
    | Some legacy =>
        if negb (legacy =? d1) && negb (legacy =? d2) then whole legacy
        else current
    | None => current
    end
  else current.

(** [pollIntervalMs] and [maxPollAttempts] as they stand just before the
    clamp. *)
Definition chosen_pollIntervalMs (p : Parameters)
    (nodeParams : list (string * value)) : number :=
  if String.eqb (task p) "summarize" then
    legacy_override nodeParams "pollIntervalMsSummarize" "pollIntervalMs"
      500 1000 (pollIntervalMsSummarize p)
  else pollIntervalMs p.

Definition chosen_maxPollAttempts (p : Parameters)
    (nodeParams : list (string * value)) : number :=
  if String.eqb (task p) "summarize" then
    legacy_override nodeParams "maxPollAttemptsSummarize" "maxPollAttempts"
      200 300 (maxPollAttemptsSummarize p)
  else maxPollAttempts p.

(** [Math.min(hi, Math.max(lo, x))] *)
Definition clamp (lo hi : Z) (x : number) : number :=
  Math_min (whole hi) (Math_max (whole lo) x).

Definition used_pollIntervalMs (p : Parameters)
    (nodeParams : list (string * value)) : number :=
  clamp 500 900000 (chosen_pollIntervalMs p nodeParams).

Definition used_maxPollAttempts (p : Parameters)
    (nodeParams : list (string * value)) : number :=
  clamp 1 1000 (chosen_maxPollAttempts p nodeParams).

(** ** One item: submission, polling, output record *)

(** [o || d] for an optional string property. *)
Definition opt_or (o : option string) (d : string) : string :=
  match o with
  | Some s => str_or s d
  | None => d
  end.

Definition opt_value (o : option string) : value :=
  match o with
  | Some s => VStr s
  | None => VUndefined
  end.

(** [items[i].binary?.[binaryProperty]] *)
Definition binary_of (item : INodeExecutionData) (binaryProperty : string)
  : option IBinaryData :=
  match binary item with
  | Some b => assoc binaryProperty b
  | None => None
  end.

(** [model]: read only for the transcribe task, else [undefined]. *)
Definition model_of (p : Parameters) : option string :=
  if String.eqb (task p) "transcribe" then Some (model p) else None.

(** [summarizePromptRaw]: read only for summarize with [user_prompt]. *)
Definition summarizePromptRaw (p : Parameters) : string :=
  if String.eqb (task p) "summarize"
     && String.eqb (summarizeTask p) "user_prompt"
  then str_or (summarizePrompt p) ""
  else "".

Definition promptToSend (summarizeTask summarizePromptRaw : string)
  : string :=
  if String.eqb summarizeTask "meeting_summary" then "*"
  else str_or (trim (str_or summarizePromptRaw "")) "*".

(** The [switch (task)]: the endpoint and the query string, or an error. *)
Definition endpoint (baseUrl : string) (p : Parameters) (i : nat)
  : M (string * option (list (string * value))) :=
  if String.eqb (task p) "transcribe" then
    ret (baseUrl ++ "/api/v1/transcribe/do_transcribe", None)
  else if String.eqb (task p) "diarize" then
    ret (baseUrl ++ "/api/v1/diarization/do_diarize", None)
  else if String.eqb (task p) "sentiment" then
    ret (baseUrl ++ "/api/v1/sentiment_analysis/analyze_file", None)
  else if String.eqb (task p) "summarize" then
    if String.eqb (summarizeTask p) "" then
      throw (NodeOperationError "Summarize: summarizeTask is missing" (Some i))
    else
      ret (baseUrl ++ "/api/v1/ai_service/summarize_file",
           Some [("task", VStr (summarizeTask p));
                 ("prompt",
                  VStr (promptToSend (summarizeTask p) (summarizePromptRaw p)));
                 ("thinking", VBool (summarizeThinking p))])
  else throw (NodeOperationError ("Unknown task: " ++ task p) (Some i)).

(** The multipart form: the file, a Blob of the bytes whose type is what
    [new Blob] keeps of [mimeType], and the model when there is one. *)
Definition form_of (binaryData : IBinaryData) (model : option string)
  : FormData :=
  let fileName := opt_or (fileName binaryData) "audio" in
  let mimeType := opt_or (mimeType binaryData) "audio/mpeg" in
  (FormFile "file" (data binaryData) (Blob_type mimeType) fileName ::
   match model with
   | Some m => if String.eqb m "" then [] else [FormField "model" m]
   | None => []
   end)%list.

Definition createOptions (url : string) (qs : option (list (string * value)))
    (form : FormData) : IHttpRequestOptions :=
  {| method := "POST"; url := url; qs := qs; body := Some form;
     json := true |}.

Definition statusOptions (statusUrl : string) : IHttpRequestOptions :=
  {| method := "GET"; url := statusUrl; qs := None; body := None;
     json := true |}.

Definition statusUrl_of (baseUrl : string) (taskId : value) : string :=
  baseUrl ++ "/api/v1/transcribe/task_status/" ++ toString taskId.

(** Message of the error thrown on a terminal failure. *)
Definition failure_message (taskId statusPayload : value) : string :=
  "Task " ++ toString taskId ++ " failed: " ++
  toString (or_else (get statusPayload "error")
              (or_else (get statusPayload "message")
                 (JSON_stringify statusPayload))).

(** Message of the error thrown when the attempts are used up. *)
Definition timeout_message (taskId : value) (maxPollAttempts : number)
  : string :=
  "Task " ++ toString taskId ++ " did not complete within polling limit (" ++
  number_toString maxPollAttempts ++ " attempts)".

(** The turns the loop below can take: the whole numbers [attempt], from 1
    on, with [attempt <= maxPollAttempts]. *)
Definition attempts (maxPollAttempts : number) : nat :=
  match maxPollAttempts with
  | NaN => O
  | Num q _ => Z.to_nat (Qfloor q)
  end.

(** The [for (attempt = 1; attempt <= maxPollAttempts; attempt++)] loop,
    entered at [attempt].  It yields [Some finalResponse] when it leaves
    through [break] with [completed = true] and [None] when the condition
    fails with [completed] still [false]. *)
Fixpoint poll_loop (i : nat) (taskId : value) (statusUrl : string)
    (pollIntervalMs maxPollAttempts : number) (fuel : nat) (attempt : Z)
  : M (option value) :=
  if number_le (whole attempt) maxPollAttempts then
    match fuel with
    | O => out_of_fuel
    | S fuel' =>
        statusPayload <- request (statusOptions statusUrl) i ;;
        if isTerminalFailure statusPayload then
          throw (NodeOperationError (failure_message taskId statusPayload)
                   (Some i))
        else if isTerminalSuccess statusPayload then
          ret (Some (unwrapFinalPayload statusPayload))
        else
          sleep pollIntervalMs ;;
          poll_loop i taskId statusUrl pollIntervalMs maxPollAttempts fuel'
            (attempt + 1)
    end
  else ret None.

(** The [if (taskId) { ... }] block: the final response of the item. *)
Definition poll (baseUrl : string) (i : nat) (createResp : value)
    (pollIntervalMs maxPollAttempts : number) : M value :=
  let taskId := extractTaskId createResp in
  if truthy taskId then
    let statusUrl := statusUrl_of baseUrl taskId in
    completed <- poll_loop i taskId statusUrl pollIntervalMs maxPollAttempts
                   (attempts maxPollAttempts) 1 ;;
    match completed with
    | Some finalResponse => ret finalResponse
    | None =>
        throw (NodeOperationError (timeout_message taskId maxPollAttempts)
                 (Some i))
    end
  else ret createResp.

(** The output record [result]. *)
Definition result_of (p : Parameters) (binaryData : IBinaryData)
    (finalResponse : value) : value :=
  let model := model_of p in
  VObj
    ([("task", VStr (task p));
      ("source_file", opt_value (fileName binaryData))]
     ++ match model with
        | Some m =>
            if String.eqb (task p) "transcribe" && negb (String.eqb m "")
            then [("model_used", VStr m)] else []
        | None => []
        end
     ++ (if String.eqb (task p) "transcribe" then
           [("transcription",
             match finalResponse with
             | VStr s => VStr (trim s)
             | _ =>
                 or_else (get finalResponse "text")
                   (or_else (get finalResponse "transcription")
                      (or_else (get (get finalResponse "data") "text")
                         (VStr "")))
             end)]
         else if String.eqb (task p) "diarize" then
           [("diarization", finalResponse)]
         else if String.eqb (task p) "sentiment" then
           [("sentiment", finalResponse)]
         else if String.eqb (task p) "summarize" then
           [("summary",
             match finalResponse with
             | VStr s => finalResponse
             | _ =>
                 or_else (get finalResponse "summary")
                   (or_else (get finalResponse "result")
                      (or_else (get finalResponse "text") finalResponse))
             end)]
         else []))%list.

(** The body of the [try] for item [i]. *)
Definition execute_item (baseUrl : string)
    (nodeParams : list (string * value)) (p : Parameters)
    (item : INodeExecutionData) (i : nat) : M INodeExecutionData :=
  match binary_of item (binaryProperty p) with
  | None =>
      throw (NodeOperationError
               ("No binary data in property " ++ dquote ++ binaryProperty p
                ++ dquote) (Some i))
  | Some binaryData =>
      let pollIntervalMs := used_pollIntervalMs p nodeParams in
      let maxPollAttempts := used_maxPollAttempts p nodeParams in
      target <- endpoint baseUrl p i ;;
      let form := form_of binaryData (model_of p) in
      createResp <- request (createOptions (fst target) (snd target) form) i ;;
      finalResponse <- poll baseUrl i createResp pollIntervalMs
                         maxPollAttempts ;;
      ret {| item_json := result_of p binaryData finalResponse;
             binary := binary item;
             pairedItem := i |}
  end.

(** ** All items: the [for] loop of [execute] and its [catch] *)

(** The message n8n-workflow gives a [NodeApiError] built from a cause. *)
Variable apiErrorMessage : value -> string.

(** [error.message] *)
Definition message_of (e : error) : string :=
  match e with
  | NodeOperationError message _ => message
  | NodeApiError cause _ => apiErrorMessage cause
  end.

(** [s.replace(/\/$/, '')]: one slash at the very end is removed. *)
Fixpoint strip_trailing_slash (s : string) : string :=
  match s with
  | EmptyString => EmptyString
  | String c r =>
      if Ascii.eqb c "/" && String.eqb r "" then EmptyString
      else String c (strip_trailing_slash r)
  end.

(** [String(credentials.baseUrl || '').replace(/\/$/, '')] *)
Definition baseUrl_of (credentials_baseUrl : value) : string :=
  strip_trailing_slash (toString (or_else credentials_baseUrl (VStr ""))).

(** The [try { ... } catch (error) { ... }] around the body of one item:
    with [continueOnFail] a thrown error becomes a record that carries its
    message and the pairing index, without it the error goes on. *)
Definition try_item (continueOnFail : bool) (i : nat)
    (body : M INodeExecutionData) : M INodeExecutionData :=
  fun t =>
    match body t with
    | (Throw e, t') =>
        if continueOnFail then
          (Ok {| item_json := VObj [("error", VStr (message_of e))];
                 binary := None;
                 pairedItem := i |}, t')
        else (Throw e, t')
    | r => r
    end.

(** The loop over the items from index [i] on; the records it pushes. *)
Fixpoint execute_from (baseUrl : string) (nodeParams : list (string * value))
    (getNodeParameter : nat -> Parameters) (continueOnFail : bool)
    (items : list INodeExecutionData) (i : nat)
  : M (list INodeExecutionData) :=
  match items with
  | [] => ret []
  | item :: rest =>
      r <- try_item continueOnFail i
             (execute_item baseUrl nodeParams (getNodeParameter i) item i) ;;
      returnData <- execute_from baseUrl nodeParams getNodeParameter
                      continueOnFail rest (S i) ;;
      ret (r :: returnData)
  end.

(** [execute]: the credential check, then the items in order.
    [parameters] are the persisted parameters of the node
    ([this.getNode().parameters], possibly missing). *)
Definition execute (credentials_baseUrl : value)
    (parameters : option (list (string * value)))
    (getNodeParameter : nat -> Parameters) (continueOnFail : bool)
    (items : list INodeExecutionData) : M (list INodeExecutionData) :=
  let baseUrl := baseUrl_of credentials_baseUrl in
  if String.eqb baseUrl "" then
    throw (NodeOperationError
             ("Credential " ++ dquote ++ "Base URL" ++ dquote ++ " is empty")
             None)
  else
    let nodeParams := match parameters with Some ps => ps | None => [] end in
    execute_from baseUrl nodeParams getNodeParameter continueOnFail items 0.

End Execute.

End Node.

(* ===================================================================== *)
(** * The vocabulary of the specification *)
(* ===================================================================== *)

(** The notions the specification uses to describe the node, written from
    its wording; the theorems below compare them with the code. *)

Module Spec.

Import Node.

(** A field is present in a payload when the payload is an object that has
    it: reading it does not give [undefined]. *)
Definition present (p : value) (f : string) : Prop := get p f <> VUndefined.

(** The first present value of a list of candidate reads, [None] when no
    candidate is present. *)
Fixpoint first_present (candidates : list value) : option value :=
  match candidates with
  | [] => None
  | v :: r => if is_undefined v then first_present r else Some v
  end.

(** The three names a status may be carried under, in order of
    precedence. *)
Definition STATUS_FIELDS : list string := ["status"; "state"; "task_status"].

(** The wrapper fields a result may be carried under, in order. *)
Definition RESULT_FIELDS : list string :=
  ["result"; "data"; "output"; "response"].

(** A field carries no status when it is absent, holds something that is
    not a string, or holds a string that is empty once trimmed. *)
Definition blank (v : value) : Prop := normalizeStatus v = "".

(** [carries p f raw]: the field [f] is the one that carries the status of
    [p], as the string [raw]; the fields before it carry none. *)
Inductive carries (p : value) : string -> string -> Prop :=
| carries_status raw :
    get p "status" = VStr raw -> carries p "status" raw
| carries_state raw :
    blank (get p "status") -> get p "state" = VStr raw ->
    carries p "state" raw
| carries_task_status raw :
    blank (get p "status") -> blank (get p "state") ->
    get p "task_status" = VStr raw -> carries p "task_status" raw.

(** At least one of the result-bearing fields is present. *)
Definition has_result_field (p : value) : Prop :=
  exists f, In f RESULT_FIELDS /\ present p f.

(** The candidate reads of the task identifier, in order of precedence:
    [task_id], [taskId], [id], and the nested [task.id]. *)
Definition id_candidates (resp : value) : list value :=
  [get resp "task_id"; get resp "taskId"; get resp "id";
   get (get resp "task") "id"].

(** Task identifier extraction as the specification words it: the first
    present candidate, "not present" ([undefined]) when there is none. *)
Definition first_present_id (resp : value) : value :=
  match first_present (id_candidates resp) with
  | Some v => v
  | None => VUndefined
  end.

(** The reads of the four wrapper fields. *)
Definition wrappers (p : value) : list value :=
  map (get p) RESULT_FIELDS.

(** The result unwrapper as the specification words it: the first present
    wrapper value, the whole payload when no wrapper field exists. *)
Definition first_present_wrapper (p : value) : value :=
  match first_present (wrappers p) with
  | Some v => v
  | None => p
  end.

(** The backward-compatibility rule as the specification words it: the
    legacy value replaces the per-task one when the newer key was never
    configured and the legacy key holds a number other than its default
    ([oldDefault]: [default_pollIntervalMs], [default_maxPollAttempts]). *)
Definition legacy_rule (nodeParams : list (string * value))
    (newKey oldKey : string) (oldDefault : Z) (current : number) : number :=
  if has_key newKey nodeParams then current
  else
    match assoc oldKey nodeParams with
    | Some (VNum legacy) =>
        if legacy =? oldDefault then current else whole legacy
    | _ => current
    end.

(** A value lies within the range from [lo] to [hi]: it is a number, not
    [NaN], and it is between the two bounds. *)
Definition within (lo hi : Z) (n : number) : Prop :=
  match n with
  | NaN => False
  | Num q _ => (inject_Z lo <= q <= inject_Z hi)%Q
  end.

(** A string that does not begin with white space. *)
Definition starts_clean (s : string) : Prop :=
  match s with
  | EmptyString => True
  | String c _ => isWhiteSpace c = false
  end.

(** The four tasks that have an endpoint. *)
Definition TASKS : list string :=
  ["transcribe"; "diarize"; "sentiment"; "summarize"].

(** [n] polls that each found the task still running: a status request
    followed by a sleep, [n] times. *)
Fixpoint running_polls (statusUrl : string) (pollIntervalMs : number)
    (n : nat)
  : trace :=
  match n with
  | O => []
  | S n' =>
      EvRequest (statusOptions statusUrl) :: EvSleep pollIntervalMs ::
      running_polls statusUrl pollIntervalMs n'
  end.

(** A status payload that is neither a terminal failure nor a terminal
    success. *)
Definition still_running (p : value) : Prop :=
  isTerminalFailure p = false /\ isTerminalSuccess p = false.

End Spec.

(* ===================================================================== *)
(** * Sample data for concrete runs *)
(* ===================================================================== *)

Module Fixtures.

Import Node.

(** A binary attachment under the property [data], with or without a file
    name. *)
Definition audio (name : option string) : IBinaryData :=
  {| fileName := name; mimeType := Some "audio/wav";
     data := [Byte.x52; Byte.x49; Byte.x46; Byte.x46] |}.

Definition item_with (name : option string) : INodeExecutionData :=
  {| item_json := VObj [];
     binary := Some [("data", audio name)];
     pairedItem := 0 |}.

(** The parameters of an item, all at the defaults the node declares but
    for the task, the summarize sub-task and the prompt. *)
Definition parameters_for (task summarizeTask summarizePrompt : string)
  : Parameters :=
  {| binaryProperty := "data";
     task := task;
     model := "palatine_small";
     summarizeTask := summarizeTask;
     summarizeThinking := false;
     summarizePrompt := summarizePrompt;
     pollIntervalMs := default_pollIntervalMs;
     maxPollAttempts := default_maxPollAttempts;
     pollIntervalMsSummarize := default_pollIntervalMsSummarize;
     maxPollAttemptsSummarize := default_maxPollAttemptsSummarize |}.

(** The same with chosen polling values for the transcribe, diarize and
    sentiment tasks. *)
Definition parameters_polling (task : string) (interval attempts : number)
  : Parameters :=
  {| binaryProperty := "data";
     task := task;
     model := "palatine_small";
     summarizeTask := "meeting_summary";
     summarizeThinking := false;
     summarizePrompt := "";
     pollIntervalMs := interval;
     maxPollAttempts := attempts;
     pollIntervalMsSummarize := default_pollIntervalMsSummarize;
     maxPollAttemptsSummarize := default_maxPollAttemptsSummarize |}.

Definition baseUrl : string := "https://api.palatine.ru".

(** A transport that answers the requests of a run with the listed
    bodies, in order, and with [rest] from then on. *)
Definition answers (bodies : list value) (rest : value)
  : nat -> IHttpRequestOptions -> reply :=
  fun n _ => Resolve (nth n bodies rest).

Definition created : value := VObj [("task_id", VStr "abc")].

Definition processing : value := VObj [("status", VStr "processing")].

Definition completed : value :=
  VObj [("status", VStr "completed");
        ("result", VObj [("text", VStr "hello")])].

Definition failed : value :=
  VObj [("status", VStr "failed"); ("error", VStr "bad audio")].

(** A failure that is told in the message field, and one that is told by
    the state alone. *)
Definition error_with_message : value :=
  VObj [("status", VStr "error"); ("message", VStr "quota exceeded")].

Definition canceled_bare : value := VObj [("state", VStr "Canceled")].

(** An instance of [Number] for runs whose persisted parameters hold
    numbers or text that is not numeric: the node converts with [Number]
    only what is not a number already, and such text converts to [NaN]. *)
Definition Number_of_text : value -> option Z := fun _ => None.

(** A transport that rejects the request numbered [n] with [cause] and
    answers the others as [answers] does. *)
Definition rejects_at (n : nat) (cause : value) (bodies : list value)
    (rest : value) : nat -> IHttpRequestOptions -> reply :=
  fun k options =>
    if Nat.eqb k n then Reject cause else answers bodies rest k options.

(** A status payload that carries both a failure status and a result. *)
Definition failed_with_result : value :=
  VObj [("status", VStr "failed"); ("result", VStr "partial text")].

End Fixtures.

(* ===================================================================== *)
(** * Properties *)
(* ===================================================================== *)

Import Node Spec.
Local Open Scope node_scope.

(** ** Strings, lists of strings, field reads *)

Lemma includes_In (l : list string) (s : string) :
  includes l s = true <-> In s l.
Proof.
  unfold includes. rewrite existsb_exists. split.
  - intros [x [Hin Heq]]. apply String.eqb_eq in Heq. now subst.
  - intros Hin. exists s. split; [assumption | apply String.eqb_refl].
Qed.

Lemma includes_not_In (l : list string) (s : string) :
  includes l s = false <-> ~ In s l.
Proof.
  rewrite <- includes_In. destruct (includes l s); split; congruence.
Qed.

Lemma str_or_empty (b : string) : str_or "" b = b.
Proof. reflexivity. Qed.

Lemma str_or_nonempty (a b : string) : a <> "" -> str_or a b = a.
Proof.
  intros H. unfold str_or. destruct (String.eqb_spec a ""); congruence.
Qed.

Lemma is_undefined_false (v : value) :
  is_undefined v = false <-> v <> VUndefined.
Proof. destruct v; simpl; split; congruence. Qed.

Lemma hasResult_iff (p : value) : hasResult p = true <-> has_result_field p.
Proof.
  unfold hasResult, has_result_field, present, RESULT_FIELDS. split.
  - intros H.
    repeat (apply orb_true_iff in H; destruct H as [H | H]);
      apply negb_true_iff, is_undefined_false in H;
      eexists; (split; [ | exact H ]); simpl; tauto.
  - intros [f [Hin Hp]]. apply is_undefined_false in Hp.
    simpl in Hin.
    repeat (destruct Hin as [<- | Hin]; [rewrite Hp; simpl;
      rewrite ?orb_true_r; reflexivity | ]).
    contradiction.
Qed.

(** The status both classifiers look at is the normalized string of the
    field that carries it. *)
Lemma status_of_carries (p : value) (f raw : string) :
  carries p f raw -> toLowerCase (trim raw) <> "" ->
  status_of p = toLowerCase (trim raw).
Proof.
  unfold status_of, blank.
  intros H Hne. destruct H as [raw E | raw B E | raw B1 B2 E].
  - rewrite E. now apply str_or_nonempty.
  - unfold blank in B. rewrite B, E, str_or_empty.
    now apply str_or_nonempty.
  - unfold blank in B1, B2. rewrite B1, B2, E. reflexivity.
Qed.

(** When the status is not empty, one of the three fields carries it. *)
Lemma status_of_carried (p : value) :
  status_of p <> "" ->
  exists f raw, In f STATUS_FIELDS /\ carries p f raw /\
                status_of p = toLowerCase (trim raw).
Proof.
  unfold status_of, STATUS_FIELDS. intros H.
  destruct (String.eqb_spec (normalizeStatus (get p "status")) "")
    as [B1 | N1].
  - destruct (String.eqb_spec (normalizeStatus (get p "state")) "")
      as [B2 | N2].
    + rewrite B1, B2, !str_or_empty in *.
      destruct (get p "task_status") as [ | | b | n | s | xs | fs] eqn:E;
        simpl in H; try congruence.
      exists "task_status", s. simpl. repeat split; try tauto.
      now apply carries_task_status.
    + rewrite B1, str_or_empty, (str_or_nonempty _ _ N2) in *.
      destruct (get p "state") as [ | | b | n | s | xs | fs] eqn:E;
        simpl in N2; try congruence.
      exists "state", s. simpl. repeat split; try tauto.
      now apply carries_state.
  - rewrite (str_or_nonempty _ _ N1).
    destruct (get p "status") as [ | | b | n | s | xs | fs] eqn:E;
        simpl in N1; try congruence.
    exists "status", s. simpl. repeat split; try tauto.
    now apply carries_status.
Qed.

(** A list of statuses none of which is empty holds the status of a
    payload exactly when one of the three fields carries a member of it. *)
Lemma status_in_iff (l : list string) (p : value) :
  ~ In "" l ->
  (In (status_of p) l <->
   exists f raw, carries p f raw /\ In (toLowerCase (trim raw)) l).
Proof.
  intros Hl. split.
  - intros Hin.
    destruct (status_of_carried p) as [f [raw [_ [Hc Hs]]]].
    { intros E. now rewrite E in Hin. }
    exists f, raw. split; [assumption | now rewrite <- Hs].
  - intros [f [raw [Hc Hin]]].
    rewrite (status_of_carries p f raw Hc); [assumption | ].
    intros E. now rewrite E in Hin.
Qed.

Lemma SUCCESS_STATUSES_nonempty : ~ In "" SUCCESS_STATUSES.
Proof. simpl. intros H. repeat (destruct H as [H | H]; [discriminate | ]).
       contradiction. Qed.

Lemma PROCESSING_STATUSES_nonempty : ~ In "" PROCESSING_STATUSES.
Proof. simpl. intros H. repeat (destruct H as [H | H]; [discriminate | ]).
       contradiction. Qed.

Lemma FAILURE_STATUSES_nonempty : ~ In "" FAILURE_STATUSES.
Proof. simpl. intros H. repeat (destruct H as [H | H]; [discriminate | ]).
       contradiction. Qed.

(** No status is both a terminal success and a "still running" one. *)
Lemma success_not_processing (s : string) :
  In s SUCCESS_STATUSES -> ~ In s PROCESSING_STATUSES.
Proof.
  simpl. intros H.
  repeat (destruct H as [H | H];
          [subst s; intros N;
           repeat (destruct N as [N | N]; [discriminate | ]);
           contradiction | ]).
  contradiction.
Qed.

(** ** C1: terminal success *)

(** [isTerminalSuccess] in terms of its two lists of statuses. *)
Lemma isTerminalSuccess_iff (p : value) :
  isTerminalSuccess p = true <->
  In (status_of p) SUCCESS_STATUSES \/
  (has_result_field p /\ ~ In (status_of p) PROCESSING_STATUSES).
Proof.
  unfold isTerminalSuccess.
  destruct (includes SUCCESS_STATUSES (status_of p)) eqn:Es.
  - apply includes_In in Es. tauto.
  - apply includes_not_In in Es.
    rewrite andb_true_iff, negb_true_iff, hasResult_iff, includes_not_In.
    tauto.
Qed.

Lemma isTerminalSuccess_carried (p : value) :
  (isTerminalSuccess p = true <->
     (exists f raw,
         carries p f raw /\ In (toLowerCase (trim raw)) SUCCESS_STATUSES)
     \/ (has_result_field p
         /\ ~ exists f raw,
               carries p f raw
               /\ In (toLowerCase (trim raw)) PROCESSING_STATUSES))
  /\ (forall f raw, carries p f raw ->
        In (toLowerCase (trim raw)) SUCCESS_STATUSES ->
        isTerminalSuccess p = true)
  /\ (forall f raw, carries p f raw ->
        In (toLowerCase (trim raw)) PROCESSING_STATUSES ->
        isTerminalSuccess p = false).
Proof.
  pose proof (isTerminalSuccess_iff p) as Hiff.
  pose proof (status_in_iff SUCCESS_STATUSES p SUCCESS_STATUSES_nonempty)
    as Hs.
  pose proof (status_in_iff PROCESSING_STATUSES p
                PROCESSING_STATUSES_nonempty) as Hp.
  split; [ | split].
  - rewrite Hiff, Hs, Hp. reflexivity.
  - intros f raw Hc Hin. apply Hiff. left. apply Hs. eauto.
  - intros f raw Hc Hin.
    assert (Hproc : In (status_of p) PROCESSING_STATUSES)
      by (apply Hp; eauto).
    apply not_true_is_false. intros E.
    apply Hiff in E. destruct E as [E | [_ E]].
    + now apply success_not_processing in E.
    + contradiction.
Qed.

(** C1.  [isTerminalSuccess] is true exactly when the status of the payload
    (the normalized string of whichever of status, state, task_status
    carries it) is one of completed, done, success, finished, or when one
    of result, data, output, response is present and that status is none
    of queued, pending, processing, running, in_progress.  In particular a
    terminal-success string gives true under each of the three field
    names, and a processing status gives false whatever result fields are
    present. *)
Theorem isTerminalSuccess_exactly (p : value) :
  (isTerminalSuccess p = true <->
     In (status_of p) ["completed"; "done"; "success"; "finished"] \/
     (has_result_field p
      /\ ~ In (status_of p)
             ["queued"; "pending"; "processing"; "running"; "in_progress"]))
  /\ (isTerminalSuccess p = true <->
       (exists f raw,
           carries p f raw
           /\ In (toLowerCase (trim raw))
                ["completed"; "done"; "success"; "finished"])
       \/ (has_result_field p
           /\ ~ exists f raw,
                 carries p f raw
                 /\ In (toLowerCase (trim raw))
                      ["queued"; "pending"; "processing"; "running";
                       "in_progress"]))
  /\ (forall f raw, carries p f raw ->
        In (toLowerCase (trim raw))
          ["completed"; "done"; "success"; "finished"] ->
        isTerminalSuccess p = true)
  /\ (forall f raw, carries p f raw ->
        In (toLowerCase (trim raw))
          ["queued"; "pending"; "processing"; "running"; "in_progress"] ->
        isTerminalSuccess p = false).
Proof.
  split;
    [exact (isTerminalSuccess_iff p) | exact (isTerminalSuccess_carried p)].
Qed.

(** ** C9: a blank status field counts as absent *)

Lemma assoc_remove_key_other {A : Type} (k k' : string)
    (l : list (string * A)) :
  k <> k' -> assoc k' (remove_key k l) = assoc k' l.
Proof.
  intros Hne. induction l as [ | [k0 x] l IH]; simpl; [reflexivity | ].
  destruct (String.eqb_spec k k0) as [-> | Hk]; simpl.
  - rewrite IH. destruct (String.eqb_spec k' k0); congruence.
  - rewrite IH. reflexivity.
Qed.

Lemma assoc_remove_key_same {A : Type} (k : string) (l : list (string * A)) :
  assoc k (remove_key k l) = None.
Proof.
  induction l as [ | [k0 x] l IH]; simpl; [reflexivity | ].
  destruct (String.eqb_spec k k0) as [-> | Hk]; simpl; [assumption | ].
  destruct (String.eqb_spec k k0); congruence.
Qed.

Lemma get_delete_other (k k' : string) (p : value) :
  k <> k' -> get (delete_field k p) k' = get p k'.
Proof.
  intros Hne. destruct p; simpl; try reflexivity.
  now rewrite assoc_remove_key_other.
Qed.

Lemma get_delete_same (k : string) (p : value) :
  get (delete_field k p) k = VUndefined.
Proof.
  destruct p; simpl; try reflexivity. now rewrite assoc_remove_key_same.
Qed.

(** What [blank] says of the value read from a field. *)
Lemma blank_iff (v : value) :
  blank v <->
  typeof_string v = false \/
  exists raw, v = VStr raw /\ toLowerCase (trim raw) = "".
Proof.
  unfold blank. destruct v; simpl; split; intros H; auto;
    try (destruct H as [H | [raw [H _]]]; congruence).
  - right. now exists s.
  - destruct H as [H | [raw [H1 H2]]]; congruence.
Qed.

Lemma status_of_delete_blank (p : value) (f : string) :
  In f STATUS_FIELDS -> blank (get p f) ->
  status_of (delete_field f p) = status_of p.
Proof.
  unfold STATUS_FIELDS, blank, status_of. simpl.
  intros [<- | [<- | [<- | []]]] B;
    rewrite get_delete_same, B; simpl;
    rewrite !get_delete_other by discriminate; reflexivity.
Qed.

Lemma hasResult_delete_status (p : value) (f : string) :
  In f STATUS_FIELDS -> hasResult (delete_field f p) = hasResult p.
Proof.
  unfold STATUS_FIELDS, hasResult. simpl.
  intros [<- | [<- | [<- | []]]];
    rewrite !get_delete_other by discriminate; reflexivity.
Qed.

(** C9.  In both classifiers a status field that holds a value that is not
    a string, or a string that is empty once trimmed and lower-cased, is
    treated exactly as if the field were absent: the status, and with it
    both classifications, are those of the payload without the field, so
    the next of status, state, task_status decides.  The payload
    [{status: "", state: "failed"}] is a terminal failure. *)
Theorem blank_status_field_is_absent :
  (forall (p : value) (f : string),
      In f STATUS_FIELDS ->
      (typeof_string (get p f) = false \/
       exists raw, get p f = VStr raw /\ toLowerCase (trim raw) = "") ->
      status_of p = status_of (delete_field f p) /\
      isTerminalSuccess p = isTerminalSuccess (delete_field f p) /\
      isTerminalFailure p = isTerminalFailure (delete_field f p))
  /\ (forall p : value,
        blank (get p "status") ->
        status_of p =
        str_or (normalizeStatus (get p "state"))
          (normalizeStatus (get p "task_status")))
  /\ (forall p : value,
        blank (get p "status") -> blank (get p "state") ->
        status_of p = normalizeStatus (get p "task_status"))
  /\ isTerminalFailure (VObj [("status", VStr ""); ("state", VStr "failed")])
     = true.
Proof.
  repeat split.
  - symmetry. apply status_of_delete_blank; [assumption | ].
    now apply blank_iff.
  - unfold isTerminalSuccess.
    rewrite status_of_delete_blank, hasResult_delete_status;
      [reflexivity | assumption | assumption | now apply blank_iff].
  - unfold isTerminalFailure.
    rewrite status_of_delete_blank;
      [reflexivity | assumption | now apply blank_iff].
  - intros p B. unfold status_of. unfold blank in B. now rewrite B.
  - intros p B1 B2. unfold status_of. unfold blank in B1, B2.
    now rewrite B1, B2.
Qed.

(** The rule at work: a numeric [status] and a blank [state] are passed
    over, [task_status] decides. *)
Lemma blank_status_field_is_absent_witness :
  isTerminalFailure
    (VObj [("status", VNum 3); ("state", VStr "  ");
           ("task_status", VStr " Cancelled ")])
  = isTerminalFailure
      (delete_field "status"
         (VObj [("status", VNum 3); ("state", VStr "  ");
                ("task_status", VStr " Cancelled ")])).
Proof.
  apply (proj1 blank_status_field_is_absent
           (VObj [("status", VNum 3); ("state", VStr "  ");
                  ("task_status", VStr " Cancelled ")]) "status").
  - simpl. tauto.
  - left. reflexivity.
Defined.

(** A payload whose status is carried by [state], in capitals and with
    blanks around it; a payload that is processing although it holds a
    result. *)
Lemma isTerminalSuccess_exactly_witness :
  isTerminalSuccess (VObj [("status", VNull); ("state", VStr " DONE ")])
  = true
  /\ isTerminalSuccess
       (VObj [("status", VStr "processing"); ("result", VStr "partial")])
     = false.
Proof.
  split.
  - apply (proj1 (proj2 (proj2 (isTerminalSuccess_exactly
             (VObj [("status", VNull); ("state", VStr " DONE ")]))))
             "state" " DONE ").
    + apply carries_state; reflexivity.
    + simpl. tauto.
  - apply (proj2 (proj2 (proj2 (isTerminalSuccess_exactly
             (VObj [("status", VStr "processing");
                    ("result", VStr "partial")]))))
             "status" "processing").
    + apply carries_status; reflexivity.
    + simpl. tauto.
Defined.

(** ** C4: task identifier extraction *)

(** Takes apart every [Forall] hypothesis over a list given by its
    elements. *)
Ltac forall_elements :=
  repeat match goal with
         | H : Forall _ (_ :: _) |- _ => inversion H; clear H; subst
         end.

(** Rewrites with every hypothesis that tells the value of [f x]. *)
Ltac rewrite_known f :=
  repeat match goal with
         | H : f _ = _ |- _ => rewrite H
         end.

(** The ways a list of four operands splits around one of them. *)
Lemma split_four {A : Type} (a b c d : A) (pre : list A) (v : A)
    (post : list A) :
  [a; b; c; d] = (pre ++ v :: post)%list ->
  (pre = [] /\ v = a) \/ (pre = [a] /\ v = b) \/
  (pre = [a; b] /\ v = c) \/ (pre = [a; b; c] /\ v = d).
Proof.
  intros H.
  destruct pre as [ | x1 [ | x2 [ | x3 [ | x4 pre]]]]; simpl in H;
    inversion H; subst; auto 6.
  destruct pre; discriminate.
Qed.

(** C4 as the specification words it: extraction returns the first present
    candidate.  The code passes over a candidate that is present but
    falsy: an empty [task_id] is skipped and [taskId] is returned. *)
Lemma extractTaskId_skips_empty_task_id :
  extractTaskId (VObj [("task_id", VStr ""); ("taskId", VStr "x")])
  = VStr "x"
  /\ first_present_id (VObj [("task_id", VStr ""); ("taskId", VStr "x")])
     = VStr "".
Proof. split; reflexivity. Qed.

(** C4 (amended).  Extraction is a total function of the response.  It
    returns [undefined] when the response is not a non-null object.
    Otherwise it returns the first truthy value among [task_id], [taskId],
    [id] and the nested [task.id], in that order; when none is truthy its
    result is falsy (no handle), and it is [undefined] when no candidate
    exists.  Whenever every candidate that is present is truthy, this is
    the first present candidate.  Each of [{task_id: "x"}], [{taskId:
    "x"}], [{id: "x"}], [{task: {id: "x"}}] yields ["x"]; [{}] and a
    value that is not an object yield [undefined]. *)
Theorem extractTaskId_first_truthy :
  (forall resp : value,
      (truthy resp && typeof_object resp = false ->
       extractTaskId resp = VUndefined)
      /\ (forall pre v post,
            truthy resp && typeof_object resp = true ->
            id_candidates resp = (pre ++ v :: post)%list ->
            Forall (fun c => truthy c = false) pre ->
            truthy v = true ->
            extractTaskId resp = v)
      /\ (Forall (fun c => truthy c = false) (id_candidates resp) ->
          truthy (extractTaskId resp) = false)
      /\ (Forall (fun c => c = VUndefined) (id_candidates resp) ->
          extractTaskId resp = VUndefined)
      /\ (Forall (fun c => c <> VUndefined -> truthy c = true)
            (id_candidates resp) ->
          extractTaskId resp = first_present_id resp))
  /\ extractTaskId (VObj [("task_id", VStr "x")]) = VStr "x"
  /\ extractTaskId (VObj [("taskId", VStr "x")]) = VStr "x"
  /\ extractTaskId (VObj [("id", VStr "x")]) = VStr "x"
  /\ extractTaskId (VObj [("task", VObj [("id", VStr "x")])]) = VStr "x"
  /\ extractTaskId (VObj []) = VUndefined
  /\ extractTaskId (VStr "x") = VUndefined
  /\ extractTaskId VNull = VUndefined.
Proof.
  split; [ | repeat split; reflexivity].
  intros resp. unfold extractTaskId, first_present_id, id_candidates.
  destruct (truthy resp && typeof_object resp) eqn:G.
  - apply andb_true_iff in G. destruct G as [G1 G2]. rewrite G1, G2. simpl.
    repeat split.
    + discriminate.
    + intros pre v post _ Hs Hpre Hv.
      apply split_four in Hs.
      destruct Hs as [[-> ->] | [[-> ->] | [[-> ->] | [-> ->]]]];
        forall_elements; unfold or_else; rewrite_known truthy; reflexivity.
    + intros H. forall_elements. unfold or_else. rewrite_known truthy.
      reflexivity.
    + intros H. forall_elements. unfold or_else.
      repeat match goal with
             | H : _ = VUndefined |- _ => rewrite H
             end. reflexivity.
    + intros H. forall_elements. unfold or_else.
      repeat match goal with
             | H : ?c <> VUndefined -> truthy ?c = true |- _ =>
                 destruct c eqn:?; simpl in *;
                 try (rewrite H by discriminate);
                 try (specialize (H ltac:(discriminate)));
                 try discriminate; clear H
             end; try reflexivity.
  - assert (E : negb (truthy resp) || negb (typeof_object resp) = true).
    { destruct (truthy resp), (typeof_object resp); simpl in *; congruence. }
    rewrite E.
    assert (U : forall k, get resp k = VUndefined).
    { intros k. destruct resp; simpl in *; try reflexivity; discriminate. }
    rewrite !U. simpl. repeat split; try discriminate; reflexivity.
Qed.

(** A response whose [task_id] is the number 0, which is passed over for
    [id]. *)
Lemma extractTaskId_first_truthy_witness :
  extractTaskId (VObj [("task_id", VNum 0); ("id", VStr "job-7")])
  = VStr "job-7".
Proof.
  apply (proj1 (proj2 (proj1 extractTaskId_first_truthy
           (VObj [("task_id", VNum 0); ("id", VStr "job-7")])))
           [VNum 0; VUndefined] (VStr "job-7") [VUndefined]).
  - reflexivity.
  - reflexivity.
  - repeat constructor.
  - reflexivity.
Defined.

(** ** C5: the result unwrapper *)

(** C5 as the specification words it: the unwrapper returns the first
    present wrapper value.  The code passes over a wrapper that is present
    and [null]. *)
Lemma unwrapFinalPayload_skips_null_result :
  unwrapFinalPayload (VObj [("result", VNull); ("data", VNum 1)]) = VNum 1
  /\ first_present_wrapper (VObj [("result", VNull); ("data", VNum 1)])
     = VNull.
Proof. split; reflexivity. Qed.

(** C5 (amended).  The unwrapper is a total function with no failure path:
    for every payload it returns the first value that is neither
    [undefined] nor [null] among the result, data, output and response
    fields, in that order, and the whole payload when each of them is
    absent or [null].  Whenever no wrapper field holds [null], this is the
    first present wrapper value, or the payload when none exists. *)
Theorem unwrapFinalPayload_first_non_null (p : value) :
  (forall pre v post,
      wrappers p = (pre ++ v :: post)%list ->
      Forall (fun w => nullish w = true) pre ->
      nullish v = false ->
      unwrapFinalPayload p = v)
  /\ (Forall (fun w => nullish w = true) (wrappers p) ->
      unwrapFinalPayload p = p)
  /\ (Forall (fun w => w <> VNull) (wrappers p) ->
      unwrapFinalPayload p = first_present_wrapper p).
Proof.
  unfold unwrapFinalPayload, first_present_wrapper, wrappers, RESULT_FIELDS.
  simpl. repeat split.
  - intros pre v post Hs Hpre Hv.
    apply split_four in Hs.
    destruct Hs as [[-> ->] | [[-> ->] | [[-> ->] | [-> ->]]]];
      forall_elements; unfold coalesce; rewrite_known nullish; reflexivity.
  - intros H. forall_elements. unfold coalesce. rewrite_known nullish.
    reflexivity.
  - intros H. forall_elements. unfold coalesce.
    repeat match goal with
           | H : ?w <> VNull |- _ =>
               destruct w; simpl; try congruence; clear H
           end; reflexivity.
Qed.

(** A payload whose [result] is [null] and whose [output] holds the
    text. *)
Lemma unwrapFinalPayload_first_non_null_witness :
  unwrapFinalPayload (VObj [("result", VNull); ("output", VStr "hello")])
  = VStr "hello".
Proof.
  apply (proj1 (unwrapFinalPayload_first_non_null
           (VObj [("result", VNull); ("output", VStr "hello")]))
           [VNull; VUndefined] (VStr "hello") [VUndefined]).
  - reflexivity.
  - repeat constructor.
  - reflexivity.
Defined.

(** ** Numbers *)

Lemma Qle_bool_false (x y : Q) : Qle_bool x y = false <-> (y < x)%Q.
Proof.
  rewrite <- not_true_iff_false, Qle_bool_iff. split.
  - apply Qnot_le_lt.
  - apply Qlt_not_le.
Qed.

(** A whole number is at most [q] exactly when it is at most the whole
    part of [q]. *)
Lemma Qle_bool_floor (a : Z) (q : Q) :
  Qle_bool (inject_Z a) q = (a <=? Qfloor q).
Proof.
  destruct (Z.leb_spec a (Qfloor q)) as [H | H].
  - apply Qle_bool_iff.
    apply Qle_trans with (inject_Z (Qfloor q)); [ | apply Qfloor_le].
    now rewrite <- Zle_Qle.
  - apply Qle_bool_false.
    apply Qlt_le_trans with (inject_Z (Qfloor q + 1)); [apply Qlt_floor | ].
    rewrite <- Zle_Qle. lia.
Qed.

Lemma attempts_whole (n : Z) : attempts (whole n) = Z.to_nat n.
Proof. unfold attempts, whole. now rewrite Qfloor_Z. Qed.

(** The loop condition, for an attempt from 1 on: the attempt is one of
    the turns the attempt count allows. *)
Lemma number_le_attempts (attempt : Z) (m : number) :
  1 <= attempt ->
  number_le (whole attempt) m = (attempt <=? Z.of_nat (attempts m)).
Proof.
  intros H. destruct m as [ | q text]; simpl.
  - symmetry. apply Z.leb_gt. lia.
  - rewrite Qle_bool_floor.
    destruct (Z.leb_spec attempt (Qfloor q)), (Z.leb_spec attempt
      (Z.of_nat (Z.to_nat (Qfloor q)))); (reflexivity || lia).
Qed.

(** ** The poll loop *)

Lemma emit_app (e : event) (t : trace) : emit e t = (t ++ [e])%list.
Proof. reflexivity. Qed.

Lemma requests_app (t l : trace) :
  requests (t ++ l)%list = (requests t + requests l)%nat.
Proof. unfold requests. now rewrite filter_app, length_app. Qed.

Lemma requests_running_polls (statusUrl : string) (ms : number) (n : nat) :
  requests (running_polls statusUrl ms n) = n.
Proof.
  induction n as [ | n IH]; [reflexivity | ].
  unfold requests in *. simpl. now rewrite IH.
Qed.

Section PollLoop.

Variable transport : nat -> IHttpRequestOptions -> reply.
Variables (i : nat) (taskId : value) (statusUrl : string).
Variables (interval maxAttempts : number).

Let loop := poll_loop transport i taskId statusUrl interval maxAttempts.

(** The last attempt the loop condition lets in. *)
Let last_attempt : Z := Z.of_nat (attempts maxAttempts).

(** The loop body is entered at an attempt the condition lets in. *)
Lemma poll_loop_enter (fuel : nat) (attempt : Z) (t : trace) :
  1 <= attempt <= last_attempt ->
  loop (S fuel) attempt t
  = (statusPayload <- request transport (statusOptions statusUrl) i ;;
     if isTerminalFailure statusPayload then
       throw (NodeOperationError (failure_message taskId statusPayload)
                (Some i))
     else if isTerminalSuccess statusPayload then
       ret (Some (unwrapFinalPayload statusPayload))
     else
       sleep interval ;; loop fuel (attempt + 1)) t.
Proof.
  intros [H1 Hle]. unfold loop. cbn [poll_loop].
  rewrite number_le_attempts by assumption.
  apply Z.leb_le in Hle. fold last_attempt. now rewrite Hle.
Qed.

(** One turn of the loop on a reply that is neither terminal state: the
    request, the sleep, and the loop again at the next attempt. *)
Lemma poll_loop_turn (fuel : nat) (attempt : Z) (t : trace) (p : value) :
  1 <= attempt <= last_attempt ->
  transport (requests t) (statusOptions statusUrl) = Resolve p ->
  still_running p ->
  loop (S fuel) attempt t
  = loop fuel (attempt + 1)
      (t ++ [EvRequest (statusOptions statusUrl); EvSleep interval])%list.
Proof.
  intros Hle Hr [Hf Hs]. rewrite poll_loop_enter by assumption.
  unfold bind at 1. unfold request. rewrite Hr, Hf, Hs.
  unfold bind, sleep. rewrite !emit_app, <- app_assoc. reflexivity.
Qed.

(** A turn whose reply is a terminal failure: the request, then the
    throw. *)
Lemma poll_loop_failure (fuel : nat) (attempt : Z) (t : trace) (p : value) :
  1 <= attempt <= last_attempt ->
  transport (requests t) (statusOptions statusUrl) = Resolve p ->
  isTerminalFailure p = true ->
  loop (S fuel) attempt t
  = (Throw (NodeOperationError (failure_message taskId p) (Some i)),
     (t ++ [EvRequest (statusOptions statusUrl)])%list).
Proof.
  intros Hle Hr Hf. rewrite poll_loop_enter by assumption.
  unfold bind at 1. unfold request. rewrite Hr, Hf. reflexivity.
Qed.

(** A turn whose reply is a terminal success: the request, then the
    unwrapped payload. *)
Lemma poll_loop_success (fuel : nat) (attempt : Z) (t : trace) (p : value) :
  1 <= attempt <= last_attempt ->
  transport (requests t) (statusOptions statusUrl) = Resolve p ->
  isTerminalFailure p = false ->
  isTerminalSuccess p = true ->
  loop (S fuel) attempt t
  = (Ok (Some (unwrapFinalPayload p)),
     (t ++ [EvRequest (statusOptions statusUrl)])%list).
Proof.
  intros Hle Hr Hf Hs. rewrite poll_loop_enter by assumption.
  unfold bind at 1. unfold request. rewrite Hr, Hf, Hs. reflexivity.
Qed.

(** A turn whose status request is rejected: the request, then the
    [NodeApiError]. *)
Lemma poll_loop_rejected (fuel : nat) (attempt : Z) (t : trace)
    (cause : value) :
  1 <= attempt <= last_attempt ->
  transport (requests t) (statusOptions statusUrl) = Reject cause ->
  loop (S fuel) attempt t
  = (Throw (NodeApiError cause i),
     (t ++ [EvRequest (statusOptions statusUrl)])%list).
Proof.
  intros Hle Hr. rewrite poll_loop_enter by assumption.
  unfold bind at 1. unfold request. now rewrite Hr.
Qed.

(** The loop condition fails: the loop is left with [completed] false. *)
Lemma poll_loop_exit (fuel : nat) (attempt : Z) (t : trace) :
  1 <= attempt -> last_attempt < attempt -> loop fuel attempt t = (Ok None, t).
Proof.
  intros H1 Hlt. unfold loop.
  destruct fuel; cbn [poll_loop]; rewrite number_le_attempts by assumption;
    fold last_attempt; destruct (Z.leb_spec attempt last_attempt);
    (lia || reflexivity).
Qed.

(** [k] turns in a row. *)
Lemma poll_loop_turns (k : nat) :
  forall (fuel : nat) (attempt : Z) (t : trace),
    1 <= attempt ->
    attempt + Z.of_nat k <= last_attempt + 1 ->
    (forall j, (j < k)%nat ->
       exists p,
         transport (requests t + j)%nat (statusOptions statusUrl) = Resolve p
         /\ still_running p) ->
    loop (k + fuel)%nat attempt t
    = loop fuel (attempt + Z.of_nat k)
        (t ++ running_polls statusUrl interval k)%list.
Proof.
  induction k as [ | k IH]; intros fuel attempt t H1 Hle Hrun.
  - simpl. now rewrite Z.add_0_r, app_nil_r.
  - destruct (Hrun 0%nat ltac:(lia)) as [p [Hr Hp]].
    rewrite Nat.add_0_r in Hr.
    change (S k + fuel)%nat with (S (k + fuel)).
    rewrite (poll_loop_turn _ _ _ p) by (assumption || lia).
    rewrite IH.
    + simpl running_polls. rewrite <- app_assoc. simpl.
      f_equal. lia.
    + lia.
    + lia.
    + intros j Hj. destruct (Hrun (S j) ltac:(lia)) as [q [Hq1 Hq2]].
      exists q. split; [ | assumption].
      rewrite requests_app. unfold requests at 2. simpl.
      now replace (requests t + 1 + j)%nat with (requests t + S j)%nat by lia.
Qed.

(** The loop always ends, within its fuel, after at most as many requests
    as attempts are left; it only issues status requests and only sleeps
    for the poll interval. *)
Lemma poll_loop_bounded (fuel : nat) :
  forall (attempt : Z) (t : trace),
    1 <= attempt ->
    (Z.to_nat (last_attempt + 1 - attempt) <= fuel)%nat ->
    exists out l,
      loop fuel attempt t = (out, (t ++ l)%list)
      /\ out <> OutOfFuel
      /\ (requests l <= Z.to_nat (last_attempt + 1 - attempt))%nat
      /\ Forall (fun e => e = EvRequest (statusOptions statusUrl)
                          \/ e = EvSleep interval) l.
Proof.
  induction fuel as [ | fuel IH]; intros attempt t H1 Hfuel;
    destruct (Z.leb_spec attempt last_attempt) as [Hle | Hgt];
    try (rewrite poll_loop_exit by assumption;
         exists (Ok None), []; rewrite app_nil_r;
         repeat split; [discriminate | unfold requests; simpl; lia
                        | constructor]).
  - lia.
  - rewrite poll_loop_enter by lia.
    unfold bind at 1. unfold request.
    set (opts := statusOptions statusUrl).
    assert (Hone : (requests [EvRequest opts] <=
                    Z.to_nat (last_attempt + 1 - attempt))%nat)
      by (unfold requests; simpl; lia).
    destruct (transport (requests t) opts) as [p | cause].
    + destruct (isTerminalFailure p).
      { eexists _, [EvRequest opts]. unfold throw. rewrite emit_app.
        repeat split; [discriminate | assumption | ].
        repeat constructor. }
      destruct (isTerminalSuccess p).
      { eexists _, [EvRequest opts]. unfold ret. rewrite emit_app.
        repeat split; [discriminate | assumption | ].
        repeat constructor. }
      unfold bind, sleep. rewrite !emit_app, <- app_assoc. simpl.
      destruct (IH (attempt + 1) (t ++ [EvRequest opts; EvSleep interval])%list)
        as [out [l [E [Hout [Hreq Hall]]]]]; [lia | lia | ].
      exists out, (EvRequest opts :: EvSleep interval :: l).
      rewrite E, <- app_assoc. simpl. repeat split.
      * assumption.
      * unfold requests in *. simpl. lia.
      * constructor; [now left | ]. constructor; [now right | assumption].
    + eexists _, [EvRequest opts]. rewrite emit_app.
      repeat split; [discriminate | assumption | ].
      repeat constructor.
Qed.

(** The events of the loop: some request-sleep pairs, then nothing, or one
    last status request.  The loop is left by the condition only after as
    many pairs as attempts were left; a return or a throw from inside
    follows a request at once. *)
Lemma poll_loop_shape (fuel : nat) :
  forall (attempt : Z) (t : trace),
    1 <= attempt ->
    (Z.to_nat (last_attempt + 1 - attempt) <= fuel)%nat ->
    exists out k last,
      loop fuel attempt t
      = (out, (t ++ running_polls statusUrl interval k ++ last)%list)
      /\ ((last = [] /\ out = Ok None
           /\ k = Z.to_nat (last_attempt + 1 - attempt))
          \/ (last = [EvRequest (statusOptions statusUrl)]
              /\ out <> Ok None /\ out <> OutOfFuel
              /\ (k < Z.to_nat (last_attempt + 1 - attempt))%nat)).
Proof.
  induction fuel as [ | fuel IH]; intros attempt t H1 Hfuel;
    destruct (Z.leb_spec attempt last_attempt) as [Hle | Hgt];
    try (rewrite poll_loop_exit by assumption;
         exists (Ok None), 0%nat, []; simpl; rewrite app_nil_r;
         split; [reflexivity | left; repeat split; lia]).
  - lia.
  - rewrite poll_loop_enter by lia.
    unfold bind at 1. unfold request.
    set (opts := statusOptions statusUrl).
    destruct (transport (requests t) opts) as [q | cause].
    + destruct (isTerminalFailure q).
      { eexists _, 0%nat, [EvRequest opts]. rewrite emit_app. simpl.
        split; [reflexivity | right].
        repeat split; try discriminate. lia. }
      destruct (isTerminalSuccess q).
      { eexists _, 0%nat, [EvRequest opts]. rewrite emit_app. simpl.
        split; [reflexivity | right].
        repeat split; try discriminate. lia. }
      unfold bind, sleep. rewrite !emit_app, <- app_assoc. simpl.
      destruct (IH (attempt + 1)
                  (t ++ [EvRequest opts; EvSleep interval])%list)
        as [out [k [last [E Hcases]]]]; [lia | lia | ].
      exists out, (S k), last. rewrite E, <- app_assoc. simpl.
      split; [reflexivity | ].
      destruct Hcases as [[-> [-> ->]] | [-> [H2 [H3 H4]]]];
        [left | right]; repeat split; try assumption; lia.
    + eexists _, 0%nat, [EvRequest opts]. rewrite emit_app. simpl.
      split; [reflexivity | right].
      repeat split; try discriminate. lia.
Qed.

End PollLoop.

(** ** C2: the loop gives up after [maxPollAttempts] polls *)

(** C2.  When the create response holds a task handle, the block that
    polls it always ends and issues at most [maxPollAttempts] status
    requests (and nothing but status requests and sleeps of the poll
    interval).  When each of the first [maxPollAttempts] status replies is
    neither a terminal failure nor a terminal success, it throws the
    timeout error, whose message names the handle and the attempt count
    and which is tagged with the item index, after exactly
    [maxPollAttempts] polls: the trace grows by that many request-sleep
    pairs and by nothing else. *)
Theorem poll_gives_up_after_maxPollAttempts
    (transport : nat -> IHttpRequestOptions -> reply) (baseUrl : string)
    (i : nat) (createResp : value) (pollIntervalMs maxPollAttempts : Z)
    (t : trace) :
  truthy (extractTaskId createResp) = true ->
  (exists out l,
      poll transport baseUrl i createResp pollIntervalMs maxPollAttempts t
      = (out, (t ++ l)%list)
      /\ out <> OutOfFuel
      /\ (requests l <= Z.to_nat maxPollAttempts)%nat
      /\ Forall
           (fun e =>
              e = EvRequest
                    (statusOptions
                       (statusUrl_of baseUrl (extractTaskId createResp)))
              \/ e = EvSleep pollIntervalMs) l)
  /\ ((forall j, (j < Z.to_nat maxPollAttempts)%nat ->
         exists p,
           transport (requests t + j)%nat
             (statusOptions (statusUrl_of baseUrl (extractTaskId createResp)))
           = Resolve p
           /\ still_running p) ->
      poll transport baseUrl i createResp pollIntervalMs maxPollAttempts t
      = (Throw
           (NodeOperationError
              ("Task " ++ toString (extractTaskId createResp)
               ++ " did not complete within polling limit ("
               ++ string_of_Z maxPollAttempts ++ " attempts)")
              (Some i)),
         (t ++ running_polls
                 (statusUrl_of baseUrl (extractTaskId createResp))
                 pollIntervalMs (Z.to_nat maxPollAttempts))%list)
      /\ requests
           (running_polls (statusUrl_of baseUrl (extractTaskId createResp))
              pollIntervalMs (Z.to_nat maxPollAttempts))
         = Z.to_nat maxPollAttempts).
Proof.
  intros Hid. unfold poll. rewrite Hid, attempts_whole. split.
  - destruct (poll_loop_bounded transport i (extractTaskId createResp)
                (statusUrl_of baseUrl (extractTaskId createResp))
                pollIntervalMs maxPollAttempts (Z.to_nat maxPollAttempts) 1 t)
      as [out [l [E [Hout [Hreq Hall]]]]].
    { lia. }
    { rewrite attempts_whole. lia. }
    rewrite attempts_whole in Hreq.
    replace (Z.to_nat (Z.of_nat (Z.to_nat maxPollAttempts) + 1 - 1))
      with (Z.to_nat maxPollAttempts) in Hreq by lia.
    unfold bind. rewrite E.
    destruct out as [[finalResponse | ] | e | ].
    + eexists _, l. repeat split; [discriminate | assumption | assumption].
    + eexists _, l. repeat split; [discriminate | assumption | assumption].
    + eexists _, l. repeat split; [discriminate | assumption | assumption].
    + congruence.
  - intros Hrun. split; [ | apply requests_running_polls].
    unfold bind.
    rewrite <- (Nat.add_0_r (Z.to_nat maxPollAttempts)) at 1.
    rewrite poll_loop_turns;
      [ | lia | rewrite attempts_whole; lia | exact Hrun].
    rewrite poll_loop_exit by (rewrite ?attempts_whole; lia). reflexivity.
Qed.

(** A run against a backend that answers "processing" for ever, with three
    attempts allowed: three polls, then the timeout error. *)
Lemma poll_gives_up_after_maxPollAttempts_witness :
  poll (Fixtures.answers [Fixtures.created] Fixtures.processing)
    Fixtures.baseUrl 0 Fixtures.created 500 3
    [EvRequest (createOptions "https://api.palatine.ru/api/v1/transcribe/do_transcribe" None [])]
  = (Throw
       (NodeOperationError
          "Task abc did not complete within polling limit (3 attempts)"
          (Some 0%nat)),
     [EvRequest (createOptions "https://api.palatine.ru/api/v1/transcribe/do_transcribe" None []);
      EvRequest
        (statusOptions
           "https://api.palatine.ru/api/v1/transcribe/task_status/abc");
      EvSleep 500;
      EvRequest
        (statusOptions
           "https://api.palatine.ru/api/v1/transcribe/task_status/abc");
      EvSleep 500;
      EvRequest
        (statusOptions
           "https://api.palatine.ru/api/v1/transcribe/task_status/abc");
      EvSleep 500]).
Proof.
  refine (proj1 (proj2 (poll_gives_up_after_maxPollAttempts
                          (Fixtures.answers [Fixtures.created]
                             Fixtures.processing)
                          Fixtures.baseUrl 0 Fixtures.created 500 3
                          [EvRequest
                             (createOptions "https://api.palatine.ru/api/v1/transcribe/do_transcribe"
                                None [])]
                          eq_refl) _)).
  intros j Hj. exists Fixtures.processing.
  split; [ | split; reflexivity].
  destruct j; reflexivity.
Defined.

(** ** C3: a terminal failure stops the polling at once *)

Lemma isTerminalFailure_iff (p : value) :
  isTerminalFailure p = true <-> In (status_of p) FAILURE_STATUSES.
Proof. unfold isTerminalFailure. apply includes_In. Qed.

(** The message of a terminal failure, by the field it is built from: the
    error field when it is truthy, else the message field when it is
    truthy, else the JSON text of the payload (a payload with a failure
    status is an object, so it has one). *)
Lemma failure_message_cases (taskId p : value) :
  isTerminalFailure p = true ->
  (truthy (get p "error") = true ->
   failure_message taskId p
   = "Task " ++ toString taskId ++ " failed: " ++ toString (get p "error"))
  /\ (truthy (get p "error") = false ->
      truthy (get p "message") = true ->
      failure_message taskId p
      = "Task " ++ toString taskId ++ " failed: "
        ++ toString (get p "message"))
  /\ (truthy (get p "error") = false ->
      truthy (get p "message") = false ->
      failure_message taskId p
      = "Task " ++ toString taskId ++ " failed: " ++ serialize p).
Proof.
  intros Hf. unfold failure_message, or_else. repeat split.
  - intros He. now rewrite He.
  - intros He Hm. now rewrite He, Hm.
  - intros He Hm. rewrite He, Hm. destruct p; try reflexivity. discriminate.
Qed.

(** C3.  A status payload whose status (carried by status, else state, else
    task_status) is one of failed, error, canceled, cancelled is a
    terminal failure.  When a terminal failure answers a poll that the
    loop reaches (the polls before it found the task still running), the
    node throws at once: the error is tagged with the item index, the
    status request that was answered is the last event of the item, and
    the message is the task handle followed by the payload's error field,
    else (when that is absent or falsy) its message field, else the JSON
    text of the payload. *)
Theorem poll_raises_on_terminal_failure :
  (forall (p : value) (f raw : string),
      carries p f raw ->
      In (toLowerCase (trim raw)) ["failed"; "error"; "canceled"; "cancelled"] ->
      isTerminalFailure p = true)
  /\ (forall (transport : nat -> IHttpRequestOptions -> reply)
             (baseUrl : string) (i : nat) (createResp : value)
             (pollIntervalMs maxPollAttempts : Z) (t : trace) (k : nat)
             (p : value),
        truthy (extractTaskId createResp) = true ->
        isTerminalFailure p = true ->
        (k < Z.to_nat maxPollAttempts)%nat ->
        (forall j, (j < k)%nat ->
           exists q,
             transport (requests t + j)%nat
               (statusOptions
                  (statusUrl_of baseUrl (extractTaskId createResp)))
             = Resolve q
             /\ still_running q) ->
        transport (requests t + k)%nat
          (statusOptions (statusUrl_of baseUrl (extractTaskId createResp)))
        = Resolve p ->
        poll transport baseUrl i createResp pollIntervalMs maxPollAttempts t
        = (Throw
             (NodeOperationError
                (failure_message (extractTaskId createResp) p) (Some i)),
           (t ++ running_polls
                   (statusUrl_of baseUrl (extractTaskId createResp))
                   pollIntervalMs k
              ++ [EvRequest
                    (statusOptions
                       (statusUrl_of baseUrl
                          (extractTaskId createResp)))])%list))
  /\ (forall taskId p : value,
        isTerminalFailure p = true ->
        (truthy (get p "error") = true ->
         failure_message taskId p
         = "Task " ++ toString taskId ++ " failed: "
           ++ toString (get p "error"))
        /\ (truthy (get p "error") = false ->
            truthy (get p "message") = true ->
            failure_message taskId p
            = "Task " ++ toString taskId ++ " failed: "
              ++ toString (get p "message"))
        /\ (truthy (get p "error") = false ->
            truthy (get p "message") = false ->
            failure_message taskId p
            = "Task " ++ toString taskId ++ " failed: " ++ serialize p))
  /\ (forall p : value,
        isTerminalFailure p = true <->
        In (status_of p) ["failed"; "error"; "canceled"; "cancelled"]).
Proof.
  split; [ | split; [ | split]].
  - intros p f raw Hc Hin. apply isTerminalFailure_iff.
    apply (status_in_iff FAILURE_STATUSES p FAILURE_STATUSES_nonempty).
    eauto.
  - intros transport baseUrl i createResp pollIntervalMs maxPollAttempts t k
      p Hid Hf Hk Hrun Hp.
    unfold poll. rewrite Hid, attempts_whole. unfold bind at 1.
    replace (Z.to_nat maxPollAttempts)
      with (k + S (Z.to_nat maxPollAttempts - S k))%nat at 1 by lia.
    rewrite poll_loop_turns;
      [ | lia | rewrite attempts_whole; lia | exact Hrun].
    rewrite (poll_loop_failure _ _ _ _ _ _ _ _ _ p);
      [ | rewrite attempts_whole; lia
        | now rewrite requests_app, requests_running_polls
        | assumption].
    now rewrite <- app_assoc.
  - exact failure_message_cases.
  - exact isTerminalFailure_iff.
Qed.

(** The fourth scenario of the specification: the second poll is answered
    [{status: "failed", error: "bad audio"}].  Then a first poll answered
    [{status: "error", message: "quota exceeded"}], where the message
    field is used, and one answered [{state: "Canceled"}], where the JSON
    text of the payload is. *)
Lemma poll_raises_on_terminal_failure_witness :
  poll (Fixtures.answers [Fixtures.created; Fixtures.processing;
                          Fixtures.failed] Fixtures.processing)
    Fixtures.baseUrl 0 Fixtures.created 500 200
    [EvRequest (createOptions "https://api.palatine.ru/api/v1/transcribe/do_transcribe" None [])]
  = (Throw (NodeOperationError "Task abc failed: bad audio" (Some 0%nat)),
     [EvRequest (createOptions "https://api.palatine.ru/api/v1/transcribe/do_transcribe" None []);
      EvRequest
        (statusOptions
           "https://api.palatine.ru/api/v1/transcribe/task_status/abc");
      EvSleep 500;
      EvRequest
        (statusOptions
           "https://api.palatine.ru/api/v1/transcribe/task_status/abc")])
  /\ poll (Fixtures.answers [Fixtures.created; Fixtures.error_with_message]
             Fixtures.processing)
       Fixtures.baseUrl 0 Fixtures.created 500 200
       [EvRequest (createOptions "https://api.palatine.ru/api/v1/transcribe/do_transcribe" None [])]
     = (Throw
          (NodeOperationError "Task abc failed: quota exceeded" (Some 0%nat)),
        [EvRequest (createOptions "https://api.palatine.ru/api/v1/transcribe/do_transcribe" None []);
         EvRequest
           (statusOptions
              "https://api.palatine.ru/api/v1/transcribe/task_status/abc")])
  /\ poll (Fixtures.answers [Fixtures.created; Fixtures.canceled_bare]
             Fixtures.processing)
       Fixtures.baseUrl 0 Fixtures.created 500 200
       [EvRequest (createOptions "https://api.palatine.ru/api/v1/transcribe/do_transcribe" None [])]
     = (Throw
          (NodeOperationError
             ("Task abc failed: {" ++ dquote ++ "state" ++ dquote ++ ":"
              ++ dquote ++ "Canceled" ++ dquote ++ "}")
             (Some 0%nat)),
        [EvRequest (createOptions "https://api.palatine.ru/api/v1/transcribe/do_transcribe" None []);
         EvRequest
           (statusOptions
              "https://api.palatine.ru/api/v1/transcribe/task_status/abc")]).
Proof.
  split; [ | split].
  - refine (proj1 (proj2 poll_raises_on_terminal_failure)
              (Fixtures.answers [Fixtures.created; Fixtures.processing;
                                 Fixtures.failed] Fixtures.processing)
              Fixtures.baseUrl 0%nat Fixtures.created 500 200
              [EvRequest
                 (createOptions "https://api.palatine.ru/api/v1/transcribe/do_transcribe" None [])]
              1%nat Fixtures.failed eq_refl _ _ _ eq_refl).
    + apply (proj1 poll_raises_on_terminal_failure Fixtures.failed
               "status" "failed").
      * apply carries_status. reflexivity.
      * simpl. tauto.
    + simpl. lia.
    + intros j Hj. exists Fixtures.processing.
      split; [ | split; reflexivity].
      destruct j as [ | j]; [reflexivity | lia].
  - refine (proj1 (proj2 poll_raises_on_terminal_failure)
              (Fixtures.answers [Fixtures.created;
                                 Fixtures.error_with_message]
                 Fixtures.processing)
              Fixtures.baseUrl 0%nat Fixtures.created 500 200
              [EvRequest
                 (createOptions "https://api.palatine.ru/api/v1/transcribe/do_transcribe" None [])]
              0%nat Fixtures.error_with_message eq_refl _ _ _ eq_refl).
    + apply (proj1 poll_raises_on_terminal_failure
               Fixtures.error_with_message "status" "error").
      * apply carries_status. reflexivity.
      * simpl. tauto.
    + simpl. lia.
    + intros j Hj. lia.
  - refine (proj1 (proj2 poll_raises_on_terminal_failure)
              (Fixtures.answers [Fixtures.created; Fixtures.canceled_bare]
                 Fixtures.processing)
              Fixtures.baseUrl 0%nat Fixtures.created 500 200
              [EvRequest
                 (createOptions "https://api.palatine.ru/api/v1/transcribe/do_transcribe" None [])]
              0%nat Fixtures.canceled_bare eq_refl _ _ _ eq_refl).
    + apply (proj1 poll_raises_on_terminal_failure Fixtures.canceled_bare
               "state" "Canceled").
      * apply carries_state; reflexivity.
      * simpl. tauto.
    + simpl. lia.
    + intros j Hj. lia.
Defined.

(** ** The third way out of the loop: a terminal success *)

(** When a terminal success that is not a terminal failure answers a poll
    the loop reaches, the polling block returns the unwrapped payload and
    the answered status request is its last event. *)
Lemma poll_returns_on_terminal_success
    (transport : nat -> IHttpRequestOptions -> reply) (baseUrl : string)
    (i : nat) (createResp : value) (pollIntervalMs maxPollAttempts : number)
    (t : trace) (k : nat) (p : value) :
  truthy (extractTaskId createResp) = true ->
  isTerminalFailure p = false ->
  isTerminalSuccess p = true ->
  (k < attempts maxPollAttempts)%nat ->
  (forall j, (j < k)%nat ->
     exists q,
       transport (requests t + j)%nat
         (statusOptions (statusUrl_of baseUrl (extractTaskId createResp)))
       = Resolve q
       /\ still_running q) ->
  transport (requests t + k)%nat
    (statusOptions (statusUrl_of baseUrl (extractTaskId createResp)))
  = Resolve p ->
  poll transport baseUrl i createResp pollIntervalMs maxPollAttempts t
  = (Ok (unwrapFinalPayload p),
     (t ++ running_polls (statusUrl_of baseUrl (extractTaskId createResp))
             pollIntervalMs k
        ++ [EvRequest
              (statusOptions
                 (statusUrl_of baseUrl (extractTaskId createResp)))])%list).
Proof.
  intros Hid Hf Hs Hk Hrun Hp.
  unfold poll. rewrite Hid. unfold bind at 1.
  replace (attempts maxPollAttempts)
    with (k + S (attempts maxPollAttempts - S k))%nat at 1 by lia.
  rewrite poll_loop_turns; [ | lia | lia | exact Hrun].
  rewrite (poll_loop_success _ _ _ _ _ _ _ _ _ p);
    [ | lia | now rewrite requests_app, requests_running_polls
      | assumption | assumption].
  now rewrite <- app_assoc.
Qed.

(** A status the node does not know, next to a result field, counts as a
    success; a failure status next to a result field is both a failure and
    a success, and the loop, which tests for failure first, throws. *)
Example unknown_status_with_result_is_success :
  isTerminalSuccess
    (VObj [("status", VStr "archived"); ("result", VStr "text")]) = true
  /\ isTerminalFailure
       (VObj [("status", VStr "failed"); ("result", VStr "text")]) = true
  /\ isTerminalSuccess
       (VObj [("status", VStr "failed"); ("result", VStr "text")]) = true.
Proof. repeat split; reflexivity. Qed.

(** ** C6: legacy polling parameters of a summarize item *)

Section Legacy.

Variable Number : value -> option Z.
Variable nodeParams : list (string * value).
Variables (newKey oldKey : string) (d1 d2 : Z) (current : number).

Lemma legacy_override_taken (legacy : Z) :
  has_key newKey nodeParams = false ->
  has_key oldKey nodeParams = true ->
  legacy_of Number (param nodeParams oldKey) = Some legacy ->
  legacy <> d1 -> legacy <> d2 ->
  legacy_override Number nodeParams newKey oldKey d1 d2 current = legacy.
Proof.
  intros Hn Ho Hl H1 H2. unfold legacy_override. rewrite Hn, Ho, Hl. simpl.
  apply Z.eqb_neq in H1. apply Z.eqb_neq in H2. now rewrite H1, H2.
Qed.

Lemma legacy_override_kept :
  has_key newKey nodeParams = true
  \/ has_key oldKey nodeParams = false
  \/ legacy_of Number (param nodeParams oldKey) = None
  \/ legacy_of Number (param nodeParams oldKey) = Some d1
  \/ legacy_of Number (param nodeParams oldKey) = Some d2 ->
  legacy_override Number nodeParams newKey oldKey d1 d2 current = current.
Proof.
  unfold legacy_override.
  intros [H | [H | [H | [H | H]]]]; rewrite ?H;
    destruct (has_key newKey nodeParams), (has_key oldKey nodeParams);
    simpl; rewrite ?H, ?Z.eqb_refl, ?andb_false_r; reflexivity.
Qed.

(** The code and the rule of the specification agree whenever the legacy
    key is absent or holds a number other than [d2]. *)
Lemma legacy_override_rule :
  assoc oldKey nodeParams = None
  \/ (exists n, assoc oldKey nodeParams = Some (VNum n) /\ n <> d2) ->
  legacy_override Number nodeParams newKey oldKey d1 d2 current
  = legacy_rule nodeParams newKey oldKey d1 current.
Proof.
  unfold legacy_override, legacy_rule, has_key, param.
  intros [H | [n [H Hn]]]; rewrite H;
    destruct (assoc newKey nodeParams); simpl; try reflexivity.
  apply Z.eqb_neq in Hn. rewrite Hn, andb_true_r.
  now destruct (n =? d1).
Qed.

End Legacy.

(** C6 as the specification words it: a legacy value other than the
    declared default replaces the per-task value.  The code also keeps
    the per-task value when the legacy interval is 1000 (and when the
    legacy attempt count is 300). *)
Lemma legacy_interval_1000_is_not_taken :
  (forall Number : value -> option Z,
      chosen_pollIntervalMs Number
        (Fixtures.parameters_for "summarize" "meeting_summary" "")
        [("pollIntervalMs", VNum 1000)]
      = 20000)
  /\ legacy_rule [("pollIntervalMs", VNum 1000)]
       "pollIntervalMsSummarize" "pollIntervalMs" default_pollIntervalMs
       20000
     = 1000.
Proof. split; reflexivity. Qed.

(** C6 (amended).  For a summarize item, the legacy value replaces the
    per-task one when the newer key ([pollIntervalMsSummarize],
    [maxPollAttemptsSummarize]) is not among the persisted parameters, the
    legacy key ([pollIntervalMs], [maxPollAttempts]) is, and its value is a
    number (or converts to one that is not [NaN]) other than 500 and 1000
    for the interval, other than 200 and 300 for the attempts; in every
    other case the per-task value is used unchanged.  This is the rule of
    the specification whenever the legacy key is absent or holds a number
    other than 1000, respectively 300. *)
Theorem legacy_value_overrides_per_task_default
    (Number : value -> option Z) (nodeParams : list (string * value))
    (p : Parameters) :
  task p = "summarize" ->
  (forall legacy,
      has_key "pollIntervalMsSummarize" nodeParams = false ->
      has_key "pollIntervalMs" nodeParams = true ->
      legacy_of Number (param nodeParams "pollIntervalMs") = Some legacy ->
      legacy <> 500 -> legacy <> 1000 ->
      chosen_pollIntervalMs Number p nodeParams = legacy)
  /\ (has_key "pollIntervalMsSummarize" nodeParams = true
      \/ has_key "pollIntervalMs" nodeParams = false
      \/ legacy_of Number (param nodeParams "pollIntervalMs") = None
      \/ legacy_of Number (param nodeParams "pollIntervalMs") = Some 500
      \/ legacy_of Number (param nodeParams "pollIntervalMs") = Some 1000 ->
      chosen_pollIntervalMs Number p nodeParams = pollIntervalMsSummarize p)
  /\ (forall legacy,
        has_key "maxPollAttemptsSummarize" nodeParams = false ->
        has_key "maxPollAttempts" nodeParams = true ->
        legacy_of Number (param nodeParams "maxPollAttempts") = Some legacy ->
        legacy <> 200 -> legacy <> 300 ->
        chosen_maxPollAttempts Number p nodeParams = legacy)
  /\ (has_key "maxPollAttemptsSummarize" nodeParams = true
      \/ has_key "maxPollAttempts" nodeParams = false
      \/ legacy_of Number (param nodeParams "maxPollAttempts") = None
      \/ legacy_of Number (param nodeParams "maxPollAttempts") = Some 200
      \/ legacy_of Number (param nodeParams "maxPollAttempts") = Some 300 ->
      chosen_maxPollAttempts Number p nodeParams
      = maxPollAttemptsSummarize p)
  /\ (assoc "pollIntervalMs" nodeParams = None
      \/ (exists n, assoc "pollIntervalMs" nodeParams = Some (VNum n)
                    /\ n <> 1000) ->
      chosen_pollIntervalMs Number p nodeParams
      = legacy_rule nodeParams "pollIntervalMsSummarize" "pollIntervalMs"
          default_pollIntervalMs (pollIntervalMsSummarize p))
  /\ (assoc "maxPollAttempts" nodeParams = None
      \/ (exists n, assoc "maxPollAttempts" nodeParams = Some (VNum n)
                    /\ n <> 300) ->
      chosen_maxPollAttempts Number p nodeParams
      = legacy_rule nodeParams "maxPollAttemptsSummarize" "maxPollAttempts"
          default_maxPollAttempts (maxPollAttemptsSummarize p)).
Proof.
  intros Ht. unfold chosen_pollIntervalMs, chosen_maxPollAttempts.
  rewrite Ht. simpl String.eqb. cbv iota.
  repeat split.
  - intros legacy. apply legacy_override_taken.
  - apply legacy_override_kept.
  - intros legacy. apply legacy_override_taken.
  - apply legacy_override_kept.
  - apply legacy_override_rule.
  - apply legacy_override_rule.
Qed.

(** A workflow saved before the per-task parameters existed: the interval
    1500 is taken over, the attempt count, an expression that is not a
    number, is not. *)
Lemma legacy_value_overrides_per_task_default_witness :
  chosen_pollIntervalMs Fixtures.Number_of_text
    (Fixtures.parameters_for "summarize" "meeting_summary" "")
    [("pollIntervalMs", VNum 1500); ("maxPollAttempts", VStr "={{ $json.n }}")]
  = 1500
  /\ chosen_maxPollAttempts Fixtures.Number_of_text
       (Fixtures.parameters_for "summarize" "meeting_summary" "")
       [("pollIntervalMs", VNum 1500);
        ("maxPollAttempts", VStr "={{ $json.n }}")]
     = 500.
Proof.
  pose proof (legacy_value_overrides_per_task_default
                Fixtures.Number_of_text
                [("pollIntervalMs", VNum 1500);
                 ("maxPollAttempts", VStr "={{ $json.n }}")]
                (Fixtures.parameters_for "summarize" "meeting_summary" "")
                eq_refl) as [Htake [_ [_ [Hkeep _]]]].
  split.
  - apply Htake; (reflexivity || discriminate).
  - apply Hkeep. right. right. left. reflexivity.
Defined.

(** ** Runs of one item *)

(** [NaN] goes through the clamp. *)
Lemma clamp_NaN (lo hi : Z) : clamp lo hi NaN = NaN.
Proof. reflexivity. Qed.

(** A number goes to the nearest bound when it is outside the range and
    is kept when it is inside. *)
Lemma clamp_nearest (lo hi : Z) (q : Q) (text : string) :
  lo <= hi ->
  ((q < inject_Z lo)%Q -> clamp lo hi (Num q text) = whole lo)
  /\ ((inject_Z hi < q)%Q -> clamp lo hi (Num q text) = whole hi)
  /\ ((inject_Z lo <= q <= inject_Z hi)%Q ->
      clamp lo hi (Num q text) = Num q text).
Proof.
  intros Hle. unfold clamp, Math_max, Math_min, whole.
  assert (Hbounds : (inject_Z lo <= inject_Z hi)%Q) by now rewrite <- Zle_Qle.
  repeat split.
  - intros Hlt. apply Qle_bool_false in Hlt. rewrite Hlt.
    apply Qle_bool_iff in Hbounds. now rewrite Hbounds.
  - intros Hlt.
    assert (Hlo : Qle_bool (inject_Z lo) q = true)
      by (apply Qle_bool_iff, Qlt_le_weak, Qle_lt_trans with (inject_Z hi);
          assumption).
    rewrite Hlo. apply Qle_bool_false in Hlt. now rewrite Hlt.
  - intros [Hlo Hhi]. apply Qle_bool_iff in Hlo, Hhi. now rewrite Hlo, Hhi.
Qed.

Lemma clamp_range (lo hi : Z) (q : Q) (text : string) :
  lo <= hi -> within lo hi (clamp lo hi (Num q text)).
Proof.
  intros Hle.
  assert (Hbounds : (inject_Z lo <= inject_Z hi)%Q) by now rewrite <- Zle_Qle.
  destruct (clamp_nearest lo hi q text Hle) as [Hlow [Hhigh Hin]].
  destruct (Qlt_le_dec q (inject_Z lo)) as [H1 | H1].
  - rewrite (Hlow H1). simpl. split; [apply Qle_refl | assumption].
  - destruct (Qlt_le_dec (inject_Z hi) q) as [H2 | H2].
    + rewrite (Hhigh H2). simpl. split; [assumption | apply Qle_refl].
    + rewrite (Hin (conj H1 H2)). simpl. now split.
Qed.

(** A value within [lo], [hi] allows at most [hi] turns of the loop, and
    at least [lo]. *)
Lemma attempts_within (lo hi : Z) (n : number) :
  within lo hi n -> (Z.to_nat lo <= attempts n <= Z.to_nat hi)%nat.
Proof.
  destruct n as [ | q text]; simpl; [contradiction | ].
  intros [Hlo Hhi].
  apply Qfloor_resp_le in Hlo, Hhi. rewrite Qfloor_Z in Hlo, Hhi. lia.
Qed.

(** Whatever was chosen, the clamped value allows no more than [hi]
    turns. *)
Lemma attempts_clamp (lo hi : Z) (x : number) :
  lo <= hi -> (attempts (clamp lo hi x) <= Z.to_nat hi)%nat.
Proof.
  intros Hle. destruct x as [ | q text].
  - simpl. lia.
  - now apply (attempts_within lo hi), clamp_range.
Qed.

(** The [switch] issues no request: it yields a target or throws. *)
Lemma endpoint_pure (baseUrl : string) (p : Parameters) (i : nat)
    (t : trace) :
  (exists target, endpoint baseUrl p i t = (Ok target, t))
  \/ (exists e, endpoint baseUrl p i t = (Throw e, t)).
Proof.
  unfold endpoint.
  repeat match goal with
         | |- context [if ?b then _ else _] => destruct b
         end;
    unfold ret, throw; eauto.
Qed.

Lemma endpoint_summarize (baseUrl : string) (p : Parameters) (i : nat)
    (t : trace) :
  task p = "summarize" -> summarizeTask p <> "" ->
  endpoint baseUrl p i t
  = (Ok (baseUrl ++ "/api/v1/ai_service/summarize_file",
         Some [("task", VStr (summarizeTask p));
               ("prompt",
                VStr (promptToSend (summarizeTask p) (summarizePromptRaw p)));
               ("thinking", VBool (summarizeThinking p))]),
     t).
Proof.
  intros Ht Hs. unfold endpoint. rewrite Ht. simpl.
  apply String.eqb_neq in Hs. now rewrite Hs.
Qed.

Section Item.

Variable Number : value -> option Z.
Variable transport : nat -> IHttpRequestOptions -> reply.
Variable baseUrl : string.

(** The polling block always ends; it issues at most [maxPollAttempts]
    requests, all of them status requests, and sleeps only for the poll
    interval. *)
Lemma poll_bounded (i : nat) (createResp : value)
    (pollIntervalMs maxPollAttempts : number) (t : trace) :
  exists out l,
    poll transport baseUrl i createResp pollIntervalMs maxPollAttempts t
    = (out, (t ++ l)%list)
    /\ out <> OutOfFuel
    /\ (requests l <= attempts maxPollAttempts)%nat
    /\ Forall
         (fun e =>
            e = EvRequest
                  (statusOptions
                     (statusUrl_of baseUrl (extractTaskId createResp)))
            \/ e = EvSleep pollIntervalMs) l.
Proof.
  unfold poll. destruct (truthy (extractTaskId createResp)).
  - destruct (poll_loop_bounded transport i (extractTaskId createResp)
                (statusUrl_of baseUrl (extractTaskId createResp))
                pollIntervalMs maxPollAttempts (attempts maxPollAttempts) 1 t)
      as [out [l [E [Hout [Hreq Hall]]]]].
    { lia. }
    { lia. }
    replace (Z.to_nat (Z.of_nat (attempts maxPollAttempts) + 1 - 1))
      with (attempts maxPollAttempts) in Hreq by lia.
    unfold bind. rewrite E.
    destruct out as [[finalResponse | ] | e | ];
      [ | | | congruence];
      eexists _, l; (repeat split; [discriminate | assumption | assumption]).
  - exists (Ok createResp), []. unfold ret. rewrite app_nil_r.
    repeat split; [discriminate | unfold requests; simpl; lia | constructor].
Qed.

(** An item with its binary data and a valid task: the submission is the
    first event; then come the polls; the record that is returned is the
    output record of some final response. *)
Lemma execute_item_submits (nodeParams : list (string * value))
    (p : Parameters) (item : INodeExecutionData) (i : nat) (t : trace)
    (binaryData : IBinaryData)
    (target : string * option (list (string * value))) :
  binary_of item (binaryProperty p) = Some binaryData ->
  endpoint baseUrl p i t = (Ok target, t) ->
  exists out l,
    execute_item Number transport baseUrl nodeParams p item i t
    = (out,
       (t ++ EvRequest
               (createOptions (fst target) (snd target)
                  (form_of binaryData (model_of p))) :: l)%list)
    /\ out <> OutOfFuel
    /\ (requests l <= attempts (used_maxPollAttempts Number p nodeParams))%nat
    /\ Forall
         (fun e =>
            forall ms, e = EvSleep ms ->
                       ms = used_pollIntervalMs Number p nodeParams) l
    /\ (forall r, out = Ok r ->
          exists finalResponse,
            r = {| item_json := result_of p binaryData finalResponse;
                   binary := binary item;
                   pairedItem := i |}).
Proof.
  intros Hb He. unfold execute_item. rewrite Hb.
  unfold bind at 1. rewrite He.
  unfold bind at 1. unfold request.
  set (opts := createOptions (fst target) (snd target)
                 (form_of binaryData (model_of p))).
  destruct (transport (requests t) opts) as [createResp | cause].
  - destruct (poll_bounded i createResp
                (used_pollIntervalMs Number p nodeParams)
                (used_maxPollAttempts Number p nodeParams)
                (emit (EvRequest opts) t))
      as [out [l [E [Hout [Hreq Hall]]]]].
    unfold bind. rewrite E. rewrite emit_app, <- app_assoc. simpl.
    assert (Hsleep : Forall
              (fun e => forall ms, e = EvSleep ms ->
                                   ms = used_pollIntervalMs Number p nodeParams)
              l).
    { eapply Forall_impl; [ | exact Hall].
      intros e [-> | ->] ms Hms; congruence. }
    destruct out as [finalResponse | e | ]; [ | | congruence].
    + eexists _, l. repeat split; try assumption; try discriminate.
      intros r Hr. exists finalResponse. unfold ret in Hr. congruence.
    + eexists _, l. repeat split; try assumption; try discriminate.
  - eexists _, []. rewrite emit_app. repeat split; try discriminate.
    + unfold requests. simpl. lia.
    + constructor.
Qed.

(** An item without binary data, or with a task that has no endpoint,
    issues no request. *)
Lemma execute_item_stops (nodeParams : list (string * value))
    (p : Parameters) (item : INodeExecutionData) (i : nat) (t : trace) :
  binary_of item (binaryProperty p) = None
  \/ (exists e, endpoint baseUrl p i t = (Throw e, t)) ->
  exists e,
    execute_item Number transport baseUrl nodeParams p item i t
    = (Throw e, t).
Proof.
  unfold execute_item. intros [Hb | [e He]].
  - rewrite Hb. unfold throw. eauto.
  - destruct (binary_of item (binaryProperty p)).
    + unfold bind at 1. rewrite He. eauto.
    + unfold throw. eauto.
Qed.

(** Every run of an item ends; its events are at most one submission and
    [maxPollAttempts] status requests, and its sleeps all last the poll
    interval that was fixed before polling. *)
Lemma execute_item_events (nodeParams : list (string * value))
    (p : Parameters) (item : INodeExecutionData) (i : nat) (t : trace) :
  exists out l,
    execute_item Number transport baseUrl nodeParams p item i t
    = (out, (t ++ l)%list)
    /\ out <> OutOfFuel
    /\ (requests l
        <= 1 + attempts (used_maxPollAttempts Number p nodeParams))%nat
    /\ Forall
         (fun e =>
            forall ms, e = EvSleep ms ->
                       ms = used_pollIntervalMs Number p nodeParams) l.
Proof.
  destruct (binary_of item (binaryProperty p)) as [binaryData | ] eqn:Hb.
  - destruct (endpoint_pure baseUrl p i t) as [[target He] | [e He]].
    + destruct (execute_item_submits nodeParams p item i t binaryData target
                  Hb He) as [out [l [E [Hout [Hreq [Hall _]]]]]].
      eexists out, _. split; [exact E | ]. repeat split.
      * assumption.
      * unfold requests in *. simpl. lia.
      * constructor; [discriminate | assumption].
    + destruct (execute_item_stops nodeParams p item i t
                  (or_intror (ex_intro _ e He))) as [e' E].
      exists (Throw e'), []. rewrite app_nil_r. repeat split;
        [assumption | discriminate | unfold requests; simpl; lia
         | constructor].
  - destruct (execute_item_stops nodeParams p item i t (or_introl Hb))
      as [e' E].
    exists (Throw e'), []. rewrite app_nil_r. repeat split;
      [assumption | discriminate | unfold requests; simpl; lia
       | constructor].
Qed.

End Item.

(** ** C7: the clamp *)

(** The clamp on a whole number. *)
Lemma clamp_whole (lo hi n : Z) :
  lo <= hi -> clamp lo hi (whole n) = whole (Z.min hi (Z.max lo n)).
Proof.
  intros Hle.
  destruct (clamp_nearest lo hi (inject_Z n) (string_of_Z n) Hle)
    as [Hlow [Hhigh Hin]].
  fold (whole n) in Hlow, Hhigh, Hin.
  destruct (Z.lt_ge_cases n lo) as [H1 | H1].
  - rewrite Hlow by now rewrite <- Zlt_Qlt. f_equal. lia.
  - destruct (Z.lt_ge_cases hi n) as [H2 | H2].
    + rewrite Hhigh by now rewrite <- Zlt_Qlt. f_equal. lia.
    + rewrite Hin by (split; now rewrite <- Zle_Qle). f_equal. lia.
Qed.

Lemma within_iff (lo hi : Z) (n : number) :
  within lo hi n <->
  exists q text, n = Num q text /\ (inject_Z lo <= q <= inject_Z hi)%Q.
Proof.
  destruct n as [ | q text]; simpl.
  - split; [contradiction | intros [q [text [E _]]]; discriminate].
  - split; [eauto | ].
    intros [q' [text' [E H]]]. now injection E as -> ->.
Qed.

(** The clamped value is within the range exactly when the value that
    was chosen is a number. *)
Lemma clamp_within_iff (lo hi : Z) (x : number) :
  lo <= hi -> (within lo hi (clamp lo hi x) <-> x <> NaN).
Proof.
  intros Hle. destruct x as [ | q text].
  - rewrite clamp_NaN. simpl. split; [contradiction | congruence].
  - split; [discriminate | intros _; now apply clamp_range].
Qed.

(** The backward-compatibility block never puts [NaN] in the place of a
    number: what it yields is [NaN] only when the per-task value is. *)
Lemma legacy_override_NaN (Number : value -> option Z)
    (nodeParams : list (string * value)) (newKey oldKey : string)
    (d1 d2 : Z) (current : number) :
  legacy_override Number nodeParams newKey oldKey d1 d2 current = NaN ->
  current = NaN.
Proof.
  unfold legacy_override.
  destruct (negb (has_key newKey nodeParams) && has_key oldKey nodeParams);
    [ | auto].
  destruct (legacy_of Number (param nodeParams oldKey)) as [legacy | ];
    [ | auto].
  destruct (negb (legacy =? d1) && negb (legacy =? d2)); [discriminate | auto].
Qed.

(** C7.  The clamp brings every number into its range, to the nearest
    bound when the number lies outside and unchanged when it lies inside,
    on the per-task path and on the legacy path: the poll interval then
    lies in [500, 900000], the attempt count in [1, 1000], and an item
    issues no more status requests than that count.  The clamp does not
    catch [NaN]: a poll interval or an attempt count that
    [getNodeParameter] hands over as [NaN] is still [NaN] after
    [Math.min(hi, Math.max(lo, NaN))], outside both ranges, so the values
    the loop runs with lie within the ranges exactly when the values read
    are numbers.  With the attempt count [NaN] the loop condition
    [1 <= NaN] fails at once: an item whose upload was answered with a task
    handle issues no status request and throws the timeout error, which
    reports [NaN] attempts.  (Only a value read with [getNodeParameter]
    can be [NaN] at the clamp: a legacy value that is [NaN] is refused by
    the block before it.) *)
Theorem polling_values_clamped_unless_NaN
    (Number : value -> option Z) (nodeParams : list (string * value))
    (p : Parameters) :
  ((exists q text,
       used_pollIntervalMs Number p nodeParams = Num q text
       /\ (inject_Z 500 <= q <= inject_Z 900000)%Q) <->
   chosen_pollIntervalMs Number p nodeParams <> NaN)
  /\ ((exists q text,
         used_maxPollAttempts Number p nodeParams = Num q text
         /\ (inject_Z 1 <= q <= inject_Z 1000)%Q) <->
      chosen_maxPollAttempts Number p nodeParams <> NaN)
  /\ (forall q text,
        chosen_pollIntervalMs Number p nodeParams = Num q text ->
        ((q < inject_Z 500)%Q ->
         used_pollIntervalMs Number p nodeParams = whole 500)
        /\ ((inject_Z 900000 < q)%Q ->
            used_pollIntervalMs Number p nodeParams = whole 900000)
        /\ ((inject_Z 500 <= q <= inject_Z 900000)%Q ->
            used_pollIntervalMs Number p nodeParams = Num q text))
  /\ (forall q text,
        chosen_maxPollAttempts Number p nodeParams = Num q text ->
        ((q < inject_Z 1)%Q ->
         used_maxPollAttempts Number p nodeParams = whole 1)
        /\ ((inject_Z 1000 < q)%Q ->
            used_maxPollAttempts Number p nodeParams = whole 1000)
        /\ ((inject_Z 1 <= q <= inject_Z 1000)%Q ->
            used_maxPollAttempts Number p nodeParams = Num q text))
  /\ (forall legacy,
        task p = "summarize" ->
        has_key "pollIntervalMsSummarize" nodeParams = false ->
        has_key "pollIntervalMs" nodeParams = true ->
        legacy_of Number (param nodeParams "pollIntervalMs") = Some legacy ->
        legacy <> 500 -> legacy <> 1000 ->
        used_pollIntervalMs Number p nodeParams
        = whole (Z.min 900000 (Z.max 500 legacy)))
  /\ (forall legacy,
        task p = "summarize" ->
        has_key "maxPollAttemptsSummarize" nodeParams = false ->
        has_key "maxPollAttempts" nodeParams = true ->
        legacy_of Number (param nodeParams "maxPollAttempts") = Some legacy ->
        legacy <> 200 -> legacy <> 300 ->
        used_maxPollAttempts Number p nodeParams
        = whole (Z.min 1000 (Z.max 1 legacy)))
  /\ (forall transport baseUrl item i t,
        exists out l,
          execute_item Number transport baseUrl nodeParams p item i t
          = (out, (t ++ l)%list)
          /\ out <> OutOfFuel
          /\ (requests l
              <= 1 + attempts (used_maxPollAttempts Number p nodeParams))%nat
          /\ (attempts (used_maxPollAttempts Number p nodeParams)
              <= 1000)%nat
          /\ Forall
               (fun e =>
                  forall ms, e = EvSleep ms ->
                             ms = used_pollIntervalMs Number p nodeParams)
               l)
  /\ (chosen_pollIntervalMs Number p nodeParams = NaN ->
      used_pollIntervalMs Number p nodeParams = NaN)
  /\ (chosen_maxPollAttempts Number p nodeParams = NaN ->
      used_maxPollAttempts Number p nodeParams = NaN)
  /\ (chosen_pollIntervalMs Number p nodeParams = NaN ->
      (if String.eqb (task p) "summarize" then pollIntervalMsSummarize p
       else pollIntervalMs p) = NaN)
  /\ (chosen_maxPollAttempts Number p nodeParams = NaN ->
      (if String.eqb (task p) "summarize" then maxPollAttemptsSummarize p
       else maxPollAttempts p) = NaN)
  /\ (task p <> "summarize" ->
      chosen_pollIntervalMs Number p nodeParams = pollIntervalMs p
      /\ chosen_maxPollAttempts Number p nodeParams = maxPollAttempts p)
  /\ (forall transport baseUrl item i t binaryData target createResp,
        chosen_maxPollAttempts Number p nodeParams = NaN ->
        binary_of item (binaryProperty p) = Some binaryData ->
        endpoint baseUrl p i t = (Ok target, t) ->
        transport (requests t)
          (createOptions (fst target) (snd target)
             (form_of binaryData (model_of p)))
        = Resolve createResp ->
        truthy (extractTaskId createResp) = true ->
        execute_item Number transport baseUrl nodeParams p item i t
        = (Throw
             (NodeOperationError
                ("Task " ++ toString (extractTaskId createResp)
                 ++ " did not complete within polling limit (NaN attempts)")
                (Some i)),
           (t ++ [EvRequest
                    (createOptions (fst target) (snd target)
                       (form_of binaryData (model_of p)))])%list)).
Proof.
  assert (Hi : 500 <= 900000) by lia.
  assert (Hm : 1 <= 1000) by lia.
  unfold used_pollIntervalMs, used_maxPollAttempts.
  split; [rewrite <- within_iff; now apply clamp_within_iff | ].
  split; [rewrite <- within_iff; now apply clamp_within_iff | ].
  split; [intros q text ->; now apply clamp_nearest | ].
  split; [intros q text ->; now apply clamp_nearest | ].
  split; [ | split; [ | split; [ | split; [ | split; [ | split; [ | split;
    [ | split]]]]]]].
  - intros legacy Ht Hn Ho Hl H1 H2.
    unfold chosen_pollIntervalMs. rewrite Ht. simpl String.eqb. cbv iota.
    rewrite (legacy_override_taken Number nodeParams _ _ _ _ _ legacy)
      by assumption.
    now apply clamp_whole.
  - intros legacy Ht Hn Ho Hl H1 H2.
    unfold chosen_maxPollAttempts. rewrite Ht. simpl String.eqb. cbv iota.
    rewrite (legacy_override_taken Number nodeParams _ _ _ _ _ legacy)
      by assumption.
    now apply clamp_whole.
  - intros transport baseUrl item i t.
    destruct (execute_item_events Number transport baseUrl nodeParams p item
                i t) as [out [l [E [Hout [Hreq Hall]]]]].
    exists out, l. repeat split; try assumption.
    apply (attempts_clamp 1 1000). lia.
  - intros ->. reflexivity.
  - intros ->. reflexivity.
  - unfold chosen_pollIntervalMs.
    destruct (String.eqb (task p) "summarize");
      [apply legacy_override_NaN | auto].
  - unfold chosen_maxPollAttempts.
    destruct (String.eqb (task p) "summarize");
      [apply legacy_override_NaN | auto].
  - intros Ht. apply String.eqb_neq in Ht.
    unfold chosen_pollIntervalMs, chosen_maxPollAttempts.
    now rewrite Ht.
  - intros transport baseUrl item i t binaryData target createResp HNaN Hb He
      Hr Hid.
    unfold execute_item. rewrite Hb.
    unfold bind at 1. rewrite He.
    unfold bind at 1. unfold request. rewrite Hr.
    unfold bind at 1. unfold poll, used_maxPollAttempts.
    rewrite Hid, HNaN, emit_app. reflexivity.
Qed.

(** A transcribe item whose attempt count is handed over as [NaN],
    against a backend that has the result ready at the first poll: the
    count the loop runs with is [NaN], no status request is made and the
    item fails with the timeout error. *)
Lemma polling_values_clamped_unless_NaN_witness :
  used_maxPollAttempts Fixtures.Number_of_text
    (Fixtures.parameters_polling "transcribe" 500 NaN) []
  = NaN
  /\ execute_item Fixtures.Number_of_text
       (Fixtures.answers [Fixtures.created] Fixtures.completed)
       Fixtures.baseUrl [] (Fixtures.parameters_polling "transcribe" 500 NaN)
       (Fixtures.item_with (Some "a.wav")) 0 []
     = (Throw
          (NodeOperationError
             "Task abc did not complete within polling limit (NaN attempts)"
             (Some 0%nat)),
        [EvRequest
           (createOptions
              "https://api.palatine.ru/api/v1/transcribe/do_transcribe" None
              [FormFile "file" [Byte.x52; Byte.x49; Byte.x46; Byte.x46]
                 "audio/wav" "a.wav";
               FormField "model" "palatine_small"])]).
Proof.
  pose proof (polling_values_clamped_unless_NaN Fixtures.Number_of_text []
                (Fixtures.parameters_polling "transcribe" 500 NaN))
    as [_ [_ [_ [_ [_ [_ [_ [_ [Hused [_ [_ [_ Hrun]]]]]]]]]]]].
  split; [apply Hused; reflexivity | ].
  exact (Hrun (Fixtures.answers [Fixtures.created] Fixtures.completed)
           Fixtures.baseUrl (Fixtures.item_with (Some "a.wav")) 0%nat []
           (Fixtures.audio (Some "a.wav"))
           ("https://api.palatine.ru/api/v1/transcribe/do_transcribe", None)
           Fixtures.created eq_refl eq_refl eq_refl eq_refl eq_refl).
Defined.

(** ** C8: the prompt of a summarize submission *)

Lemma str_or_self (a : string) : str_or a "" = a.
Proof. unfold str_or. now destruct (String.eqb_spec a ""). Qed.

Lemma summarizePromptRaw_user_prompt (p : Parameters) :
  task p = "summarize" -> summarizeTask p = "user_prompt" ->
  summarizePromptRaw p = summarizePrompt p.
Proof.
  intros Ht Hs. unfold summarizePromptRaw. rewrite Ht, Hs. simpl.
  apply str_or_self.
Qed.

(** C8.  A summarize item with a sub-task and binary data submits, as its
    first request, a POST to the summarize endpoint whose query string
    holds task, prompt and thinking.  The prompt in that query string is
    [*] when the sub-task is [meeting_summary]; otherwise it is the prompt
    the node read from the user, trimmed, and [*] when that is empty.  For
    the sub-task [user_prompt] the prompt the node read is the prompt
    parameter, so an empty prompt text sends [*].  (The prompt parameter
    exists under [user_prompt] only: for a sub-task that is neither of the
    two the node offers, no prompt is read and [*] is sent.) *)
Theorem summarize_prompt_sent
    (Number : value -> option Z)
    (transport : nat -> IHttpRequestOptions -> reply) (baseUrl : string)
    (nodeParams : list (string * value)) (p : Parameters)
    (item : INodeExecutionData) (i : nat) (t : trace)
    (binaryData : IBinaryData) :
  task p = "summarize" ->
  summarizeTask p <> "" ->
  binary_of item (binaryProperty p) = Some binaryData ->
  exists out l options prompt,
    execute_item Number transport baseUrl nodeParams p item i t
    = (out, (t ++ EvRequest options :: l)%list)
    /\ options
       = {| method := "POST";
            url := baseUrl ++ "/api/v1/ai_service/summarize_file";
            qs := Some [("task", VStr (summarizeTask p));
                        ("prompt", VStr prompt);
                        ("thinking", VBool (summarizeThinking p))];
            body := Some (form_of binaryData (model_of p));
            json := true |}
    /\ get (VObj (match qs options with Some q => q | None => [] end))
         "prompt"
       = VStr prompt
    /\ (summarizeTask p = "meeting_summary" -> prompt = "*")
    /\ (summarizeTask p <> "meeting_summary" ->
        trim (summarizePromptRaw p) <> "" ->
        prompt = trim (summarizePromptRaw p))
    /\ (summarizeTask p <> "meeting_summary" ->
        trim (summarizePromptRaw p) = "" ->
        prompt = "*")
    /\ (summarizeTask p = "user_prompt" ->
        summarizePromptRaw p = summarizePrompt p
        /\ (trim (summarizePrompt p) <> "" ->
            prompt = trim (summarizePrompt p))
        /\ (summarizePrompt p = "" -> prompt = "*"))
    /\ (summarizeTask p <> "meeting_summary" ->
        summarizeTask p <> "user_prompt" ->
        summarizePromptRaw p = "" /\ prompt = "*").
Proof.
  intros Ht Hs Hb.
  assert (Hmeeting : summarizeTask p = "meeting_summary" ->
            promptToSend (summarizeTask p) (summarizePromptRaw p) = "*").
  { intros E. unfold promptToSend. now rewrite E. }
  assert (Hother : summarizeTask p <> "meeting_summary" ->
            promptToSend (summarizeTask p) (summarizePromptRaw p)
            = str_or (trim (summarizePromptRaw p)) "*").
  { intros N. unfold promptToSend. apply String.eqb_neq in N.
    now rewrite N, str_or_self. }
  destruct (execute_item_submits Number transport baseUrl nodeParams p item
              i t binaryData _ Hb (endpoint_summarize baseUrl p i t Ht Hs))
    as [out [l [E _]]].
  exists out, l,
    (createOptions (baseUrl ++ "/api/v1/ai_service/summarize_file")
       (Some [("task", VStr (summarizeTask p));
              ("prompt",
               VStr (promptToSend (summarizeTask p) (summarizePromptRaw p)));
              ("thinking", VBool (summarizeThinking p))])
       (form_of binaryData (model_of p))),
    (promptToSend (summarizeTask p) (summarizePromptRaw p)).
  split; [exact E | ]. split; [reflexivity | ]. split; [reflexivity | ].
  split; [exact Hmeeting | split; [ | split; [ | split]]].
  - intros N Hne. rewrite (Hother N). now apply str_or_nonempty.
  - intros N He. rewrite (Hother N), He. reflexivity.
  - intros Hu.
    assert (N : summarizeTask p <> "meeting_summary")
      by (rewrite Hu; discriminate).
    rewrite (Hother N), (summarizePromptRaw_user_prompt p Ht Hu).
    repeat split.
    + intros Hne. now apply str_or_nonempty.
    + intros He. rewrite He. reflexivity.
  - intros N Hn.
    assert (Hraw : summarizePromptRaw p = "").
    { unfold summarizePromptRaw. apply String.eqb_neq in Hn.
      now rewrite Hn, andb_false_r. }
    split; [assumption | ]. rewrite (Hother N), Hraw. reflexivity.
Qed.

(** The third scenario of the specification: sub-task [user_prompt] with
    an empty prompt text.  The upload is the first event of the item, and
    its query string asks for the prompt [*]. *)
Lemma summarize_prompt_sent_witness :
  exists out rest,
    execute_item Fixtures.Number_of_text
      (Fixtures.answers [] Fixtures.completed) Fixtures.baseUrl []
      (Fixtures.parameters_for "summarize" "user_prompt" "")
      (Fixtures.item_with (Some "call.wav")) 0 []
    = (out,
       EvRequest
         {| method := "POST";
            url := "https://api.palatine.ru/api/v1/ai_service/summarize_file";
            qs := Some [("task", VStr "user_prompt"); ("prompt", VStr "*");
                        ("thinking", VBool false)];
            body := Some [FormFile "file"
                            [Byte.x52; Byte.x49; Byte.x46; Byte.x46]
                            "audio/wav" "call.wav"];
            json := true |} :: rest).
Proof.
  destruct (summarize_prompt_sent Fixtures.Number_of_text
              (Fixtures.answers [] Fixtures.completed) Fixtures.baseUrl []
              (Fixtures.parameters_for "summarize" "user_prompt" "")
              (Fixtures.item_with (Some "call.wav")) 0%nat []
              (Fixtures.audio (Some "call.wav"))
              eq_refl ltac:(discriminate) eq_refl)
    as [out [l [options [prompt [E [Hoptions [_ [_ [_ [_ [Huser _]]]]]]]]]]].
  destruct (Huser eq_refl) as [_ [_ Hempty]].
  exists out, l. rewrite E, Hoptions, (Hempty eq_refl). reflexivity.
Defined.

(** ** C10: an attachment without a file name *)

Lemma source_file_of_result (p : Parameters) (binaryData : IBinaryData)
    (finalResponse : value) :
  get (result_of p binaryData finalResponse) "source_file"
  = opt_value (fileName binaryData).
Proof. reflexivity. Qed.

(** C10.  For an item whose binary attachment has no file name: whenever
    the item issues a request, the first one is the upload, and its
    multipart form carries the file under the name [audio]; whenever the
    item returns an output record, the [source_file] of that record is
    [undefined], the default is not applied to it.  With a valid task the
    upload is issued. *)
Theorem missing_fileName_audio_upload_undefined_source_file
    (Number : value -> option Z)
    (transport : nat -> IHttpRequestOptions -> reply) (baseUrl : string)
    (nodeParams : list (string * value)) (p : Parameters)
    (item : INodeExecutionData) (i : nat) (t : trace)
    (binaryData : IBinaryData) :
  binary_of item (binaryProperty p) = Some binaryData ->
  fileName binaryData = None ->
  forall out t',
    execute_item Number transport baseUrl nodeParams p item i t = (out, t') ->
    (forall options rest,
        t' = (t ++ EvRequest options :: rest)%list ->
        exists type fields,
          body options
          = Some (FormFile "file" (data binaryData) type "audio" :: fields))
    /\ (forall target,
          endpoint baseUrl p i t = (Ok target, t) ->
          exists options rest, t' = (t ++ EvRequest options :: rest)%list)
    /\ (forall r, out = Ok r -> get (item_json r) "source_file" = VUndefined).
Proof.
  intros Hb Hname out t' Hrun.
  destruct (endpoint_pure baseUrl p i t) as [[target He] | [e He]].
  - destruct (execute_item_submits Number transport baseUrl nodeParams p item
                i t binaryData target Hb He)
      as [out0 [l [E [_ [_ [_ Hrec]]]]]].
    rewrite E in Hrun. injection Hrun as -> <-.
    repeat split.
    + intros options rest Heq. apply app_inv_head in Heq.
      injection Heq as <- _. unfold form_of. rewrite Hname. simpl. eauto.
    + intros _ _. eauto.
    + intros r Hr. destruct (Hrec r Hr) as [finalResponse ->]. simpl item_json.
      rewrite source_file_of_result, Hname. reflexivity.
  - destruct (execute_item_stops Number transport baseUrl nodeParams p item
                i t (or_intror (ex_intro _ e He))) as [e' E].
    rewrite E in Hrun. injection Hrun as <- <-.
    repeat split.
    + intros options rest Heq. rewrite <- (app_nil_r t) in Heq at 1.
      apply app_inv_head in Heq. discriminate.
    + intros target Ht. congruence.
    + discriminate.
Qed.

(** A transcribe item without a file name whose task completes at the
    second poll: the upload is named [audio], the record has no
    [source_file]. *)
Lemma missing_fileName_audio_upload_undefined_source_file_witness :
  exists out rest,
    execute_item Fixtures.Number_of_text
      (Fixtures.answers [Fixtures.created; Fixtures.processing;
                         Fixtures.completed] Fixtures.processing)
      Fixtures.baseUrl [] (Fixtures.parameters_for "transcribe" "" "")
      (Fixtures.item_with None) 0 []
    = (Ok out,
       EvRequest
         (createOptions
            "https://api.palatine.ru/api/v1/transcribe/do_transcribe" None
            [FormFile "file" [Byte.x52; Byte.x49; Byte.x46; Byte.x46]
               "audio/wav" "audio";
             FormField "model" "palatine_small"]) :: rest)
    /\ get (item_json out) "source_file" = VUndefined
    /\ get (item_json out) "transcription" = VStr "hello".
Proof.
  eexists. eexists. split; [vm_compute; reflexivity | ].
  split; [ | reflexivity].
  eapply (proj2 (proj2
            (missing_fileName_audio_upload_undefined_source_file
               Fixtures.Number_of_text
               (Fixtures.answers [Fixtures.created; Fixtures.processing;
                                  Fixtures.completed] Fixtures.processing)
               Fixtures.baseUrl []
               (Fixtures.parameters_for "transcribe" "" "")
               (Fixtures.item_with None) 0 [] (Fixtures.audio None)
               eq_refl eq_refl _ _ eq_refl))).
  reflexivity.
Defined.

(** ** A whole run *)

(** The second scenario of the specification, followed by an item without
    binary data, with [continueOnFail]: the create response has no task
    identifier and is the diarization, no status request is made; the
    second item becomes an error record and issues no request. *)
Example execute_diarize_then_missing_binary :
  execute Fixtures.Number_of_text
    (Fixtures.answers [VObj [("segments", VArr [])]] Fixtures.processing)
    (fun _ => "request failed")
    (VStr "https://api.palatine.ru/") None
    (fun _ => Fixtures.parameters_for "diarize" "" "") true
    [Fixtures.item_with (Some "a.wav");
     {| item_json := VObj []; binary := None; pairedItem := 0 |}]
    []
  = (Ok [{| item_json :=
              VObj [("task", VStr "diarize"); ("source_file", VStr "a.wav");
                    ("diarization", VObj [("segments", VArr [])])];
            binary := binary (Fixtures.item_with (Some "a.wav"));
            pairedItem := 0 |};
         {| item_json :=
              VObj [("error",
                     VStr ("No binary data in property " ++ dquote ++ "data"
                           ++ dquote))];
            binary := None;
            pairedItem := 1 |}],
     [EvRequest
        (createOptions
           "https://api.palatine.ru/api/v1/diarization/do_diarize" None
           [FormFile "file" [Byte.x52; Byte.x49; Byte.x46; Byte.x46]
              "audio/wav" "a.wav"])]).
Proof. reflexivity. Qed.

(** The first scenario of the specification: the first poll is answered
    "processing", the second "completed" with the text. *)
Example execute_item_transcribe_completes :
  execute_item Fixtures.Number_of_text
    (Fixtures.answers [Fixtures.created; Fixtures.processing;
                       Fixtures.completed] Fixtures.processing)
    Fixtures.baseUrl [] (Fixtures.parameters_for "transcribe" "" "")
    (Fixtures.item_with (Some "a.wav")) 0 []
  = (Ok {| item_json :=
             VObj [("task", VStr "transcribe");
                   ("source_file", VStr "a.wav");
                   ("model_used", VStr "palatine_small");
                   ("transcription", VStr "hello")];
           binary := binary (Fixtures.item_with (Some "a.wav"));
           pairedItem := 0 |},
     [EvRequest
        (createOptions
           "https://api.palatine.ru/api/v1/transcribe/do_transcribe" None
           [FormFile "file" [Byte.x52; Byte.x49; Byte.x46; Byte.x46]
              "audio/wav" "a.wav";
            FormField "model" "palatine_small"]);
      EvRequest
        (statusOptions
           "https://api.palatine.ru/api/v1/transcribe/task_status/abc");
      EvSleep 500;
      EvRequest
        (statusOptions
           "https://api.palatine.ru/api/v1/transcribe/task_status/abc")]).
Proof. reflexivity. Qed.

(* ===================================================================== *)
(** * Further properties of the node *)
(* ===================================================================== *)

(** ** How the two classifiers overlap *)

Lemma is_undefined_true (v : value) : is_undefined v = true <-> v = VUndefined.
Proof. destruct v; simpl; split; congruence. Qed.

Lemma failure_status_is_no_other (s : string) :
  In s FAILURE_STATUSES ->
  includes SUCCESS_STATUSES s = false
  /\ includes PROCESSING_STATUSES s = false.
Proof.
  simpl. intros H.
  repeat (destruct H as [H | H]; [subst s; split; reflexivity | ]).
  contradiction.
Qed.

Lemma success_status_is_no_failure (s : string) :
  In s SUCCESS_STATUSES -> includes FAILURE_STATUSES s = false.
Proof.
  simpl. intros H.
  repeat (destruct H as [H | H]; [subst s; reflexivity | ]).
  contradiction.
Qed.

(** The classifiers are not exclusive.  A payload with a failure status
    counts as a terminal success exactly when it also has a result field;
    a payload with a success status is never a terminal failure; a
    payload with a processing status is neither. *)
Theorem classifiers_overlap_on_failure_with_result (p : value) :
  (isTerminalFailure p = true -> isTerminalSuccess p = hasResult p)
  /\ (In (status_of p) SUCCESS_STATUSES -> isTerminalFailure p = false)
  /\ (In (status_of p) PROCESSING_STATUSES ->
      isTerminalFailure p = false /\ isTerminalSuccess p = false).
Proof.
  repeat split.
  - intros Hf. apply isTerminalFailure_iff in Hf.
    destruct (failure_status_is_no_other _ Hf) as [Hs Hp].
    unfold isTerminalSuccess. rewrite Hs, Hp. apply andb_true_r.
  - intros Hs. unfold isTerminalFailure.
    now apply success_status_is_no_failure.
  - unfold isTerminalFailure. revert H. simpl. intros H.
    repeat (destruct H as [H | H]; [rewrite <- H; reflexivity | ]).
    contradiction.
  - unfold isTerminalSuccess. revert H. simpl. intros H.
    repeat (destruct H as [H | H];
            [rewrite <- H; simpl; apply andb_false_r | ]).
    contradiction.
Qed.

(** A failure status next to a result: both classifiers answer true. *)
Lemma classifiers_overlap_on_failure_with_result_witness :
  isTerminalSuccess Fixtures.failed_with_result
  = hasResult Fixtures.failed_with_result.
Proof.
  apply (proj1 (classifiers_overlap_on_failure_with_result
                  Fixtures.failed_with_result)).
  reflexivity.
Defined.

(** ** The unwrapper and the result test *)

(** A payload without any result field unwraps to itself: a success that
    was recognised by its status alone hands the whole status payload to
    the output.  Conversely, when the unwrapper returns something else
    than the payload, the payload has a result field. *)
Theorem unwrapFinalPayload_without_result (p : value) :
  (hasResult p = false -> unwrapFinalPayload p = p)
  /\ (unwrapFinalPayload p <> p -> hasResult p = true).
Proof.
  assert (H1 : hasResult p = false -> unwrapFinalPayload p = p).
  { unfold hasResult, unwrapFinalPayload. intros H.
    repeat (apply orb_false_iff in H; destruct H as [H ?]).
    repeat match goal with
           | H : negb (is_undefined _) = false |- _ =>
               apply negb_false_iff, is_undefined_true in H; rewrite H
           end.
    reflexivity. }
  split; [exact H1 | ].
  intros Hne. destruct (hasResult p); [reflexivity | ].
  exfalso. now apply Hne, H1.
Qed.

(** A status payload that only says "done". *)
Lemma unwrapFinalPayload_without_result_witness :
  unwrapFinalPayload (VObj [("status", VStr "done")])
  = VObj [("status", VStr "done")].
Proof.
  apply (proj1 (unwrapFinalPayload_without_result
                  (VObj [("status", VStr "done")]))).
  reflexivity.
Defined.

(** ** The output record and the form *)

(** The field of the record that holds the transcription. *)
Lemma transcription_of_result (p : Parameters) (binaryData : IBinaryData)
    (finalResponse : value) :
  task p = "transcribe" ->
  get (result_of p binaryData finalResponse) "transcription"
  = match finalResponse with
    | VStr s => VStr (trim s)
    | _ =>
        or_else (get finalResponse "text")
          (or_else (get finalResponse "transcription")
             (or_else (get (get finalResponse "data") "text") (VStr "")))
    end.
Proof.
  intros Ht. unfold result_of, model_of. rewrite Ht. simpl.
  destruct (String.eqb (model p) ""); reflexivity.
Qed.

(** The field of the record that holds the summary. *)
Lemma summary_of_result (p : Parameters) (binaryData : IBinaryData)
    (finalResponse : value) :
  task p = "summarize" ->
  get (result_of p binaryData finalResponse) "summary"
  = match finalResponse with
    | VStr s => finalResponse
    | _ =>
        or_else (get finalResponse "summary")
          (or_else (get finalResponse "result")
             (or_else (get finalResponse "text") finalResponse))
    end.
Proof. intros Ht. unfold result_of, model_of. rewrite Ht. reflexivity. Qed.

Lemma or_else_truthy_or_default (a b : value) :
  truthy (or_else a b) = true \/ or_else a b = b.
Proof. unfold or_else. destruct (truthy a) eqn:E; auto. Qed.

(** The condition under which the model is used: [task === 'transcribe'
    && model]. *)
Lemma form_of_model (p : Parameters) (binaryData : IBinaryData) :
  form_of binaryData (model_of p)
  = (FormFile "file" (data binaryData)
       (Blob_type (opt_or (mimeType binaryData) "audio/mpeg"))
       (opt_or (fileName binaryData) "audio")
     :: if String.eqb (task p) "transcribe" && negb (String.eqb (model p) "")
        then [FormField "model" (model p)] else [])%list.
Proof.
  unfold form_of, model_of.
  destruct (String.eqb (task p) "transcribe"); [ | reflexivity].
  destruct (String.eqb (model p) ""); reflexivity.
Qed.

Lemma model_used_of_result (p : Parameters) (binaryData : IBinaryData)
    (finalResponse : value) :
  get (result_of p binaryData finalResponse) "model_used"
  = if String.eqb (task p) "transcribe" && negb (String.eqb (model p) "")
    then VStr (model p) else VUndefined.
Proof.
  unfold result_of, model_of.
  destruct (String.eqb (task p) "transcribe").
  - destruct (String.eqb (model p) ""); reflexivity.
  - destruct (String.eqb (task p) "diarize"); [reflexivity | ].
    destruct (String.eqb (task p) "sentiment"); [reflexivity | ].
    destruct (String.eqb (task p) "summarize"); reflexivity.
Qed.

(** The model is put in the multipart form exactly when the record names
    it under [model_used], and that is exactly when the task is
    transcribe and the model is not empty: for the other tasks the form
    holds the file alone and the record has no [model_used]. *)
Theorem model_sent_iff_model_used (p : Parameters) (binaryData : IBinaryData)
    (finalResponse : value) (m : string) :
  (In (FormField "model" m) (form_of binaryData (model_of p)) <->
   get (result_of p binaryData finalResponse) "model_used" = VStr m)
  /\ (In (FormField "model" m) (form_of binaryData (model_of p)) <->
      task p = "transcribe" /\ model p = m /\ m <> "")
  /\ (task p <> "transcribe" ->
      form_of binaryData (model_of p)
      = [FormFile "file" (data binaryData)
           (Blob_type (opt_or (mimeType binaryData) "audio/mpeg"))
           (opt_or (fileName binaryData) "audio")]
      /\ get (result_of p binaryData finalResponse) "model_used"
         = VUndefined).
Proof.
  rewrite form_of_model, model_used_of_result.
  destruct (String.eqb_spec (task p) "transcribe") as [Ht | Ht];
    destruct (String.eqb_spec (model p) "") as [Hm | Hm]; simpl;
    (split; [ | split]);
    try (split; [reflexivity | reflexivity]);
    try contradiction;
    split;
    try (intros [H | [H | []]]; try discriminate; injection H as <-);
    try (intros [H | []]; discriminate);
    try (intros [H1 [H2 H3]]; subst; try contradiction);
    try discriminate; try congruence; auto.
  - intros H. injection H as <-. auto.
Qed.

(** The ways a list of four operands splits around one of them, with what
    follows it. *)
Lemma split_four_rest {A : Type} (a b c d : A) (pre : list A) (v : A)
    (post : list A) :
  [a; b; c; d] = (pre ++ v :: post)%list ->
  (pre = [] /\ v = a /\ post = [b; c; d])
  \/ (pre = [a] /\ v = b /\ post = [c; d])
  \/ (pre = [a; b] /\ v = c /\ post = [d])
  \/ (pre = [a; b; c] /\ v = d /\ post = []).
Proof.
  intros H.
  destruct pre as [ | x1 [ | x2 [ | x3 [ | x4 pre]]]]; simpl in H;
    inversion H; subst; auto 8.
  destruct pre; discriminate.
Qed.

(** [a || b || c || d]: the first truthy operand, the last one when no
    earlier one is truthy. *)
Lemma or_else_chain_pick (a b c d : value) (pre : list value) (v : value)
    (post : list value) :
  [a; b; c; d] = (pre ++ v :: post)%list ->
  Forall (fun x => truthy x = false) pre ->
  (truthy v = true \/ post = []) ->
  or_else a (or_else b (or_else c d)) = v.
Proof.
  intros Hs Hpre Hv. apply split_four_rest in Hs.
  destruct Hs as [[-> [-> ->]] | [[-> [-> ->]] | [[-> [-> ->]]
                                                  | [-> [-> ->]]]]];
    forall_elements; unfold or_else; rewrite_known truthy;
    try reflexivity;
    (destruct Hv as [Hv | Hv]; [now rewrite Hv | discriminate]).
Qed.

(** For a transcribe item the record always has a transcription, and it is
    never [undefined] or [null]: a final response that is a string is
    trimmed; otherwise the first truthy one of its [text], its
    [transcription] and its nested [data.text] is taken, and the empty
    string when none is truthy. *)
Theorem transcription_is_never_missing (p : Parameters)
    (binaryData : IBinaryData) (finalResponse : value) :
  task p = "transcribe" ->
  (get (result_of p binaryData finalResponse) "transcription" = VStr ""
   \/ truthy (get (result_of p binaryData finalResponse) "transcription")
      = true)
  /\ nullish (get (result_of p binaryData finalResponse) "transcription")
     = false
  /\ (forall s, finalResponse = VStr s ->
        get (result_of p binaryData finalResponse) "transcription"
        = VStr (trim s))
  /\ (forall pre v post,
        typeof_string finalResponse = false ->
        [get finalResponse "text"; get finalResponse "transcription";
         get (get finalResponse "data") "text"; VStr ""]
        = (pre ++ v :: post)%list ->
        Forall (fun c => truthy c = false) pre ->
        (truthy v = true \/ post = []) ->
        get (result_of p binaryData finalResponse) "transcription" = v).
Proof.
  intros Ht. rewrite (transcription_of_result p binaryData finalResponse Ht).
  assert (Hshape :
            forall a b c : value,
              let r := or_else a (or_else b (or_else c (VStr ""))) in
              (r = VStr "" \/ truthy r = true) /\ nullish r = false).
  { intros a b c. unfold or_else.
    destruct (truthy a) eqn:Ea; [split; [now right | now destruct a] | ].
    destruct (truthy b) eqn:Eb; [split; [now right | now destruct b] | ].
    destruct (truthy c) eqn:Ec; [split; [now right | now destruct c] | ].
    split; [now left | reflexivity]. }
  repeat split.
  - destruct finalResponse; try apply Hshape.
    destruct (String.eqb_spec (trim s) "") as [E | E].
    + left. now rewrite E.
    + right. simpl. now apply String.eqb_neq in E; rewrite E.
  - destruct finalResponse; try apply Hshape. reflexivity.
  - intros s ->. reflexivity.
  - intros pre v post Hns Hs Hpre Hv.
    destruct finalResponse; try discriminate;
      eapply or_else_chain_pick; eassumption.
Qed.

(** A final response whose text sits under [data]. *)
Lemma transcription_is_never_missing_witness :
  get (result_of (Fixtures.parameters_for "transcribe" "" "")
         (Fixtures.audio None)
         (VObj [("text", VStr ""); ("data", VObj [("text", VStr "bonjour")])]))
    "transcription"
  = VStr "bonjour".
Proof.
  apply (proj2 (proj2 (proj2
           (transcription_is_never_missing
              (Fixtures.parameters_for "transcribe" "" "")
              (Fixtures.audio None)
              (VObj [("text", VStr "");
                     ("data", VObj [("text", VStr "bonjour")])])
              eq_refl)))
           [VStr ""; VUndefined] (VStr "bonjour") [VStr ""]).
  - reflexivity.
  - reflexivity.
  - repeat constructor.
  - left. reflexivity.
Defined.

(** For a summarize item a final response that is a string is the summary
    as it stands (it is not trimmed); otherwise the summary is the first
    truthy one of its [summary], [result] and [text], and the final
    response itself when none is truthy: it is never replaced by a
    default. *)
Theorem summary_falls_back_to_response (p : Parameters)
    (binaryData : IBinaryData) (finalResponse : value) :
  task p = "summarize" ->
  (forall s, finalResponse = VStr s ->
     get (result_of p binaryData finalResponse) "summary" = VStr s)
  /\ (forall pre v post,
        typeof_string finalResponse = false ->
        [get finalResponse "summary"; get finalResponse "result";
         get finalResponse "text"; finalResponse]
        = (pre ++ v :: post)%list ->
        Forall (fun c => truthy c = false) pre ->
        (truthy v = true \/ post = []) ->
        get (result_of p binaryData finalResponse) "summary" = v)
  /\ In (get (result_of p binaryData finalResponse) "summary")
       [finalResponse; get finalResponse "summary";
        get finalResponse "result"; get finalResponse "text"].
Proof.
  intros Ht. rewrite (summary_of_result p binaryData finalResponse Ht).
  repeat split.
  - intros s ->. reflexivity.
  - intros pre v post Hns Hs Hpre Hv.
    destruct finalResponse; try discriminate;
      eapply or_else_chain_pick; eassumption.
  - destruct finalResponse; simpl; auto; unfold or_else;
      repeat match goal with
             | |- context [if ?b then _ else _] => destruct b
             end; simpl; auto.
Qed.

(** A final response that has none of the three fields is the summary. *)
Lemma summary_falls_back_to_response_witness :
  get (result_of (Fixtures.parameters_for "summarize" "meeting_summary" "")
         (Fixtures.audio None) (VObj [("notes", VStr "n")])) "summary"
  = VObj [("notes", VStr "n")].
Proof.
  apply (proj1 (proj2
           (summary_falls_back_to_response
              (Fixtures.parameters_for "summarize" "meeting_summary" "")
              (Fixtures.audio None) (VObj [("notes", VStr "n")]) eq_refl))
           [VUndefined; VUndefined; VUndefined] (VObj [("notes", VStr "n")])
           []).
  - reflexivity.
  - reflexivity.
  - repeat constructor.
  - right. reflexivity.
Defined.

(** ** The status is normalized once and for all *)

Lemma lower_lower (c : ascii) : lower (lower c) = lower c.
Proof.
  destruct c as [b0 b1 b2 b3 b4 b5 b6 b7];
    destruct b0, b1, b2, b3, b4, b5, b6, b7; reflexivity.
Qed.

Lemma isWhiteSpace_lower (c : ascii) : isWhiteSpace (lower c) = isWhiteSpace c.
Proof.
  destruct c as [b0 b1 b2 b3 b4 b5 b6 b7];
    destruct b0, b1, b2, b3, b4, b5, b6, b7; reflexivity.
Qed.

Lemma toLowerCase_idempotent (s : string) :
  toLowerCase (toLowerCase s) = toLowerCase s.
Proof.
  induction s as [ | c r IH]; simpl; [reflexivity | ].
  now rewrite lower_lower, IH.
Qed.

Lemma toLowerCase_eqb_empty (s : string) :
  String.eqb (toLowerCase s) "" = String.eqb s "".
Proof. destruct s; reflexivity. Qed.

Lemma trimStart_toLowerCase (s : string) :
  trimStart (toLowerCase s) = toLowerCase (trimStart s).
Proof.
  induction s as [ | c r IH]; simpl; [reflexivity | ].
  rewrite isWhiteSpace_lower. now destruct (isWhiteSpace c).
Qed.

Lemma trimEnd_toLowerCase (s : string) :
  trimEnd (toLowerCase s) = toLowerCase (trimEnd s).
Proof.
  induction s as [ | c r IH]; simpl; [reflexivity | ].
  rewrite isWhiteSpace_lower, IH, toLowerCase_eqb_empty.
  now destruct (isWhiteSpace c && String.eqb (trimEnd r) "").
Qed.

Lemma trimStart_starts_clean (s : string) : starts_clean (trimStart s).
Proof.
  induction s as [ | c r IH]; simpl; [exact I | ].
  destruct (isWhiteSpace c) eqn:E; [assumption | exact E].
Qed.

Lemma trimStart_clean (s : string) : starts_clean s -> trimStart s = s.
Proof. destruct s; simpl; [reflexivity | ]. now intros ->. Qed.

Lemma trimEnd_starts_clean (s : string) :
  starts_clean s -> starts_clean (trimEnd s).
Proof. destruct s; simpl; [exact id | ]. intros H. now rewrite H. Qed.

Lemma trimEnd_idempotent (s : string) : trimEnd (trimEnd s) = trimEnd s.
Proof.
  induction s as [ | c r IH]; simpl; [reflexivity | ].
  destruct (isWhiteSpace c && String.eqb (trimEnd r) "") eqn:E;
    [reflexivity | ].
  simpl. now rewrite IH, E.
Qed.

Lemma trim_idempotent (s : string) : trim (trim s) = trim s.
Proof.
  unfold trim.
  rewrite (trimStart_clean (trimEnd (trimStart s))).
  - apply trimEnd_idempotent.
  - apply trimEnd_starts_clean, trimStart_starts_clean.
Qed.

Lemma trim_toLowerCase (s : string) :
  trim (toLowerCase s) = toLowerCase (trim s).
Proof. unfold trim. now rewrite trimStart_toLowerCase, trimEnd_toLowerCase. Qed.

(** A normalized status is already trimmed and in lower case, and
    normalizing it again gives it back: whatever case and surrounding
    blanks the backend uses, the classifiers compare one fixed form. *)
Theorem normalizeStatus_idempotent (v : value) :
  normalizeStatus (VStr (normalizeStatus v)) = normalizeStatus v
  /\ trim (normalizeStatus v) = normalizeStatus v
  /\ toLowerCase (normalizeStatus v) = normalizeStatus v.
Proof.
  assert (Ht : trim (normalizeStatus v) = normalizeStatus v).
  { destruct v; try reflexivity. simpl.
    now rewrite trim_toLowerCase, trim_idempotent. }
  assert (Hl : toLowerCase (normalizeStatus v) = normalizeStatus v).
  { destruct v; try reflexivity. simpl. apply toLowerCase_idempotent. }
  repeat split; try assumption.
  simpl. now rewrite Ht, Hl.
Qed.

(** ** The base URL *)

Lemma app_slash_eqb_empty (s : string) : String.eqb (s ++ "/") "" = false.
Proof. destruct s; reflexivity. Qed.

Lemma strip_trailing_slash_app (s : string) :
  strip_trailing_slash (s ++ "/") = s.
Proof.
  induction s as [ | c r IH]; [reflexivity | ].
  simpl. now rewrite app_slash_eqb_empty, andb_false_r, IH.
Qed.

Lemma strip_trailing_slash_none (s : string) :
  (forall u, s <> u ++ "/") -> strip_trailing_slash s = s.
Proof.
  induction s as [ | c r IH]; intros H; [reflexivity | ].
  simpl.
  destruct (Ascii.eqb_spec c "/") as [-> | Hc];
    destruct (String.eqb_spec r "") as [-> | Hr]; simpl.
  - exfalso. now apply (H "").
  - f_equal. apply IH. intros u ->. now apply (H (String "/" u)).
  - reflexivity.
  - f_equal. apply IH. intros u ->. now apply (H (String c u)).
Qed.

(** The base URL of the credentials with and without one slash at its end
    is the same base URL, so the same requests are made; only one slash
    is removed; a credential that is missing, empty, or just a slash gives
    the empty base URL. *)
Theorem baseUrl_of_trailing_slash :
  (forall u : string,
      u <> "" -> (forall w, u <> w ++ "/") ->
      baseUrl_of (VStr (u ++ "/")) = u /\ baseUrl_of (VStr u) = u)
  /\ (forall u : string, baseUrl_of (VStr (u ++ "/")) = u)
  /\ (forall v : value, truthy v = false -> baseUrl_of v = "").
Proof.
  assert (Happ : forall u, baseUrl_of (VStr (u ++ "/")) = u).
  { intros u. unfold baseUrl_of, or_else. simpl.
    rewrite app_slash_eqb_empty. simpl. apply strip_trailing_slash_app. }
  repeat split.
  - apply Happ.
  - unfold baseUrl_of, or_else. simpl.
    apply String.eqb_neq in H. rewrite H. simpl.
    now apply strip_trailing_slash_none.
  - apply Happ.
  - intros v Hv. unfold baseUrl_of, or_else. now rewrite Hv.
Qed.

(** The default base URL of the credentials, entered with a slash. *)
Lemma baseUrl_of_trailing_slash_witness :
  baseUrl_of (VStr ("https://api.palatine.ru" ++ "/"))
  = "https://api.palatine.ru"
  /\ baseUrl_of (VStr "https://api.palatine.ru") = "https://api.palatine.ru".
Proof.
  apply (proj1 baseUrl_of_trailing_slash "https://api.palatine.ru").
  - discriminate.
  - intros w H.
    pose proof (f_equal strip_trailing_slash H) as E.
    rewrite strip_trailing_slash_app in E. vm_compute in E. subst w.
    discriminate H.
Defined.

(** ** Runs of one item, case by case *)

Lemma requests_snoc_request (t : trace) (options : IHttpRequestOptions) :
  requests (t ++ [EvRequest options])%list = S (requests t).
Proof. rewrite requests_app. unfold requests at 2. simpl. lia. Qed.

(** A valid target: the task is one of the four, and a summarize item has
    its sub-task. *)
Lemma endpoint_ok_task (baseUrl : string) (p : Parameters) (i : nat)
    (t : trace) (target : string * option (list (string * value))) :
  endpoint baseUrl p i t = (Ok target, t) ->
  In (task p) TASKS /\ (task p = "summarize" -> summarizeTask p <> "").
Proof.
  unfold endpoint, TASKS.
  destruct (String.eqb_spec (task p) "transcribe") as [E1 | N1].
  { intros _. rewrite E1. split; [simpl; tauto | discriminate]. }
  destruct (String.eqb_spec (task p) "diarize") as [E2 | N2].
  { intros _. rewrite E2. split; [simpl; tauto | discriminate]. }
  destruct (String.eqb_spec (task p) "sentiment") as [E3 | N3].
  { intros _. rewrite E3. split; [simpl; tauto | discriminate]. }
  destruct (String.eqb_spec (task p) "summarize") as [E4 | N4].
  - destruct (String.eqb_spec (summarizeTask p) "") as [E5 | N5].
    + discriminate.
    + intros _. rewrite E4. split; [simpl; tauto | intros _; exact N5].
  - discriminate.
Qed.

Section Runs.

Variable Number : value -> option Z.
Variable transport : nat -> IHttpRequestOptions -> reply.
Variable baseUrl : string.
Variable nodeParams : list (string * value).
Variable p : Parameters.
Variable item : INodeExecutionData.
Variable i : nat.
Variable t : trace.
Variable binaryData : IBinaryData.
Variable target : string * option (list (string * value)).

Hypothesis Hbinary : binary_of item (binaryProperty p) = Some binaryData.
Hypothesis Htarget : endpoint baseUrl p i t = (Ok target, t).

Let submission : IHttpRequestOptions :=
  createOptions (fst target) (snd target) (form_of binaryData (model_of p)).

(** Once the submission is answered, the run of the item is the run of
    the polling block on the answer, and its record is the output record
    of what that block returns. *)
Lemma execute_item_after_submit (createResp : value) :
  transport (requests t) submission = Resolve createResp ->
  execute_item Number transport baseUrl nodeParams p item i t
  = match
      poll transport baseUrl i createResp
        (used_pollIntervalMs Number p nodeParams)
        (used_maxPollAttempts Number p nodeParams)
        (t ++ [EvRequest submission])%list
    with
    | (Ok finalResponse, t') =>
        (Ok {| item_json := result_of p binaryData finalResponse;
               binary := binary item;
               pairedItem := i |}, t')
    | (Throw e, t') => (Throw e, t')
    | (OutOfFuel, t') => (OutOfFuel, t')
    end.
Proof.
  intros Hr. unfold execute_item. rewrite Hbinary.
  unfold bind at 1. rewrite Htarget.
  unfold bind at 1. unfold request. fold submission. rewrite Hr.
  unfold bind, ret. rewrite emit_app. reflexivity.
Qed.

(** A submission that the transport rejects. *)
Lemma execute_item_submit_rejected (cause : value) :
  transport (requests t) submission = Reject cause ->
  execute_item Number transport baseUrl nodeParams p item i t
  = (Throw (NodeApiError cause i), (t ++ [EvRequest submission])%list).
Proof.
  intros Hr. unfold execute_item. rewrite Hbinary.
  unfold bind at 1. rewrite Htarget.
  unfold bind at 1. unfold request. fold submission. rewrite Hr.
  now rewrite emit_app.
Qed.

End Runs.

(** ** The polling block, case by case *)

Section Polls.

Variable transport : nat -> IHttpRequestOptions -> reply.
Variables (baseUrl : string) (i : nat) (createResp : value).
Variables (interval maxAttempts : number) (t : trace).

Let statusUrl : string := statusUrl_of baseUrl (extractTaskId createResp).

(** No task handle: the create response is the final response and nothing
    is requested. *)
Lemma poll_without_task_id :
  truthy (extractTaskId createResp) = false ->
  poll transport baseUrl i createResp interval maxAttempts t
  = (Ok createResp, t).
Proof. intros H. unfold poll. now rewrite H. Qed.

(** Every reply finds the task still running: the timeout. *)
Lemma poll_times_out :
  truthy (extractTaskId createResp) = true ->
  (forall j, (j < attempts maxAttempts)%nat ->
     exists q,
       transport (requests t + j)%nat (statusOptions statusUrl) = Resolve q
       /\ still_running q) ->
  poll transport baseUrl i createResp interval maxAttempts t
  = (Throw
       (NodeOperationError
          (timeout_message (extractTaskId createResp) maxAttempts) (Some i)),
     (t ++ running_polls statusUrl interval (attempts maxAttempts))%list).
Proof.
  intros Hid Hrun. unfold poll. rewrite Hid. unfold bind.
  rewrite <- (Nat.add_0_r (attempts maxAttempts)) at 1.
  rewrite poll_loop_turns; [ | lia | lia | exact Hrun].
  rewrite poll_loop_exit by lia. reflexivity.
Qed.

(** A status request that the transport rejects, after [k] polls that
    found the task still running. *)
Lemma poll_status_rejected (k : nat) (cause : value) :
  truthy (extractTaskId createResp) = true ->
  (k < attempts maxAttempts)%nat ->
  (forall j, (j < k)%nat ->
     exists q,
       transport (requests t + j)%nat (statusOptions statusUrl) = Resolve q
       /\ still_running q) ->
  transport (requests t + k)%nat (statusOptions statusUrl) = Reject cause ->
  poll transport baseUrl i createResp interval maxAttempts t
  = (Throw (NodeApiError cause i),
     (t ++ running_polls statusUrl interval k
        ++ [EvRequest (statusOptions statusUrl)])%list).
Proof.
  intros Hid Hk Hrun Hrej. unfold poll. rewrite Hid. unfold bind at 1.
  replace (attempts maxAttempts)
    with (k + S (attempts maxAttempts - S k))%nat at 1 by lia.
  rewrite poll_loop_turns; [ | lia | lia | exact Hrun].
  rewrite (poll_loop_rejected _ _ _ _ _ _ _ _ _ cause);
    [ | lia | now rewrite requests_app, requests_running_polls].
  now rewrite <- app_assoc.
Qed.

End Polls.

(** ** What an item does, from submission to record *)

(** An item whose create response holds no task handle is finished by the
    submission alone: one request, no status request, no sleep, and the
    record is built from the create response itself. *)
Theorem item_without_task_id_is_final
    (Number : value -> option Z)
    (transport : nat -> IHttpRequestOptions -> reply) (baseUrl : string)
    (nodeParams : list (string * value)) (p : Parameters)
    (item : INodeExecutionData) (i : nat) (t : trace)
    (binaryData : IBinaryData)
    (target : string * option (list (string * value))) (createResp : value) :
  binary_of item (binaryProperty p) = Some binaryData ->
  endpoint baseUrl p i t = (Ok target, t) ->
  transport (requests t)
    (createOptions (fst target) (snd target)
       (form_of binaryData (model_of p)))
  = Resolve createResp ->
  truthy (extractTaskId createResp) = false ->
  execute_item Number transport baseUrl nodeParams p item i t
  = (Ok {| item_json := result_of p binaryData createResp;
           binary := binary item;
           pairedItem := i |},
     (t ++ [EvRequest
              (createOptions (fst target) (snd target)
                 (form_of binaryData (model_of p)))])%list).
Proof.
  intros Hb He Hr Hid.
  rewrite (execute_item_after_submit Number transport baseUrl nodeParams p
             item i t binaryData target Hb He createResp Hr).
  now rewrite poll_without_task_id.
Qed.

(** A backend that answers the upload with the transcription as plain
    text. *)
Lemma item_without_task_id_is_final_witness :
  execute_item Fixtures.Number_of_text
    (Fixtures.answers [VStr "  hello world "] Fixtures.processing)
    Fixtures.baseUrl [] (Fixtures.parameters_for "transcribe" "" "")
    (Fixtures.item_with (Some "a.wav")) 0 []
  = (Ok {| item_json :=
             VObj [("task", VStr "transcribe");
                   ("source_file", VStr "a.wav");
                   ("model_used", VStr "palatine_small");
                   ("transcription", VStr "hello world")];
           binary := binary (Fixtures.item_with (Some "a.wav"));
           pairedItem := 0 |},
     [EvRequest
        (createOptions
           "https://api.palatine.ru/api/v1/transcribe/do_transcribe" None
           [FormFile "file" [Byte.x52; Byte.x49; Byte.x46; Byte.x46]
              "audio/wav" "a.wav";
            FormField "model" "palatine_small"])]).
Proof.
  exact (item_without_task_id_is_final Fixtures.Number_of_text
           (Fixtures.answers [VStr "  hello world "] Fixtures.processing)
           Fixtures.baseUrl [] (Fixtures.parameters_for "transcribe" "" "")
           (Fixtures.item_with (Some "a.wav")) 0%nat []
           (Fixtures.audio (Some "a.wav"))
           ("https://api.palatine.ru/api/v1/transcribe/do_transcribe", None)
           (VStr "  hello world ") eq_refl eq_refl eq_refl eq_refl).
Defined.

(** An item whose task reaches a terminal success at the poll numbered
    [k] (the polls before found it still running, and the attempts allow
    that poll) returns the record of the unwrapped status payload; its
    events are the submission, [k] request-sleep pairs and the status
    request that was answered, with no sleep after it. *)
Theorem item_completes_on_terminal_success
    (Number : value -> option Z)
    (transport : nat -> IHttpRequestOptions -> reply) (baseUrl : string)
    (nodeParams : list (string * value)) (p : Parameters)
    (item : INodeExecutionData) (i : nat) (t : trace)
    (binaryData : IBinaryData)
    (target : string * option (list (string * value))) (createResp : value)
    (k : nat) (statusPayload : value) :
  binary_of item (binaryProperty p) = Some binaryData ->
  endpoint baseUrl p i t = (Ok target, t) ->
  transport (requests t)
    (createOptions (fst target) (snd target)
       (form_of binaryData (model_of p)))
  = Resolve createResp ->
  truthy (extractTaskId createResp) = true ->
  (k < attempts (used_maxPollAttempts Number p nodeParams))%nat ->
  (forall j, (j < k)%nat ->
     exists q,
       transport (S (requests t) + j)%nat
         (statusOptions (statusUrl_of baseUrl (extractTaskId createResp)))
       = Resolve q
       /\ still_running q) ->
  transport (S (requests t) + k)%nat
    (statusOptions (statusUrl_of baseUrl (extractTaskId createResp)))
  = Resolve statusPayload ->
  isTerminalFailure statusPayload = false ->
  isTerminalSuccess statusPayload = true ->
  execute_item Number transport baseUrl nodeParams p item i t
  = (Ok {| item_json :=
             result_of p binaryData (unwrapFinalPayload statusPayload);
           binary := binary item;
           pairedItem := i |},
     (t ++ EvRequest
             (createOptions (fst target) (snd target)
                (form_of binaryData (model_of p)))
        :: running_polls (statusUrl_of baseUrl (extractTaskId createResp))
             (used_pollIntervalMs Number p nodeParams) k
        ++ [EvRequest
              (statusOptions
                 (statusUrl_of baseUrl (extractTaskId createResp)))])%list).
Proof.
  intros Hb He Hr Hid Hk Hrun Hp Hf Hs.
  rewrite (execute_item_after_submit Number transport baseUrl nodeParams p
             item i t binaryData target Hb He createResp Hr).
  rewrite (poll_returns_on_terminal_success transport baseUrl i createResp
             _ _ _ k statusPayload Hid Hf Hs Hk).
  - now rewrite <- app_assoc.
  - intros j Hj. rewrite requests_snoc_request. now apply Hrun.
  - now rewrite requests_snoc_request.
Qed.

(** An item whose task never leaves the running state gives up after
    exactly the turns the clamped attempt count allows: that many status
    requests, each followed by a sleep of the clamped interval (the last
    one too), then the timeout error that names the handle and the
    clamped count as JavaScript writes it.  The turns are never more than
    1000.  They are the clamped count itself, between 1 and 1000, when
    the count that was read is a whole number; at least one, and the
    whole part of the count when the count is a fraction within the range
    (the message still names the fraction); and none when the count is
    [NaN]. *)
Theorem item_times_out_after_clamped_attempts
    (Number : value -> option Z)
    (transport : nat -> IHttpRequestOptions -> reply) (baseUrl : string)
    (nodeParams : list (string * value)) (p : Parameters)
    (item : INodeExecutionData) (i : nat) (t : trace)
    (binaryData : IBinaryData)
    (target : string * option (list (string * value))) (createResp : value) :
  binary_of item (binaryProperty p) = Some binaryData ->
  endpoint baseUrl p i t = (Ok target, t) ->
  transport (requests t)
    (createOptions (fst target) (snd target)
       (form_of binaryData (model_of p)))
  = Resolve createResp ->
  truthy (extractTaskId createResp) = true ->
  (forall j,
     (j < attempts (used_maxPollAttempts Number p nodeParams))%nat ->
     exists q,
       transport (S (requests t) + j)%nat
         (statusOptions (statusUrl_of baseUrl (extractTaskId createResp)))
       = Resolve q
       /\ still_running q) ->
  execute_item Number transport baseUrl nodeParams p item i t
  = (Throw
       (NodeOperationError
          ("Task " ++ toString (extractTaskId createResp)
           ++ " did not complete within polling limit ("
           ++ number_toString (used_maxPollAttempts Number p nodeParams)
           ++ " attempts)")
          (Some i)),
     (t ++ EvRequest
             (createOptions (fst target) (snd target)
                (form_of binaryData (model_of p)))
        :: running_polls (statusUrl_of baseUrl (extractTaskId createResp))
             (used_pollIntervalMs Number p nodeParams)
             (attempts (used_maxPollAttempts Number p nodeParams)))%list)
  /\ (attempts (used_maxPollAttempts Number p nodeParams) <= 1000)%nat
  /\ (forall n : Z,
        chosen_maxPollAttempts Number p nodeParams = whole n ->
        attempts (used_maxPollAttempts Number p nodeParams)
        = Z.to_nat (Z.min 1000 (Z.max 1 n))
        /\ number_toString (used_maxPollAttempts Number p nodeParams)
           = string_of_Z (Z.min 1000 (Z.max 1 n))
        /\ (1 <= attempts (used_maxPollAttempts Number p nodeParams))%nat)
  /\ (forall q text,
        chosen_maxPollAttempts Number p nodeParams = Num q text ->
        (1 <= attempts (used_maxPollAttempts Number p nodeParams))%nat
        /\ ((inject_Z 1 <= q <= inject_Z 1000)%Q ->
            attempts (used_maxPollAttempts Number p nodeParams)
            = Z.to_nat (Qfloor q)
            /\ number_toString (used_maxPollAttempts Number p nodeParams)
               = text))
  /\ (chosen_maxPollAttempts Number p nodeParams = NaN ->
      attempts (used_maxPollAttempts Number p nodeParams) = 0%nat
      /\ number_toString (used_maxPollAttempts Number p nodeParams) = "NaN").
Proof.
  intros Hb He Hr Hid Hrun.
  assert (Hm : 1 <= 1000) by lia.
  split; [ | split; [ | split; [ | split]]].
  - rewrite (execute_item_after_submit Number transport baseUrl nodeParams p
               item i t binaryData target Hb He createResp Hr).
    rewrite (poll_times_out transport baseUrl i createResp _ _ _ Hid).
    + now rewrite <- app_assoc.
    + intros j Hj. rewrite requests_snoc_request. now apply Hrun.
  - now apply attempts_clamp.
  - intros n E. unfold used_maxPollAttempts.
    rewrite E, clamp_whole, attempts_whole by assumption.
    repeat split; lia.
  - intros q text E. unfold used_maxPollAttempts. rewrite E. split.
    + apply (attempts_within 1 1000). now apply clamp_range.
    + intros Hin.
      destruct (clamp_nearest 1 1000 q text Hm) as [_ [_ Hkeep]].
      rewrite (Hkeep Hin). split; reflexivity.
  - intros E. unfold used_maxPollAttempts. rewrite E. split; reflexivity.
Qed.

(** The first scenario of the specification, read off the theorem: one
    poll finds the task processing, the next one finds it completed. *)
Lemma item_completes_on_terminal_success_witness :
  execute_item Fixtures.Number_of_text
    (Fixtures.answers [Fixtures.created; Fixtures.processing;
                       Fixtures.completed] Fixtures.processing)
    Fixtures.baseUrl [] (Fixtures.parameters_for "diarize" "" "")
    (Fixtures.item_with (Some "a.wav")) 0 []
  = (Ok {| item_json :=
             VObj [("task", VStr "diarize"); ("source_file", VStr "a.wav");
                   ("diarization", VObj [("text", VStr "hello")])];
           binary := binary (Fixtures.item_with (Some "a.wav"));
           pairedItem := 0 |},
     [EvRequest
        (createOptions
           "https://api.palatine.ru/api/v1/diarization/do_diarize" None
           [FormFile "file" [Byte.x52; Byte.x49; Byte.x46; Byte.x46]
              "audio/wav" "a.wav"]);
      EvRequest
        (statusOptions
           "https://api.palatine.ru/api/v1/transcribe/task_status/abc");
      EvSleep 500;
      EvRequest
        (statusOptions
           "https://api.palatine.ru/api/v1/transcribe/task_status/abc")]).
Proof.
  refine (item_completes_on_terminal_success Fixtures.Number_of_text
            (Fixtures.answers [Fixtures.created; Fixtures.processing;
                               Fixtures.completed] Fixtures.processing)
            Fixtures.baseUrl [] (Fixtures.parameters_for "diarize" "" "")
            (Fixtures.item_with (Some "a.wav")) 0%nat []
            (Fixtures.audio (Some "a.wav"))
            ("https://api.palatine.ru/api/v1/diarization/do_diarize", None)
            Fixtures.created 1%nat Fixtures.completed
            eq_refl eq_refl eq_refl eq_refl _ _ eq_refl eq_refl eq_refl).
  - vm_compute. lia.
  - intros j Hj. exists Fixtures.processing.
    split; [ | split; reflexivity].
    destruct j as [ | j]; [reflexivity | lia].
Defined.

(** A sentiment item configured with 100 ms and 2 attempts against a
    backend that answers "processing" for ever: the interval is raised to
    500 ms, two polls are made.  With 2.5 attempts two polls are made as
    well, and the error names 2.5 attempts. *)
Lemma item_times_out_after_clamped_attempts_witness :
  execute_item Fixtures.Number_of_text
    (Fixtures.answers [Fixtures.created] Fixtures.processing)
    Fixtures.baseUrl [] (Fixtures.parameters_polling "sentiment" 100 2)
    (Fixtures.item_with (Some "a.wav")) 0 []
  = (Throw
       (NodeOperationError
          "Task abc did not complete within polling limit (2 attempts)"
          (Some 0%nat)),
     [EvRequest
        (createOptions
           "https://api.palatine.ru/api/v1/sentiment_analysis/analyze_file"
           None
           [FormFile "file" [Byte.x52; Byte.x49; Byte.x46; Byte.x46]
              "audio/wav" "a.wav"]);
      EvRequest
        (statusOptions
           "https://api.palatine.ru/api/v1/transcribe/task_status/abc");
      EvSleep 500;
      EvRequest
        (statusOptions
           "https://api.palatine.ru/api/v1/transcribe/task_status/abc");
      EvSleep 500])
  /\ execute_item Fixtures.Number_of_text
       (Fixtures.answers [Fixtures.created] Fixtures.processing)
       Fixtures.baseUrl []
       (Fixtures.parameters_polling "sentiment" 100 (Num (5 # 2) "2.5"))
       (Fixtures.item_with (Some "a.wav")) 0 []
     = (Throw
          (NodeOperationError
             "Task abc did not complete within polling limit (2.5 attempts)"
             (Some 0%nat)),
        [EvRequest
           (createOptions
              "https://api.palatine.ru/api/v1/sentiment_analysis/analyze_file"
              None
              [FormFile "file" [Byte.x52; Byte.x49; Byte.x46; Byte.x46]
                 "audio/wav" "a.wav"]);
         EvRequest
           (statusOptions
              "https://api.palatine.ru/api/v1/transcribe/task_status/abc");
         EvSleep 500;
         EvRequest
           (statusOptions
              "https://api.palatine.ru/api/v1/transcribe/task_status/abc");
         EvSleep 500]).
Proof.
  split.
  - refine (proj1 (item_times_out_after_clamped_attempts
                     Fixtures.Number_of_text
                     (Fixtures.answers [Fixtures.created] Fixtures.processing)
                     Fixtures.baseUrl []
                     (Fixtures.parameters_polling "sentiment" 100 2)
                     (Fixtures.item_with (Some "a.wav")) 0%nat []
                     (Fixtures.audio (Some "a.wav"))
                     ("https://api.palatine.ru/api/v1/sentiment_analysis/analyze_file",
                      None)
                     Fixtures.created eq_refl eq_refl eq_refl eq_refl _)).
    intros j Hj. exists Fixtures.processing.
    split; [ | split; reflexivity].
    destruct j; reflexivity.
  - refine (proj1 (item_times_out_after_clamped_attempts
                     Fixtures.Number_of_text
                     (Fixtures.answers [Fixtures.created] Fixtures.processing)
                     Fixtures.baseUrl []
                     (Fixtures.parameters_polling "sentiment" 100
                        (Num (5 # 2) "2.5"))
                     (Fixtures.item_with (Some "a.wav")) 0%nat []
                     (Fixtures.audio (Some "a.wav"))
                     ("https://api.palatine.ru/api/v1/sentiment_analysis/analyze_file",
                      None)
                     Fixtures.created eq_refl eq_refl eq_refl eq_refl _)).
    intros j Hj. exists Fixtures.processing.
    split; [ | split; reflexivity].
    destruct j; reflexivity.
Defined.

(** A request that the transport rejects ends the item with a
    [NodeApiError] that carries the cause and the item index, and nothing
    is requested after it: a rejected submission is the only event of the
    item, and a rejected status request is its last event.  The node does
    not retry. *)
Theorem rejected_request_ends_item
    (Number : value -> option Z)
    (transport : nat -> IHttpRequestOptions -> reply) (baseUrl : string)
    (nodeParams : list (string * value)) (p : Parameters)
    (item : INodeExecutionData) (i : nat) (t : trace)
    (binaryData : IBinaryData)
    (target : string * option (list (string * value))) :
  binary_of item (binaryProperty p) = Some binaryData ->
  endpoint baseUrl p i t = (Ok target, t) ->
  (forall cause,
      transport (requests t)
        (createOptions (fst target) (snd target)
           (form_of binaryData (model_of p)))
      = Reject cause ->
      execute_item Number transport baseUrl nodeParams p item i t
      = (Throw (NodeApiError cause i),
         (t ++ [EvRequest
                  (createOptions (fst target) (snd target)
                     (form_of binaryData (model_of p)))])%list))
  /\ (forall createResp k cause,
        transport (requests t)
          (createOptions (fst target) (snd target)
             (form_of binaryData (model_of p)))
        = Resolve createResp ->
        truthy (extractTaskId createResp) = true ->
        (k < attempts (used_maxPollAttempts Number p nodeParams))%nat ->
        (forall j, (j < k)%nat ->
           exists q,
             transport (S (requests t) + j)%nat
               (statusOptions
                  (statusUrl_of baseUrl (extractTaskId createResp)))
             = Resolve q
             /\ still_running q) ->
        transport (S (requests t) + k)%nat
          (statusOptions (statusUrl_of baseUrl (extractTaskId createResp)))
        = Reject cause ->
        execute_item Number transport baseUrl nodeParams p item i t
        = (Throw (NodeApiError cause i),
           (t ++ EvRequest
                   (createOptions (fst target) (snd target)
                      (form_of binaryData (model_of p)))
              :: running_polls
                   (statusUrl_of baseUrl (extractTaskId createResp))
                   (used_pollIntervalMs Number p nodeParams) k
              ++ [EvRequest
                    (statusOptions
                       (statusUrl_of baseUrl
                          (extractTaskId createResp)))])%list)).
Proof.
  intros Hb He. split.
  - intros cause Hr.
    exact (execute_item_submit_rejected Number transport baseUrl nodeParams p
             item i t binaryData target Hb He cause Hr).
  - intros createResp k cause Hr Hid Hk Hrun Hrej.
    rewrite (execute_item_after_submit Number transport baseUrl nodeParams p
               item i t binaryData target Hb He createResp Hr).
    rewrite (poll_status_rejected transport baseUrl i createResp _ _ _ k
               cause Hid Hk).
    + now rewrite <- app_assoc.
    + intros j Hj. rewrite requests_snoc_request. now apply Hrun.
    + now rewrite requests_snoc_request.
Qed.

(** The second status request of a transcribe item is rejected. *)
Lemma rejected_request_ends_item_witness :
  execute_item Fixtures.Number_of_text
    (Fixtures.rejects_at 2 (VStr "ECONNRESET")
       [Fixtures.created; Fixtures.processing] Fixtures.completed)
    Fixtures.baseUrl [] (Fixtures.parameters_for "sentiment" "" "")
    (Fixtures.item_with (Some "a.wav")) 3 []
  = (Throw (NodeApiError (VStr "ECONNRESET") 3),
     [EvRequest
        (createOptions
           "https://api.palatine.ru/api/v1/sentiment_analysis/analyze_file"
           None
           [FormFile "file" [Byte.x52; Byte.x49; Byte.x46; Byte.x46]
              "audio/wav" "a.wav"]);
      EvRequest
        (statusOptions
           "https://api.palatine.ru/api/v1/transcribe/task_status/abc");
      EvSleep 500;
      EvRequest
        (statusOptions
           "https://api.palatine.ru/api/v1/transcribe/task_status/abc")]).
Proof.
  refine (proj2 (rejected_request_ends_item Fixtures.Number_of_text
                   (Fixtures.rejects_at 2 (VStr "ECONNRESET")
                      [Fixtures.created; Fixtures.processing]
                      Fixtures.completed)
                   Fixtures.baseUrl []
                   (Fixtures.parameters_for "sentiment" "" "")
                   (Fixtures.item_with (Some "a.wav")) 3%nat []
                   (Fixtures.audio (Some "a.wav"))
                   ("https://api.palatine.ru/api/v1/sentiment_analysis/analyze_file",
                    None)
                   eq_refl eq_refl)
            Fixtures.created 1%nat (VStr "ECONNRESET")
            eq_refl eq_refl _ _ eq_refl).
  - vm_compute. lia.
  - intros j Hj. exists Fixtures.processing.
    split; [ | split; reflexivity].
    destruct j as [ | j]; [reflexivity | lia].
Defined.

(** Whatever the task, what an item does after its submission is a strict
    alternation: a GET of the one status URL (built from the base URL and
    the handle of the create response), a sleep of the clamped interval,
    and so on; it never sleeps before the first status request and never
    twice in a row, and it ends either after the sleep of the last allowed
    attempt (the timeout) or right after a status request.  Without a
    handle nothing follows the submission. *)
Theorem item_events_alternate
    (Number : value -> option Z)
    (transport : nat -> IHttpRequestOptions -> reply) (baseUrl : string)
    (nodeParams : list (string * value)) (p : Parameters)
    (item : INodeExecutionData) (i : nat) (t : trace)
    (binaryData : IBinaryData)
    (target : string * option (list (string * value))) (createResp : value) :
  binary_of item (binaryProperty p) = Some binaryData ->
  endpoint baseUrl p i t = (Ok target, t) ->
  transport (requests t)
    (createOptions (fst target) (snd target)
       (form_of binaryData (model_of p)))
  = Resolve createResp ->
  exists out k last,
    execute_item Number transport baseUrl nodeParams p item i t
    = (out,
       (t ++ EvRequest
               (createOptions (fst target) (snd target)
                  (form_of binaryData (model_of p)))
          :: running_polls
               (baseUrl ++ "/api/v1/transcribe/task_status/"
                ++ toString (extractTaskId createResp))
               (used_pollIntervalMs Number p nodeParams) k
          ++ last)%list)
    /\ (last = []
        \/ last
           = [EvRequest
                {| method := "GET";
                   url := baseUrl ++ "/api/v1/transcribe/task_status/"
                          ++ toString (extractTaskId createResp);
                   qs := None; body := None; json := true |}])
    /\ (k + List.length last
        <= attempts (used_maxPollAttempts Number p nodeParams))%nat
    /\ (truthy (extractTaskId createResp) = false ->
        k = 0%nat /\ last = [])
    /\ (truthy (extractTaskId createResp) = true -> last = [] ->
        k = attempts (used_maxPollAttempts Number p nodeParams)).
Proof.
  intros Hb He Hr.
  rewrite (execute_item_after_submit Number transport baseUrl nodeParams p
             item i t binaryData target Hb He createResp Hr).
  unfold poll.
  destruct (truthy (extractTaskId createResp)) eqn:Hid.
  - destruct (poll_loop_shape transport i (extractTaskId createResp)
                (statusUrl_of baseUrl (extractTaskId createResp))
                (used_pollIntervalMs Number p nodeParams)
                (used_maxPollAttempts Number p nodeParams)
                (attempts (used_maxPollAttempts Number p nodeParams)) 1
                (t ++ [EvRequest
                         (createOptions (fst target) (snd target)
                            (form_of binaryData (model_of p)))])%list)
      as [out [k [last [E Hcases]]]].
    { lia. }
    { lia. }
    unfold bind. rewrite E, <- app_assoc. simpl.
    replace (Z.to_nat
               (Z.of_nat (attempts (used_maxPollAttempts Number p nodeParams))
                + 1 - 1))
      with (attempts (used_maxPollAttempts Number p nodeParams))
      in Hcases by lia.
    assert (Hshape :
              (last = []
               \/ last
                  = [EvRequest
                       (statusOptions
                          (statusUrl_of baseUrl (extractTaskId createResp)))])
              /\ (k + List.length last
                  <= attempts (used_maxPollAttempts Number p nodeParams))%nat
              /\ (last = [] ->
                  k = attempts (used_maxPollAttempts Number p nodeParams))).
    { destruct Hcases as [[-> [_ ->]] | [-> [_ [_ Hk]]]]; simpl;
        (split; [auto | split; [lia | (reflexivity || discriminate)]]). }
    destruct Hshape as [Hlast [Hcount Hfull]].
    destruct out as [[finalResponse | ] | e | ]; eexists _, k, last;
      (split; [reflexivity | ]); (split; [exact Hlast | ]);
      (split; [exact Hcount | ]);
      (split; [discriminate | intros _; exact Hfull]).
  - eexists _, 0%nat, []. simpl.
    split; [reflexivity | ]. split; [now left | ]. split; [lia | ].
    split; [auto | discriminate].
Qed.

(** A summarize item is polled under the transcribe status path too; its
    handle is a number. *)
Lemma item_events_alternate_witness :
  exists out k last,
    execute_item Fixtures.Number_of_text
      (Fixtures.answers [VObj [("taskId", VNum 42)]] Fixtures.processing)
      Fixtures.baseUrl []
      (Fixtures.parameters_for "summarize" "meeting_summary" "")
      (Fixtures.item_with None) 0 []
    = (out,
       EvRequest
         (createOptions
            "https://api.palatine.ru/api/v1/ai_service/summarize_file"
            (Some [("task", VStr "meeting_summary"); ("prompt", VStr "*");
                   ("thinking", VBool false)])
            [FormFile "file" [Byte.x52; Byte.x49; Byte.x46; Byte.x46]
               "audio/wav" "audio"])
       :: (running_polls
             "https://api.palatine.ru/api/v1/transcribe/task_status/42"
             20000 k ++ last)%list)
    /\ (k + List.length last <= 500)%nat.
Proof.
  destruct (item_events_alternate Fixtures.Number_of_text
              (Fixtures.answers [VObj [("taskId", VNum 42)]]
                 Fixtures.processing)
              Fixtures.baseUrl []
              (Fixtures.parameters_for "summarize" "meeting_summary" "")
              (Fixtures.item_with None) 0%nat [] (Fixtures.audio None)
              ("https://api.palatine.ru/api/v1/ai_service/summarize_file",
               Some [("task", VStr "meeting_summary"); ("prompt", VStr "*");
                     ("thinking", VBool false)])
              (VObj [("taskId", VNum 42)]) eq_refl eq_refl eq_refl)
    as [out [k [last [E [_ [Hcount _]]]]]].
  exists out, k, last. split; [exact E | exact Hcount].
Defined.

(** A configuration error is thrown before anything is requested, with
    the item index: binary data that is missing (whatever the task), a
    task that is none of the four, a summarize item without sub-task. *)
Theorem configuration_errors_issue_no_request
    (Number : value -> option Z)
    (transport : nat -> IHttpRequestOptions -> reply) (baseUrl : string)
    (nodeParams : list (string * value)) (p : Parameters)
    (item : INodeExecutionData) (i : nat) (t : trace) :
  (binary_of item (binaryProperty p) = None ->
   execute_item Number transport baseUrl nodeParams p item i t
   = (Throw
        (NodeOperationError
           ("No binary data in property " ++ dquote ++ binaryProperty p
            ++ dquote) (Some i)), t))
  /\ (forall binaryData,
        binary_of item (binaryProperty p) = Some binaryData ->
        ~ In (task p) TASKS ->
        execute_item Number transport baseUrl nodeParams p item i t
        = (Throw (NodeOperationError ("Unknown task: " ++ task p) (Some i)),
           t))
  /\ (forall binaryData,
        binary_of item (binaryProperty p) = Some binaryData ->
        task p = "summarize" -> summarizeTask p = "" ->
        execute_item Number transport baseUrl nodeParams p item i t
        = (Throw
             (NodeOperationError "Summarize: summarizeTask is missing"
                (Some i)), t)).
Proof.
  unfold execute_item. repeat split.
  - intros Hb. now rewrite Hb.
  - intros binaryData Hb Ht. rewrite Hb. unfold bind at 1, endpoint.
    destruct (String.eqb_spec (task p) "transcribe") as [E | _];
      [exfalso; apply Ht; rewrite E; simpl; tauto | ].
    destruct (String.eqb_spec (task p) "diarize") as [E | _];
      [exfalso; apply Ht; rewrite E; simpl; tauto | ].
    destruct (String.eqb_spec (task p) "sentiment") as [E | _];
      [exfalso; apply Ht; rewrite E; simpl; tauto | ].
    destruct (String.eqb_spec (task p) "summarize") as [E | _];
      [exfalso; apply Ht; rewrite E; simpl; tauto | ].
    reflexivity.
  - intros binaryData Hb Ht Hs. rewrite Hb. unfold bind at 1, endpoint.
    rewrite Ht, Hs. reflexivity.
Qed.

(** An item of an unknown task, with binary data. *)
Lemma configuration_errors_issue_no_request_witness :
  execute_item Fixtures.Number_of_text
    (Fixtures.answers [] Fixtures.completed) Fixtures.baseUrl []
    (Fixtures.parameters_for "translate" "" "")
    (Fixtures.item_with None) 2 []
  = (Throw (NodeOperationError "Unknown task: translate" (Some 2%nat)), []).
Proof.
  apply (proj1 (proj2 (configuration_errors_issue_no_request
                         Fixtures.Number_of_text
                         (Fixtures.answers [] Fixtures.completed)
                         Fixtures.baseUrl []
                         (Fixtures.parameters_for "translate" "" "")
                         (Fixtures.item_with None) 2%nat []))
           (Fixtures.audio None) eq_refl).
  simpl. intros [H | [H | [H | [H | []]]]]; discriminate.
Defined.

(** ** Output records *)

Lemma error_of_result (p : Parameters) (binaryData : IBinaryData)
    (finalResponse : value) :
  get (result_of p binaryData finalResponse) "error" = VUndefined.
Proof.
  unfold result_of, model_of.
  destruct (String.eqb (task p) "transcribe").
  - destruct (String.eqb (model p) ""); reflexivity.
  - destruct (String.eqb (task p) "diarize"); [reflexivity | ].
    destruct (String.eqb (task p) "sentiment"); [reflexivity | ].
    destruct (String.eqb (task p) "summarize"); reflexivity.
Qed.

(** A record that an item returns is the output record of some final
    response, for binary data that is there and a task that is one of the
    four. *)
Lemma execute_item_ok_record (Number : value -> option Z)
    (transport : nat -> IHttpRequestOptions -> reply) (baseUrl : string)
    (nodeParams : list (string * value)) (p : Parameters)
    (item : INodeExecutionData) (i : nat) (t t' : trace)
    (r : INodeExecutionData) :
  execute_item Number transport baseUrl nodeParams p item i t = (Ok r, t') ->
  exists binaryData finalResponse,
    binary_of item (binaryProperty p) = Some binaryData
    /\ In (task p) TASKS
    /\ r = {| item_json := result_of p binaryData finalResponse;
              binary := binary item;
              pairedItem := i |}.
Proof.
  intros Hrun.
  destruct (binary_of item (binaryProperty p)) as [binaryData | ] eqn:Hb.
  - destruct (endpoint_pure baseUrl p i t) as [[target He] | [e He]].
    + destruct (execute_item_submits Number transport baseUrl nodeParams p
                  item i t binaryData target Hb He)
        as [out [l [E [_ [_ [_ Hrec]]]]]].
      rewrite E in Hrun. injection Hrun as -> _.
      destruct (Hrec r eq_refl) as [finalResponse ->].
      exists binaryData, finalResponse. repeat split.
      now apply (endpoint_ok_task baseUrl p i t target).
    + destruct (execute_item_stops Number transport baseUrl nodeParams p item
                  i t (or_intror (ex_intro _ e He))) as [e' E].
      congruence.
  - destruct (execute_item_stops Number transport baseUrl nodeParams p item
                i t (or_introl Hb)) as [e' E].
    congruence.
Qed.

(** Every record an item returns names the task, which is one of the
    four, holds the raw file name of the attachment under [source_file],
    has no [error] field, carries the binary data of the input item
    forward and is paired with the index of the item. *)
Theorem output_record_of_item
    (Number : value -> option Z)
    (transport : nat -> IHttpRequestOptions -> reply) (baseUrl : string)
    (nodeParams : list (string * value)) (p : Parameters)
    (item : INodeExecutionData) (i : nat) (t t' : trace)
    (r : INodeExecutionData) :
  execute_item Number transport baseUrl nodeParams p item i t = (Ok r, t') ->
  In (task p) TASKS
  /\ get (item_json r) "task" = VStr (task p)
  /\ (exists binaryData,
        binary_of item (binaryProperty p) = Some binaryData
        /\ get (item_json r) "source_file" = opt_value (fileName binaryData))
  /\ get (item_json r) "error" = VUndefined
  /\ binary r = binary item
  /\ pairedItem r = i.
Proof.
  intros Hrun.
  destruct (execute_item_ok_record Number transport baseUrl nodeParams p item
              i t t' r Hrun) as [binaryData [finalResponse [Hb [Ht ->]]]].
  simpl item_json.
  split; [assumption | ]. split; [reflexivity | ].
  split; [exists binaryData; split; [assumption | reflexivity] | ].
  split; [apply error_of_result | ]. split; reflexivity.
Qed.

(** The record of a diarize item that completes without polling. *)
Lemma output_record_of_item_witness :
  exists r t',
    execute_item Fixtures.Number_of_text
      (Fixtures.answers [VObj [("segments", VArr [])]] Fixtures.processing)
      Fixtures.baseUrl [] (Fixtures.parameters_for "diarize" "" "")
      (Fixtures.item_with (Some "a.wav")) 5 []
    = (Ok r, t')
    /\ get (item_json r) "task" = VStr "diarize"
    /\ binary r = binary (Fixtures.item_with (Some "a.wav"))
    /\ pairedItem r = 5%nat.
Proof.
  eexists. eexists. split; [vm_compute; reflexivity | ].
  pose proof (output_record_of_item Fixtures.Number_of_text
                (Fixtures.answers [VObj [("segments", VArr [])]]
                   Fixtures.processing)
                Fixtures.baseUrl [] (Fixtures.parameters_for "diarize" "" "")
                (Fixtures.item_with (Some "a.wav")) 5%nat [] _ _ eq_refl)
    as [_ [Htask [_ [_ [Hbin Hpair]]]]].
  split; [exact Htask | split; [exact Hbin | exact Hpair]].
Defined.

(** ** All items *)

Section Loop.

Variable Number : value -> option Z.
Variable transport : nat -> IHttpRequestOptions -> reply.
Variable apiErrorMessage : value -> string.
Variable baseUrl : string.
Variable nodeParams : list (string * value).
Variable getNodeParameter : nat -> Parameters.

Let body (item : INodeExecutionData) (i : nat) : M INodeExecutionData :=
  execute_item Number transport baseUrl nodeParams (getNodeParameter i) item i.

Let loop (continueOnFail : bool) :=
  execute_from Number transport apiErrorMessage baseUrl nodeParams
    getNodeParameter continueOnFail.

(** One step of the loop. *)
Lemma execute_from_cons (continueOnFail : bool) (item : INodeExecutionData)
    (rest : list INodeExecutionData) (i : nat) (t : trace) :
  loop continueOnFail (item :: rest) i t
  = match try_item apiErrorMessage continueOnFail i (body item i) t with
    | (Ok r, t1) =>
        match loop continueOnFail rest (S i) t1 with
        | (Ok returnData, t2) => (Ok (r :: returnData), t2)
        | (Throw e, t2) => (Throw e, t2)
        | (OutOfFuel, t2) => (OutOfFuel, t2)
        end
    | (Throw e, t1) => (Throw e, t1)
    | (OutOfFuel, t1) => (OutOfFuel, t1)
    end.
Proof.
  unfold loop, body. simpl. unfold bind.
  destruct (try_item apiErrorMessage continueOnFail i _ t) as [[r | e | ] t1];
    reflexivity.
Qed.

(** What the [try]/[catch] makes of the body of an item. *)
Lemma try_item_cases (continueOnFail : bool) (item : INodeExecutionData)
    (i : nat) (t : trace) :
  (exists r t1,
      body item i t = (Ok r, t1)
      /\ try_item apiErrorMessage continueOnFail i (body item i) t
         = (Ok r, t1))
  \/ (exists e t1,
        body item i t = (Throw e, t1)
        /\ try_item apiErrorMessage continueOnFail i (body item i) t
           = if continueOnFail
             then (Ok {| item_json :=
                           VObj [("error",
                                  VStr (message_of apiErrorMessage e))];
                         binary := None;
                         pairedItem := i |}, t1)
             else (Throw e, t1)).
Proof.
  unfold try_item.
  destruct (execute_item_events Number transport baseUrl nodeParams
              (getNodeParameter i) item i t) as [out [l [E [Hout _]]]].
  fold (body item i) in E. rewrite E.
  destruct out as [r | e | ]; [left | right | congruence]; eauto.
Qed.

End Loop.

Section Execution.

Variable Number : value -> option Z.
Variable transport : nat -> IHttpRequestOptions -> reply.
Variable apiErrorMessage : value -> string.
Variable baseUrl : string.
Variable nodeParams : list (string * value).
Variable getNodeParameter : nat -> Parameters.

(** The records the loop returns: one per item, in order, each paired with
    the index of its item; a record is the output record of its item, or,
    with [continueOnFail] only, an error record. *)
Lemma execute_from_records (continueOnFail : bool)
    (items : list INodeExecutionData) :
  forall (i : nat) (t t' : trace) (returnData : list INodeExecutionData),
    execute_from Number transport apiErrorMessage baseUrl nodeParams
      getNodeParameter continueOnFail items i t = (Ok returnData, t') ->
    List.length returnData = List.length items
    /\ forall k item r,
         nth_error items k = Some item ->
         nth_error returnData k = Some r ->
         pairedItem r = (i + k)%nat
         /\ ((get (item_json r) "error" = VUndefined
              /\ get (item_json r) "task"
                 = VStr (task (getNodeParameter (i + k)%nat))
              /\ binary r = binary item)
             \/ (continueOnFail = true
                 /\ binary r = None
                 /\ exists e,
                      item_json r
                      = VObj [("error",
                               VStr (message_of apiErrorMessage e))])).
Proof.
  induction items as [ | item rest IH]; intros i t t' returnData Hrun.
  - simpl in Hrun. injection Hrun as <- _. split; [reflexivity | ].
    intros k item r Hk. destruct k; discriminate.
  - rewrite execute_from_cons in Hrun.
    assert (Hhead :
              exists r0 t1,
                try_item apiErrorMessage continueOnFail i
                  (execute_item Number transport baseUrl nodeParams
                     (getNodeParameter i) item i) t = (Ok r0, t1)
                /\ pairedItem r0 = i
                /\ ((get (item_json r0) "error" = VUndefined
                     /\ get (item_json r0) "task"
                        = VStr (task (getNodeParameter i))
                     /\ binary r0 = binary item)
                    \/ (continueOnFail = true
                        /\ binary r0 = None
                        /\ exists e,
                             item_json r0
                             = VObj [("error",
                                      VStr (message_of apiErrorMessage e))]))).
    { destruct (try_item_cases Number transport apiErrorMessage baseUrl
                  nodeParams getNodeParameter continueOnFail item i t)
        as [[r0 [t1 [Hbody Htry]]] | [e [t1 [Hbody Htry]]]].
      - exists r0, t1. split; [exact Htry | ].
        destruct (execute_item_ok_record _ _ _ _ _ _ _ _ _ _ Hbody)
          as [binaryData [finalResponse [_ [_ ->]]]].
        split; [reflexivity | left]. simpl item_json. simpl binary.
        split; [apply error_of_result | split; reflexivity].
      - rewrite Htry in Hrun. destruct continueOnFail; [ | discriminate].
        eexists _, t1. split; [exact Htry | ].
        split; [reflexivity | right]. simpl. eauto. }
    destruct Hhead as [r0 [t1 [Htry [Hpair Hkind]]]].
    rewrite Htry in Hrun.
    destruct (execute_from Number transport apiErrorMessage baseUrl nodeParams
                getNodeParameter continueOnFail rest (S i) t1)
      as [[rs | e | ] t2] eqn:Erest; try discriminate.
    injection Hrun as <- _.
    destruct (IH (S i) t1 t2 rs Erest) as [Hlen Hrec].
    split; [simpl; now rewrite Hlen | ].
    intros k it r Hk Hr. destruct k as [ | k]; simpl in Hk, Hr.
    + injection Hk as <-. injection Hr as <-.
      rewrite Nat.add_0_r. split; assumption.
    + replace (i + S k)%nat with (S i + k)%nat by lia.
      now apply (Hrec k it r).
Qed.

(** With [continueOnFail] the loop never throws. *)
Lemma execute_from_continues (items : list INodeExecutionData) :
  forall (i : nat) (t : trace),
    exists returnData t',
      execute_from Number transport apiErrorMessage baseUrl nodeParams
        getNodeParameter true items i t = (Ok returnData, t').
Proof.
  induction items as [ | item rest IH]; intros i t.
  - exists [], t. reflexivity.
  - rewrite execute_from_cons.
    destruct (try_item_cases Number transport apiErrorMessage baseUrl
                nodeParams getNodeParameter true item i t)
      as [[r0 [t1 [_ Htry]]] | [e [t1 [_ Htry]]]];
      rewrite Htry; destruct (IH (S i) t1) as [rs [t2 E]]; rewrite E; eauto.
Qed.

(** Without [continueOnFail] a throw of the loop is the throw of one item:
    the items before it returned their records, and the trace ends where
    that item stopped, so no later item has issued a request. *)
Lemma execute_from_first_failure (items : list INodeExecutionData) :
  forall (i : nat) (t t' : trace) (e : error),
    execute_from Number transport apiErrorMessage baseUrl nodeParams
      getNodeParameter false items i t = (Throw e, t') ->
    exists done item rest returnData t0,
      items = (done ++ item :: rest)%list
      /\ execute_from Number transport apiErrorMessage baseUrl nodeParams
           getNodeParameter false done i t = (Ok returnData, t0)
      /\ execute_item Number transport baseUrl nodeParams
           (getNodeParameter (i + List.length done)%nat) item
           (i + List.length done)%nat t0
         = (Throw e, t').
Proof.
  induction items as [ | item rest IH]; intros i t t' e Hrun.
  - discriminate.
  - rewrite execute_from_cons in Hrun.
    destruct (try_item_cases Number transport apiErrorMessage baseUrl
                nodeParams getNodeParameter false item i t)
      as [[r0 [t1 [Hbody Htry]]] | [e0 [t1 [Hbody Htry]]]];
      rewrite Htry in Hrun.
    + destruct (execute_from Number transport apiErrorMessage baseUrl
                  nodeParams getNodeParameter false rest (S i) t1)
        as [[rs | e1 | ] t2] eqn:Erest; try discriminate.
      injection Hrun as -> ->.
      destruct (IH (S i) t1 t' e Erest)
        as [done [it [rest' [outs [t0 [Hitems [Hdone Hit]]]]]]].
      exists (item :: done), it, rest', (r0 :: outs), t0.
      split; [now rewrite Hitems | ]. split.
      * rewrite execute_from_cons, Htry, Hdone. reflexivity.
      * simpl List.length.
        now replace (i + S (List.length done))%nat
          with (S i + List.length done)%nat by lia.
    + injection Hrun as -> ->.
      exists [], item, rest, [], t.
      split; [reflexivity | ]. split; [reflexivity | ].
      simpl. now rewrite Nat.add_0_r.
Qed.

End Execution.

(** ** [execute] as a whole *)

(** When [execute] returns, it returns one record per input item, in the
    order of the items, each paired with the index of its item.  A record
    is the output record of its item (it names the task, has no [error]
    field and carries the item's binary data forward) or, only when
    [continueOnFail] is set, an error record that holds the message and
    no binary data. *)
Theorem execute_returns_one_record_per_item
    (Number : value -> option Z)
    (transport : nat -> IHttpRequestOptions -> reply)
    (apiErrorMessage : value -> string) (credentials_baseUrl : value)
    (parameters : option (list (string * value)))
    (getNodeParameter : nat -> Parameters) (continueOnFail : bool)
    (items : list INodeExecutionData) (t t' : trace)
    (returnData : list INodeExecutionData) :
  execute Number transport apiErrorMessage credentials_baseUrl parameters
    getNodeParameter continueOnFail items t = (Ok returnData, t') ->
  List.length returnData = List.length items
  /\ forall k item r,
       nth_error items k = Some item ->
       nth_error returnData k = Some r ->
       pairedItem r = k
       /\ ((get (item_json r) "error" = VUndefined
            /\ get (item_json r) "task" = VStr (task (getNodeParameter k))
            /\ binary r = binary item)
           \/ (continueOnFail = true
               /\ binary r = None
               /\ exists e,
                    item_json r
                    = VObj [("error", VStr (message_of apiErrorMessage e))])).
Proof.
  unfold execute.
  destruct (String.eqb (baseUrl_of credentials_baseUrl) "");
    [discriminate | ].
  intros Hrun.
  exact (execute_from_records Number transport apiErrorMessage _ _
           getNodeParameter continueOnFail items 0%nat t t' returnData Hrun).
Qed.

(** Two items, the second without binary data, with [continueOnFail]. *)
Lemma execute_returns_one_record_per_item_witness :
  exists returnData t',
    execute Fixtures.Number_of_text
      (Fixtures.answers [VObj [("segments", VArr [])]] Fixtures.processing)
      (fun _ => "request failed") (VStr "https://api.palatine.ru/") None
      (fun _ => Fixtures.parameters_for "diarize" "" "") true
      [Fixtures.item_with (Some "a.wav");
       {| item_json := VObj []; binary := None; pairedItem := 0 |}] []
    = (Ok returnData, t')
    /\ List.length returnData = 2%nat.
Proof.
  eexists. eexists. split; [vm_compute; reflexivity | ].
  exact (proj1 (execute_returns_one_record_per_item Fixtures.Number_of_text
                  (Fixtures.answers [VObj [("segments", VArr [])]]
                     Fixtures.processing)
                  (fun _ => "request failed")
                  (VStr "https://api.palatine.ru/") None
                  (fun _ => Fixtures.parameters_for "diarize" "" "") true
                  [Fixtures.item_with (Some "a.wav");
                   {| item_json := VObj []; binary := None;
                      pairedItem := 0 |}] [] _ _ eq_refl)).
Defined.

(** With [continueOnFail] set and a base URL that is not empty, [execute]
    never throws: whatever the transport answers and whatever the items
    are, it returns a record for every item. *)
Theorem execute_with_continueOnFail_never_throws
    (Number : value -> option Z)
    (transport : nat -> IHttpRequestOptions -> reply)
    (apiErrorMessage : value -> string) (credentials_baseUrl : value)
    (parameters : option (list (string * value)))
    (getNodeParameter : nat -> Parameters)
    (items : list INodeExecutionData) (t : trace) :
  baseUrl_of credentials_baseUrl <> "" ->
  exists returnData t',
    execute Number transport apiErrorMessage credentials_baseUrl parameters
      getNodeParameter true items t = (Ok returnData, t')
    /\ List.length returnData = List.length items.
Proof.
  intros Hurl. unfold execute.
  apply String.eqb_neq in Hurl. rewrite Hurl.
  destruct (execute_from_continues Number transport apiErrorMessage
              (baseUrl_of credentials_baseUrl)
              match parameters with Some ps => ps | None => [] end
              getNodeParameter items 0%nat t) as [returnData [t' E]].
  exists returnData, t'. split; [exact E | ].
  exact (proj1 (execute_from_records Number transport apiErrorMessage _ _
                  getNodeParameter true items 0%nat t t' returnData E)).
Qed.

(** A transport that rejects every request, two transcribe items. *)
Lemma execute_with_continueOnFail_never_throws_witness :
  exists returnData t',
    execute Fixtures.Number_of_text (fun _ _ => Reject (VStr "offline"))
      (fun _ => "request failed") (VStr "https://api.palatine.ru") None
      (fun _ => Fixtures.parameters_for "transcribe" "" "") true
      [Fixtures.item_with None; Fixtures.item_with (Some "b.wav")] []
    = (Ok returnData, t')
    /\ List.length returnData = 2%nat.
Proof.
  apply (execute_with_continueOnFail_never_throws Fixtures.Number_of_text
           (fun _ _ => Reject (VStr "offline")) (fun _ => "request failed")
           (VStr "https://api.palatine.ru") None
           (fun _ => Fixtures.parameters_for "transcribe" "" "")
           [Fixtures.item_with None; Fixtures.item_with (Some "b.wav")] []).
  vm_compute. discriminate.
Defined.

(** A credential whose base URL is missing, empty or just a slash makes
    [execute] throw before any item is looked at and before any request,
    also when [continueOnFail] is set: this error is raised outside the
    per-item [try] and carries no item index. *)
Theorem execute_rejects_empty_base_url
    (Number : value -> option Z)
    (transport : nat -> IHttpRequestOptions -> reply)
    (apiErrorMessage : value -> string) (credentials_baseUrl : value)
    (parameters : option (list (string * value)))
    (getNodeParameter : nat -> Parameters) (continueOnFail : bool)
    (items : list INodeExecutionData) (t : trace) :
  truthy credentials_baseUrl = false \/ credentials_baseUrl = VStr "/" ->
  execute Number transport apiErrorMessage credentials_baseUrl parameters
    getNodeParameter continueOnFail items t
  = (Throw
       (NodeOperationError
          ("Credential " ++ dquote ++ "Base URL" ++ dquote ++ " is empty")
          None), t).
Proof.
  intros H. unfold execute.
  assert (E : baseUrl_of credentials_baseUrl = "").
  { destruct H as [H | ->]; [ | reflexivity].
    unfold baseUrl_of, or_else. now rewrite H. }
  now rewrite E.
Qed.

(** A base URL that is just a slash, with [continueOnFail]. *)
Lemma execute_rejects_empty_base_url_witness :
  execute Fixtures.Number_of_text
    (Fixtures.answers [] Fixtures.completed) (fun _ => "request failed")
    (VStr "/") None (fun _ => Fixtures.parameters_for "transcribe" "" "")
    true [Fixtures.item_with None] []
  = (Throw
       (NodeOperationError
          ("Credential " ++ dquote ++ "Base URL" ++ dquote ++ " is empty")
          None), []).
Proof.
  apply (execute_rejects_empty_base_url Fixtures.Number_of_text
           (Fixtures.answers [] Fixtures.completed)
           (fun _ => "request failed") (VStr "/") None
           (fun _ => Fixtures.parameters_for "transcribe" "" "") true
           [Fixtures.item_with None] []).
  right. reflexivity.
Defined.

(** Without [continueOnFail], [execute] throws either for an empty base
    URL, before anything else, or because one item threw: then the items
    before it had returned their records, the error is that item's, and
    the events of the run end where that item stopped, so the items after
    it have issued no request.  The records of the earlier items are
    lost with the throw. *)
Theorem execute_stops_at_first_failure
    (Number : value -> option Z)
    (transport : nat -> IHttpRequestOptions -> reply)
    (apiErrorMessage : value -> string) (credentials_baseUrl : value)
    (parameters : option (list (string * value)))
    (getNodeParameter : nat -> Parameters)
    (items : list INodeExecutionData) (t t' : trace) (e : error) :
  execute Number transport apiErrorMessage credentials_baseUrl parameters
    getNodeParameter false items t = (Throw e, t') ->
  (baseUrl_of credentials_baseUrl = "" /\ t' = t)
  \/ (exists done item rest returnData t0,
        items = (done ++ item :: rest)%list
        /\ execute Number transport apiErrorMessage credentials_baseUrl
             parameters getNodeParameter false done t = (Ok returnData, t0)
        /\ execute_item Number transport
             (baseUrl_of credentials_baseUrl)
             match parameters with Some ps => ps | None => [] end
             (getNodeParameter (List.length done)) item (List.length done) t0
           = (Throw e, t')).
Proof.
  unfold execute.
  destruct (String.eqb_spec (baseUrl_of credentials_baseUrl) "") as [E | N].
  - intros Hrun. left. split; [exact E | ]. unfold throw in Hrun. congruence.
  - intros Hrun. right.
    destruct (execute_from_first_failure Number transport apiErrorMessage _ _
                getNodeParameter items 0%nat t t' e Hrun)
      as [done [item [rest [outs [t0 [Hitems [Hdone Hit]]]]]]].
    exists done, item, rest, outs, t0. repeat split; assumption.
Qed.

(** Three items without [continueOnFail]; the second has no binary data:
    the third is never submitted. *)
Lemma execute_stops_at_first_failure_witness :
  exists e t',
    execute Fixtures.Number_of_text
      (Fixtures.answers [VObj [("segments", VArr [])]] Fixtures.processing)
      (fun _ => "request failed") (VStr "https://api.palatine.ru") None
      (fun _ => Fixtures.parameters_for "diarize" "" "") false
      [Fixtures.item_with (Some "a.wav");
       {| item_json := VObj []; binary := None; pairedItem := 0 |};
       Fixtures.item_with (Some "c.wav")] []
    = (Throw e, t')
    /\ requests t' = 1%nat.
Proof.
  eexists. eexists. split; [vm_compute; reflexivity | ].
  destruct (execute_stops_at_first_failure Fixtures.Number_of_text
              (Fixtures.answers [VObj [("segments", VArr [])]]
                 Fixtures.processing)
              (fun _ => "request failed") (VStr "https://api.palatine.ru")
              None (fun _ => Fixtures.parameters_for "diarize" "" "")
              [Fixtures.item_with (Some "a.wav");
               {| item_json := VObj []; binary := None; pairedItem := 0 |};
               Fixtures.item_with (Some "c.wav")] [] _ _ eq_refl)
    as [_ | _]; reflexivity.
Defined.

(** ** Small guarantees of the submission *)

(** The prompt of a summarize submission is never empty and never has
    blanks around it, whatever the sub-task and the prompt text. *)
Theorem prompt_is_never_empty (summarizeTask summarizePromptRaw : string) :
  promptToSend summarizeTask summarizePromptRaw <> ""
  /\ trim (promptToSend summarizeTask summarizePromptRaw)
     = promptToSend summarizeTask summarizePromptRaw.
Proof.
  unfold promptToSend.
  destruct (String.eqb summarizeTask "meeting_summary");
    [split; [discriminate | reflexivity] | ].
  rewrite str_or_self. unfold str_or.
  destruct (String.eqb_spec (trim summarizePromptRaw) "") as [E | N].
  - split; [discriminate | reflexivity].
  - split; [exact N | apply trim_idempotent].
Qed.

Lemma opt_or_nonempty (o : option string) (d : string) :
  d <> "" -> opt_or o d <> "".
Proof.
  intros Hd. destruct o as [s | ]; simpl; [ | exact Hd].
  unfold str_or. now destruct (String.eqb_spec s "").
Qed.

(** What [new Blob] keeps of a type: nothing when a code unit is outside
    U+0020..U+007E, else the type in lower case, which is empty only when
    the type is. *)
Lemma Blob_type_cases (type : string) :
  (every isTypeChar type = true -> Blob_type type = toLowerCase type)
  /\ (every isTypeChar type = false -> Blob_type type = "")
  /\ (Blob_type type = "" <-> type = "" \/ every isTypeChar type = false).
Proof.
  unfold Blob_type. destruct (every isTypeChar type) eqn:E.
  - repeat split; try discriminate; try reflexivity.
    + intros H. left. apply String.eqb_eq.
      rewrite <- toLowerCase_eqb_empty. now apply String.eqb_eq.
    + intros [-> | H]; [reflexivity | discriminate].
  - repeat split; try discriminate; try reflexivity. auto.
Qed.

(** [every isTypeChar]: all the code units are in U+0020..U+007E. *)
Lemma every_isTypeChar (s : string) :
  (every isTypeChar s = true <->
   forall c, In c (list_ascii_of_string s) ->
             (32 <= N_of_ascii c <= 126)%N)
  /\ (every isTypeChar s = false <->
      exists c, In c (list_ascii_of_string s)
                /\ ((N_of_ascii c < 32)%N \/ (126 < N_of_ascii c)%N)).
Proof.
  induction s as [ | c r [IHt IHf]]; simpl.
  - split; split; try discriminate; try reflexivity.
    + intros _ c [].
    + intros [c [[] _]].
  - unfold isTypeChar at 1 3. unfold code.
    destruct (N.leb_spec 32 (N_of_ascii c)) as [H1 | H1];
      destruct (N.leb_spec (N_of_ascii c) 126) as [H2 | H2]; simpl;
      try rewrite IHt; try rewrite IHf; split; split;
      try discriminate; try reflexivity.
    + intros H x [<- | Hx]; [lia | auto].
    + intros H x Hx. apply H. now right.
    + intros [x [Hx Hout]]. exists x. split; [now right | assumption].
    + intros [x [[<- | Hx] Hout]]; [lia | eauto].
    + intros H. specialize (H c (or_introl eq_refl)). lia.
    + intros _. exists c. split; [now left | lia].
    + intros H. specialize (H c (or_introl eq_refl)). lia.
    + intros _. exists c. split; [now left | lia].
    + intros H. specialize (H c (or_introl eq_refl)). lia.
    + intros _. exists c. split; [now left | lia].
Qed.

(** The multipart form always starts with the attachment's bytes,
    unchanged, under the field [file].  Its file name is never empty: the
    attachment's own when it has one, [audio] when that is missing or
    empty.  Its type is what [new Blob] keeps of the attachment's MIME
    type, or of [audio/mpeg] when that is missing or empty: the type in
    lower case when all its code units are in U+0020..U+007E (32 to 126),
    and the empty string as soon as one is not, so that the type of the
    upload is empty exactly for an attachment whose MIME type holds such
    a code unit.  At most one more field follows. *)
Theorem upload_is_named_and_typed_by_Blob (binaryData : IBinaryData)
    (model : option string) :
  exists type filename fields,
    form_of binaryData model
    = (FormFile "file" (data binaryData) type filename :: fields)%list
    /\ filename <> ""
    /\ (forall n, fileName binaryData = Some n -> n <> "" -> filename = n)
    /\ (fileName binaryData = None \/ fileName binaryData = Some "" ->
        filename = "audio")
    /\ (forall m,
          mimeType binaryData = Some m -> m <> "" ->
          ((forall c, In c (list_ascii_of_string m) ->
                      (32 <= N_of_ascii c <= 126)%N) ->
           type = toLowerCase m /\ type <> "")
          /\ ((exists c, In c (list_ascii_of_string m)
                         /\ ((N_of_ascii c < 32)%N
                             \/ (126 < N_of_ascii c)%N)) ->
              type = ""))
    /\ (mimeType binaryData = None \/ mimeType binaryData = Some "" ->
        type = "audio/mpeg")
    /\ (type = "" <->
        exists m c,
          mimeType binaryData = Some m
          /\ In c (list_ascii_of_string m)
          /\ ((N_of_ascii c < 32)%N \/ (126 < N_of_ascii c)%N))
    /\ (List.length fields <= 1)%nat.
Proof.
  unfold form_of. eexists _, _, _. split; [reflexivity | ].
  split; [apply opt_or_nonempty; discriminate | ].
  split; [intros n -> Hn; simpl; now apply str_or_nonempty | ].
  split; [intros [-> | ->]; reflexivity | ].
  split; [ | split; [ | split]].
  - intros m -> Hm. simpl. rewrite (str_or_nonempty _ _ Hm).
    destruct (Blob_type_cases m) as [Hlow [Hnone Hiff]].
    destruct (every_isTypeChar m) as [Hin Hout].
    split.
    + intros E. apply Hin in E. split; [now apply Hlow | ].
      intros H. apply Hiff in H. destruct H as [H | H]; congruence.
    + intros E. apply Hout in E. now apply Hnone.
  - intros [-> | ->]; reflexivity.
  - destruct (mimeType binaryData) as [m | ]; simpl.
    + destruct (every_isTypeChar m) as [_ Hout].
      unfold str_or. destruct (String.eqb_spec m "") as [-> | Hm].
      * split; [discriminate | ].
        intros [m [c [E [Hc _]]]]. injection E as <-. contradiction.
      * destruct (Blob_type_cases m) as [_ [Hnone Hiff]]. split.
        -- intros H. apply Hiff in H. destruct H as [H | H]; [contradiction | ].
           apply Hout in H. destruct H as [c [Hc Hr]]. now exists m, c.
        -- intros [m' [c [E H]]]. injection E as <-. apply Hnone, Hout.
           now exists c.
    + split; [discriminate | ]. intros [m [c [E _]]]. discriminate.
  - destruct model as [m | ]; [destruct (String.eqb m "") | ]; simpl; lia.
Qed.

(** An attachment whose MIME type is written in capitals is uploaded with
    the type in lower case, and U+007E is kept; one whose MIME type holds
    a character outside U+0020..U+007E (U+00E9, U+007F, a tab) is uploaded
    without a type. *)
Example upload_types :
  form_of {| fileName := Some "a.wav"; mimeType := Some "Audio/WAV; a=~";
             data := [] |} None
  = [FormFile "file" [] "audio/wav; a=~" "a.wav"]
  /\ form_of {| fileName := Some "a.wav";
                mimeType := Some ("audio/" ++ String (ascii_of_N 233) "");
                data := [] |} None
     = [FormFile "file" [] "" "a.wav"]
  /\ form_of {| fileName := Some "a.wav";
                mimeType := Some ("audio/" ++ String (ascii_of_N 127) "");
                data := [] |} None
     = [FormFile "file" [] "" "a.wav"]
  /\ form_of {| fileName := Some "a.wav";
                mimeType := Some ("audio/" ++ String (ascii_of_N 9) "wav");
                data := [] |} None
     = [FormFile "file" [] "" "a.wav"].
Proof. repeat split; reflexivity. Qed.

(** ** Status replies that are not objects *)

(** A status reply that is not a JSON object (text, a number, an array,
    [null]) or that is an object with none of the status and result
    fields is neither terminal state: the loop sleeps and polls again. *)
Theorem non_object_status_is_still_running (p : value) :
  ((forall fields, p <> VObj fields) -> still_running p)
  /\ ((forall f, In f STATUS_FIELDS \/ In f RESULT_FIELDS ->
                 get p f = VUndefined) ->
      still_running p).
Proof.
  split.
  - intros H. destruct p; try (split; reflexivity).
    exfalso. now apply (H fields).
  - intros H. unfold still_running, isTerminalFailure, isTerminalSuccess,
      status_of, hasResult.
    rewrite !H by (simpl; tauto). split; reflexivity.
Qed.

(** A backend that answers the status request with plain text. *)
Lemma non_object_status_is_still_running_witness :
  still_running (VStr "completed").
Proof.
  apply (proj1 (non_object_status_is_still_running (VStr "completed"))).
  discriminate.
Defined.
